(** * figma-sync: the text artifact store, the GitHub synchroniser and the
    controller of the API

    A shallow embedding of [src/services/text.service.ts] (class
    [TextService]), of [src/services/github.service.ts] (class
    [GitHubService]), of [src/config/env.ts] and of
    [src/controllers/text.controller.ts] (class [TextController]), followed
    by the properties of the specification that concern them and by further
    properties of the code.

    The methods are functions that pass the state along: the state of the
    world outside the process (the wall clock, the remote repository behind
    Octokit), the list of the remote calls issued so far, and for the store
    the heap of its records.  What the world does is left open: the clock
    and the remote are interfaces ([JS.Clock], [GitHub.Octokit]), and so are
    the codecs of the runtime that the services only call ([GitHub.Buffer],
    [Text.JSON]).  The operations of the language whose details the
    properties depend on are written out: [String.prototype.replace] with
    the expansion of its replacement text, [includes], [split],
    [Date.prototype.toISOString], and the reading and writing of a property
    of a plain object, prototype included.

    A JSON document is taken to have the shape the interfaces [TextArtifact]
    and [TextItem] declare, except that any field may be missing where the
    service allows for it.  Of the body of a request, and of what the
    validation of the environment throws, only what the code tells apart is
    kept. *)

From Stdlib Require Import ZArith List String Ascii Bool Lia.
Import ListNotations.
Open Scope string_scope.

(* ===================================================================== *)
(** * Part I.  The JavaScript runtime the services rely on              *)
(* ===================================================================== *)

Module JS.

(** JavaScript strings are sequences of code units; they are modelled by
    [string], a sequence of characters.  Every operation below only compares
    and copies units, so the width of a unit plays no role. *)

(** [strip_prefix p s] is [Some r] exactly when [s = p ++ r]. *)
Fixpoint strip_prefix (p s : string) : option string :=
  match p, s with
  | EmptyString, _ => Some s
  | String a p', String b s' =>
      if Ascii.eqb a b then strip_prefix p' s' else None
  | String _ _, EmptyString => None
  end.

(** The first occurrence of [pat] in [s], as the text before it and the text
    after it: the search of [String.prototype.indexOf], which
    [String.prototype.replace] runs when its pattern is a string. *)
Fixpoint split_first (pat s : string) : option (string * string) :=
  match strip_prefix pat s with
  | Some rest => Some (EmptyString, rest)
  | None =>
      match s with
      | EmptyString => None
      | String c s' =>
          match split_first pat s' with
          | Some (before, after) => Some (String c before, after)
          | None => None
          end
      end
  end.

(** [String.prototype.includes]. *)
Definition includes (hay needle : string) : bool :=
  match split_first needle hay with Some _ => true | None => false end.

(** [GetSubstitution] of ECMA-262 for a string pattern (no captures, no named
    groups): in the replacement text [$$] stands for a dollar sign, [$&] for
    the matched text, [$`] for the text before the match and [$'] for the
    text after it; a dollar sign followed by anything else stands for
    itself. *)
Fixpoint GetSubstitution (matched before after replacement : string) : string :=
  match replacement with
  | EmptyString => EmptyString
  | String c rest =>
      if Ascii.eqb c "$" then
        match rest with
        | String d rest' =>
            if Ascii.eqb d "$" then
              String "$" (GetSubstitution matched before after rest')
            else if Ascii.eqb d "&" then
              matched ++ GetSubstitution matched before after rest'
            else if Ascii.eqb d "`" then
              before ++ GetSubstitution matched before after rest'
            else if Ascii.eqb d "'" then
              after ++ GetSubstitution matched before after rest'
            else String "$" (GetSubstitution matched before after rest)
        | EmptyString => String "$" EmptyString
        end
      else String c (GetSubstitution matched before after rest)
  end.

(** [s.replace(pat, replacement)] with a string pattern: only the first
    occurrence of [pat] is replaced, by the expansion of [replacement]. *)
Definition replace (pat replacement s : string) : string :=
  match split_first pat s with
  | None => s
  | Some (before, after) =>
      before ++ GetSubstitution pat before after replacement ++ after
  end.

(** [pat] occurs in [s] between [before] and [after], and nowhere further
    to the left. *)
Definition first_occurrence (pat s before after : string) : Prop :=
  s = before ++ pat ++ after /\
  forall before' after',
    s = before' ++ pat ++ after' -> String.length before <= String.length before'.

(** [pat] does not occur in [s]. *)
Definition absent (pat s : string) : Prop :=
  forall before after, s <> before ++ pat ++ after.

(** A text without a dollar sign, which [GetSubstitution] therefore copies
    as it is. *)
Fixpoint no_dollar (s : string) : bool :=
  match s with
  | EmptyString => true
  | String c rest => negb (Ascii.eqb c "$") && no_dollar rest
  end.

(** [s.split('/')]. *)
Fixpoint split_slash (s : string) : list string :=
  match s with
  | EmptyString => [EmptyString]
  | String c s' =>
      if Ascii.eqb c "/" then EmptyString :: split_slash s'
      else
        match split_slash s' with
        | h :: t => String c h :: t
        | [] => [String c EmptyString]
        end
  end.

(** Truthiness of a string: every string but the empty one. *)
Definition truthy_string (s : string) : bool :=
  match s with EmptyString => false | String _ _ => true end.

(** ** Numbers printed in decimal *)

Definition digit (d : Z) : ascii := ascii_of_nat (48 + Z.to_nat d).

(** The [n] low decimal digits of [z], most significant first. *)
Fixpoint digits (n : nat) (z : Z) : string :=
  match n with
  | O => EmptyString
  | S n' => digits n' (z / 10) ++ String (digit (z mod 10)) EmptyString
  end.

Fixpoint count_digits (fuel : nat) (z : Z) : nat :=
  match fuel with
  | O => 1
  | S fuel' => if (z <? 10)%Z then 1 else S (count_digits fuel' (z / 10))
  end.

(** [String(z)] for an integer [z] (as in a template literal). *)
Definition string_of_Z (z : Z) : string :=
  let a := Z.abs z in
  let body := digits (count_digits (Z.to_nat (Z.log2 a)) a) a in
  if (z <? 0)%Z then String "-" body else body.

(** ** [Date.prototype.toISOString]

    A time value is a number of milliseconds since the epoch; the calendar
    date comes from the day number by the usual proleptic Gregorian
    computation. *)

Definition msPerDay : Z := 86400000.

Definition civil_from_days (z : Z) : Z * Z * Z :=
  let z := (z + 719468)%Z in
  let era := (z / 146097)%Z in
  let doe := (z - era * 146097)%Z in
  let yoe := ((doe - doe / 1460 + doe / 36524 - doe / 146096) / 365)%Z in
  let y := (yoe + era * 400)%Z in
  let doy := (doe - (365 * yoe + yoe / 4 - yoe / 100))%Z in
  let mp := ((5 * doy + 2) / 153)%Z in
  let d := (doy - (153 * mp + 2) / 5 + 1)%Z in
  let m := (if (mp <? 10)%Z then mp + 3 else mp - 9)%Z in
  ((if (m <=? 2)%Z then y + 1 else y)%Z, m, d).

Definition year_string (y : Z) : string :=
  if ((0 <=? y) && (y <=? 9999))%Z%bool then digits 4 y
  else if (y <? 0)%Z then String "-" (digits 6 (- y))
  else String "+" (digits 6 y).

Definition toISOString (t : Z) : string :=
  let day := (t / msPerDay)%Z in
  let ms := (t mod msPerDay)%Z in
  let '(y, m, d) := civil_from_days day in
  year_string y ++ "-" ++ digits 2 m ++ "-" ++ digits 2 d ++ "T"
    ++ digits 2 (ms / 3600000) ++ ":" ++ digits 2 (ms / 60000 mod 60) ++ ":"
    ++ digits 2 (ms / 1000 mod 60) ++ "." ++ digits 3 (ms mod 1000) ++ "Z".

(** ** Thrown values and the completion of a call *)

(** What a [catch] clause may receive: an [Error] object, of which only the
    message is read, or some other value, for which
    [error instanceof Error] is false. *)
Inductive thrown : Type :=
| ErrorObject (message : string)
| NotAnError.

Definition is_error_with (needle : string) (e : thrown) : bool :=
  match e with
  | ErrorObject m => includes m needle
  | NotAnError => false
  end.

(** How a call completes: with a value, or by throwing.  For an [async]
    function these are the two ways its promise settles. *)
Inductive settled (A : Type) : Type :=
| Resolved (a : A)
| Rejected (e : thrown).
Arguments Resolved {A} a.
Arguments Rejected {A} e.

(** The wall clock behind [new Date()] and [Date.now()]: a reading, in
    milliseconds since the epoch, may depend on and change the state of the
    world. *)
Class Clock (W : Type) : Type := {
  Date_now : W -> Z * W
}.

End JS.


(* ===================================================================== *)
(** * Part II.  [GitHubService] (src/services/github.service.ts)        *)
(* ===================================================================== *)

Module GitHub.
Import JS.

(** ** The data of the service *)

Record GitHubFileContent : Type := {
  sha : string;
  content : string
}.

Record GitHubPRConfig : Type := {
  token : string;
  repo : string;
  branch : string;
  targetPath : string;
  commitMessageTemplate : string;
  prTitleTemplate : string;
  prBodyTemplate : string
}.

(** [success] is always set; each of the other three fields is optional. *)
Record CreatePRResult : Type := {
  success : bool;
  prUrl : option string;
  error : option string;
  noChanges : option bool
}.

(** The three shapes [syncContent] returns: the outcomes [NoChange],
    [Success] and [Failure] of the specification. *)
Definition NoChange : CreatePRResult :=
  {| success := true; prUrl := None; error := None; noChanges := Some true |}.
Definition Success (url : string) : CreatePRResult :=
  {| success := true; prUrl := Some url; error := None; noChanges := None |}.
Definition Failure (reason : string) : CreatePRResult :=
  {| success := false; prUrl := None; error := Some reason; noChanges := None |}.

(** ** The remote adapter

    One constructor for each Octokit endpoint the service calls, carrying the
    fields of the parameter object.  [owner] and [rp] are the two first
    pieces of [config.repo.split('/')]; the second is absent when the
    configured name has no slash. *)
Inductive request : Type :=
| GetContent (owner : string) (rp : option string) (path ref : string)
| GetBranch (owner : string) (rp : option string) (branch : string)
| CreateRef (owner : string) (rp : option string) (ref sha : string)
| CreateOrUpdateFileContents (owner : string) (rp : option string)
    (path message content : string) (sha : option string) (branch : string)
| PullsCreate (owner : string) (rp : option string)
    (title body head base : string)
| DeleteRef (owner : string) (rp : option string) (ref : string).

(** [response.data] of [repos.getContent]: an array for a directory, else an
    object of which [type], [sha] and [content] are read. *)
Inductive content_data : Type :=
| Listing
| Entry (type sha content : string).

(** What the service reads from a fulfilled response: the content data, the
    tip commit ([data.commit.sha]), the review URL ([data.html_url]), or
    nothing. *)
Definition answer (r : request) : Type :=
  match r with
  | GetContent _ _ _ _ => content_data
  | GetBranch _ _ _ => string
  | PullsCreate _ _ _ _ _ _ => string
  | _ => unit
  end.

(** The remote behind Octokit: how a call settles may depend on, and change,
    the state of the world. *)
Class Octokit (W : Type) : Type := {
  octokit : forall r : request, W -> settled (answer r) * W
}.

(** [Buffer.from(x, 'base64').toString('utf-8')] and
    [Buffer.from(x).toString('base64')]. *)
Class Buffer : Type := {
  base64_decode : string -> string;
  base64_encode : string -> string
}.

(** ** Asynchronous computations

    A computation runs from a state of the world and the list of remote
    calls issued so far (oldest first); it settles with a value or with a
    thrown value. *)
Record state (W : Type) : Type := {
  world : W;
  calls : list request
}.
Arguments world {W} _.
Arguments calls {W} _.

Definition M (W A : Type) : Type := state W -> settled A * state W.

Definition ret {W A} (a : A) : M W A := fun s => (Resolved a, s).

Definition throw {W A} (e : thrown) : M W A := fun s => (Rejected e, s).

Definition bind {W A B} (m : M W A) (k : A -> M W B) : M W B :=
  fun s =>
    match m s with
    | (Resolved a, s') => k a s'
    | (Rejected e, s') => (Rejected e, s')
    end.

Definition try_catch {W A} (m : M W A) (handler : thrown -> M W A) : M W A :=
  fun s =>
    match m s with
    | (Resolved a, s') => (Resolved a, s')
    | (Rejected e, s') => handler e s'
    end.

Notation "x <- m ;; k" := (bind m (fun x => k))
  (at level 61, m at next level, right associativity).
Notation "m ;;; k" := (bind m (fun _ => k))
  (at level 61, right associativity).

(** One awaited Octokit call: the call is recorded, the world answers. *)
Definition call {W} `{Octokit W} (r : request) : M W (answer r) :=
  fun s =>
    let (a, w') := octokit r (world s) in
    (a, {| world := w'; calls := (calls s ++ [r])%list |}).

(** A reading of the clock, in milliseconds. *)
Definition clock {W} `{Clock W} : M W Z :=
  fun s =>
    let (t, w') := Date_now (world s) in
    (Resolved t, {| world := w'; calls := calls s |}).

Section Service.
Context {W : Type} {clock_of_W : Clock W} {octokit_of_W : Octokit W}
        {buffer : Buffer}.
Variable config : GitHubPRConfig.

(** [const [owner, repo] = this.config.repo.split('/')] *)
Definition owner : string := nth 0 (split_slash (repo config)) EmptyString.
Definition rp : option string := nth_error (split_slash (repo config)) 1.

Definition getCurrentFile : M W (option GitHubFileContent) :=
  try_catch
    (data <- call (GetContent owner rp (targetPath config) (branch config)) ;;
     match data with
     | Listing => throw (ErrorObject "Path points to a directory, not a file")
     | Entry type sha content =>
         if negb (String.eqb type "file") then
           throw (ErrorObject "Path does not point to a file")
         else
           ret (Some {| sha := sha; content := base64_decode content |})
     end)
    (fun error =>
       if is_error_with "Not Found" error then ret None else throw error).

Definition createBranch (branchName : string) : M W unit :=
  tip <- call (GetBranch owner rp (branch config)) ;;
  call (CreateRef owner rp ("refs/heads/" ++ branchName) tip).

(** [currentFile?.sha] *)
Definition sha_of (currentFile : option GitHubFileContent) : option string :=
  option_map sha currentFile.

(** [if (x)] on an optional string: present and not empty. *)
Definition truthy (x : option string) : bool :=
  match x with Some s => truthy_string s | None => false end.

(** The first statement of the [try] block of [commitFile]: the token that
    was passed in when there is one, else that of the file as it is now. *)
Definition file_sha_for (baseSha : option string) : M W (option string) :=
  if truthy baseSha then ret baseSha
  else currentFile <- getCurrentFile ;; ret (sha_of currentFile).

(** The rest of that block: the write, with the token when there is one. *)
Definition put_file (branchName content message : string)
    (fileSha : option string) : M W unit :=
  let contentEncoded := base64_encode content in
  if truthy fileSha then
    call (CreateOrUpdateFileContents owner rp (targetPath config) message
            contentEncoded fileSha branchName)
  else
    call (CreateOrUpdateFileContents owner rp (targetPath config) message
            contentEncoded None branchName).

Definition commitFile (branchName content message : string)
    (baseSha : option string) : M W unit :=
  try_catch
    (fileSha <- file_sha_for baseSha ;;
     put_file branchName content message fileSha)
    (fun error =>
       if is_error_with "SHA does not match" error then
         throw (ErrorObject "RACE_CONDITION: File was modified by another process")
       else throw error).

Definition createPullRequest (branchName title body : string) : M W string :=
  call (PullsCreate owner rp title body branchName (branch config)).

Definition deleteBranch (branchName : string) : M W unit :=
  call (DeleteRef owner rp ("heads/" ++ branchName)).

(** [template.replace('{key}', key).replace('{timestamp}', timestamp)], the
    expression [syncContent] applies to each of its three templates. *)
Definition render (template key timestamp : string) : string :=
  replace "{timestamp}" timestamp (replace "{key}" key template).

(** [currentFile && currentFile.content === newContent] *)
Definition same_content (currentFile : option GitHubFileContent)
    (newContent : string) : bool :=
  match currentFile with
  | Some f => String.eqb (content f) newContent
  | None => false
  end.

(** The [try] block of [syncContent]. *)
Definition sync_try (key newContent timestamp branchName : string)
    : M W CreatePRResult :=
  currentFile <- getCurrentFile ;;
  if same_content currentFile newContent then ret NoChange
  else
    createBranch branchName ;;;
    let commitMessage := render (commitMessageTemplate config) key timestamp in
    commitFile branchName newContent commitMessage (sha_of currentFile) ;;;
    let prTitle := render (prTitleTemplate config) key timestamp in
    let prBody := render (prBodyTemplate config) key timestamp in
    prUrl <- createPullRequest branchName prTitle prBody ;;
    ret (Success prUrl).

(** The inner [try { await this.deleteBranch(branchName) } catch {}]. *)
Definition cleanup (branchName : string) : M W unit :=
  try_catch (deleteBranch branchName) (fun _ => ret tt).

(** [error instanceof Error ? error.message : 'Unknown error'] *)
Definition message_of (e : thrown) : string :=
  match e with
  | ErrorObject m => m
  | NotAnError => "Unknown error"
  end.

(** [`text-update-${key}-${Date.now()}`] *)
Definition branch_name (key : string) (now : Z) : string :=
  "text-update-" ++ key ++ "-" ++ string_of_Z now.

(** The body of [syncContent(key, newContent, retryCount = 0)], with [self]
    for the method itself: the recursive call is made only when
    [retryCount < 1], with [retryCount + 1]. *)
Definition syncContent_body (self : string -> string -> Z -> M W CreatePRResult)
    (key newContent : string) (retryCount : Z) : M W CreatePRResult :=
  t <- clock ;;
  let timestamp := toISOString t in
  t' <- clock ;;
  let branchName := branch_name key t' in
  try_catch
    (sync_try key newContent timestamp branchName)
    (fun error =>
       cleanup branchName ;;;
       if is_error_with "RACE_CONDITION" error then
         if (retryCount <? 1)%Z then self key newContent (retryCount + 1)%Z
         else ret (Failure "Failed due to race condition after retry")
       else ret (Failure (message_of error))).

(** How many more times [syncContent] may call itself. *)
Definition retries_left (retryCount : Z) : nat := Z.to_nat (1 - retryCount).

(** The method, by recursion on the number of calls still allowed.  That
    number is never exhausted (lemma [syncContent_unfold]), so what the last
    line returns is never returned. *)
Fixpoint syncContent_within (n : nat) (key newContent : string) (retryCount : Z)
    : M W CreatePRResult :=
  match n with
  | S n' => syncContent_body (syncContent_within n') key newContent retryCount
  | O => ret (Failure "Failed due to race condition after retry")
  end.

Definition syncContent (key newContent : string) (retryCount : Z)
    : M W CreatePRResult :=
  syncContent_within (S (retries_left retryCount)) key newContent retryCount.

(** ** Scenarios and counts of remote calls *)

(** The remote calls issued between two states of one run. *)
Definition issued (s s' : state W) : list request :=
  skipn (List.length (calls s)) (calls s').

Definition is_commit (r : request) : bool :=
  match r with CreateOrUpdateFileContents _ _ _ _ _ _ _ => true | _ => false end.
Definition is_branch_delete (r : request) : bool :=
  match r with DeleteRef _ _ _ => true | _ => false end.
Definition is_branch_create (r : request) : bool :=
  match r with CreateRef _ _ _ _ => true | _ => false end.
Definition is_review_open (r : request) : bool :=
  match r with PullsCreate _ _ _ _ _ _ => true | _ => false end.

Definition count (f : request -> bool) (l : list request) : nat :=
  List.length (filter f l).

(** The commit step of an attempt started at [s] is refused for a token that
    no longer matches: the fetch finds something else than [newContent] (or
    nothing), the branch [branchName] is created, the write is rejected with
    an error saying so, and the cleanup leaves the state [s']. *)
Definition conflicted_attempt (key newContent : string) (s s' : state W)
    (branchName : string) : Prop :=
  exists t s1 t' s2 currentFile s3 s4 fileSha s5 e s6,
    clock s = (Resolved t, s1) /\
    clock s1 = (Resolved t', s2) /\
    branchName = branch_name key t' /\
    getCurrentFile s2 = (Resolved currentFile, s3) /\
    same_content currentFile newContent = false /\
    createBranch branchName s3 = (Resolved tt, s4) /\
    file_sha_for (sha_of currentFile) s4 = (Resolved fileSha, s5) /\
    put_file branchName newContent
      (render (commitMessageTemplate config) key (toISOString t)) fileSha s5
      = (Rejected e, s6) /\
    is_error_with "SHA does not match" e = true /\
    cleanup branchName s6 = (Resolved tt, s').

(** The commit step of an attempt started at [s] succeeds, and the review
    request is then opened ([opened = Resolved url]) or refused
    ([opened = Rejected e]), leaving the state [s']. *)
Definition committed_attempt (key newContent : string) (s s' : state W)
    (opened : settled string) (branchName : string) : Prop :=
  exists t s1 t' s2 currentFile s3 s4 fileSha s5 s6,
    clock s = (Resolved t, s1) /\
    clock s1 = (Resolved t', s2) /\
    branchName = branch_name key t' /\
    getCurrentFile s2 = (Resolved currentFile, s3) /\
    same_content currentFile newContent = false /\
    createBranch branchName s3 = (Resolved tt, s4) /\
    file_sha_for (sha_of currentFile) s4 = (Resolved fileSha, s5) /\
    put_file branchName newContent
      (render (commitMessageTemplate config) key (toISOString t)) fileSha s5
      = (Resolved tt, s6) /\
    createPullRequest branchName
      (render (prTitleTemplate config) key (toISOString t))
      (render (prBodyTemplate config) key (toISOString t)) s6
      = (opened, s').

(** What the [try] block may ask the remote: never the deletion of a branch,
    and a write only of the given body to the given branch. *)
Definition of_attempt (body bn : string) (r : request) : Prop :=
  match r with
  | DeleteRef _ _ _ => False
  | CreateOrUpdateFileContents _ _ _ _ c _ b => c = base64_encode body /\ b = bn
  | _ => True
  end.

(** The texts of a request are the templates rendered with this key and
    this timestamp: the message of a write, the title and the body of a
    review request. *)
Definition rendered (key timestamp : string) (r : request) : Prop :=
  match r with
  | CreateOrUpdateFileContents _ _ _ message _ _ _ =>
      message = render (commitMessageTemplate config) key timestamp
  | PullsCreate _ _ title body _ _ =>
      title = render (prTitleTemplate config) key timestamp /\
      body = render (prBodyTemplate config) key timestamp
  | _ => True
  end.

(** The body and the token of a write. *)
Definition commit_content (r : request) : option string :=
  match r with
  | CreateOrUpdateFileContents _ _ _ _ c _ _ => Some c
  | _ => None
  end.

Definition commit_sha (r : request) : option string :=
  match r with
  | CreateOrUpdateFileContents _ _ _ _ _ sha _ => sha
  | _ => None
  end.

End Service.
End GitHub.


(* ===================================================================== *)
(** * Part III.  [TextService] (src/services/text.service.ts)           *)
(* ===================================================================== *)

Module Text.
Import JS.

(** ** Values *)

(** A [number], as far as the service computes with one: an integer, or the
    [NaN] that arithmetic on [undefined] produces. *)
Inductive number : Type :=
| Num (z : Z)
| NaN.

(** [interface TextItem].  The two fields declared optional may be absent,
    and so may [version] in a record that was read from a JSON document. *)
Record TextItem : Type := {
  key : string;
  content : string;
  approvedAt : option string;
  approvedBy : option string;
  version : option number
}.

(** Objects are handled by reference: a [TextItem] lives in the heap, and
    whoever holds its reference reads and writes the same record. *)
Definition ref : Type := nat.
Definition heap : Type := list TextItem.

Definition alloc (h : heap) (item : TextItem) : ref * heap :=
  (List.length h, (h ++ [item])%list).

Definition deref (h : heap) (r : ref) : option TextItem := nth_error h r.

(** A [Record<string, TextItem>] is a plain object: its own properties, in
    insertion order, and its prototype, which is [Object.prototype] ([None])
    unless an assignment to [__proto__] replaced it by a record. *)
Record TextsObject : Type := {
  own : list (string * ref);
  proto : option ref
}.

Definition empty_object : TextsObject := {| own := []; proto := None |}.

(** [interface TextArtifact] *)
Record TextArtifact : Type := {
  schema : string;          (* the field [version] of the artifact *)
  lastUpdated : string;
  texts : TextsObject
}.

(** What reading a property of the [texts] object may give. *)
Inductive value : Type :=
| VUndefined
| VNull
| VString (s : string)
| VNumber (n : number)
| VItem (r : ref)
| VBuiltin (name : string)      (* a method inherited from Object.prototype *)
| VObjectPrototype.

Definition truthy (v : value) : bool :=
  match v with
  | VUndefined | VNull => false
  | VString s => truthy_string s
  | VNumber (Num z) => negb (z =? 0)%Z
  | VNumber NaN => false
  | VItem _ | VBuiltin _ | VObjectPrototype => true
  end.

(** ** Property access on the [texts] object *)

Fixpoint own_lookup (k : string) (props : list (string * ref)) : option ref :=
  match props with
  | [] => None
  | (k', r) :: rest => if String.eqb k k' then Some r else own_lookup k rest
  end.

(** Defining an own property: the value is replaced where the key is, or
    the property is added last. *)
Fixpoint own_define (k : string) (r : ref) (props : list (string * ref))
    : list (string * ref) :=
  match props with
  | [] => [(k, r)]
  | (k', r') :: rest =>
      if String.eqb k k' then (k', r) :: rest
      else (k', r') :: own_define k r rest
  end.

Fixpoint own_remove (k : string) (props : list (string * ref))
    : list (string * ref) :=
  match props with
  | [] => []
  | (k', r') :: rest =>
      if String.eqb k k' then own_remove k rest
      else (k', r') :: own_remove k rest
  end.

(** The data properties of [Object.prototype]; all of them are functions. *)
Definition Object_prototype_methods : list string :=
  ["constructor"; "__defineGetter__"; "__defineSetter__"; "hasOwnProperty";
   "__lookupGetter__"; "__lookupSetter__"; "isPrototypeOf";
   "propertyIsEnumerable"; "toString"; "valueOf"; "toLocaleString"].

Definition is_in (k : string) (l : list string) : bool :=
  existsb (String.eqb k) l.

(** A property read that reached [Object.prototype]: a method, the accessor
    [__proto__] (which gives the prototype of the object the read started
    from), or nothing. *)
Definition Object_prototype_get (receiver_proto : option ref) (k : string)
    : value :=
  if is_in k Object_prototype_methods then VBuiltin k
  else if String.eqb k "__proto__" then
    match receiver_proto with
    | None => VObjectPrototype
    | Some p => VItem p
    end
  else VUndefined.

(** The own properties of a record. *)
Definition item_get (item : TextItem) (k : string) : option value :=
  if String.eqb k "key" then Some (VString (key item))
  else if String.eqb k "content" then Some (VString (content item))
  else if String.eqb k "approvedAt" then option_map VString (approvedAt item)
  else if String.eqb k "approvedBy" then option_map VString (approvedBy item)
  else if String.eqb k "version" then option_map VNumber (version item)
  else None.

(** [texts[k]]: an own property, else what the prototype chain gives. *)
Definition texts_get (h : heap) (t : TextsObject) (k : string) : value :=
  match own_lookup k (own t) with
  | Some r => VItem r
  | None =>
      match proto t with
      | None => Object_prototype_get None k
      | Some p =>
          match deref h p with
          | Some item =>
              match item_get item k with
              | Some v => v
              | None => Object_prototype_get (Some p) k
              end
          | None => Object_prototype_get (Some p) k
          end
      end
  end.

(** [texts[k] = r]: an own property is overwritten; otherwise the assignment
    reaches the setter of [__proto__] when that is the key, and adds an own
    property for every other key. *)
Definition texts_set (t : TextsObject) (k : string) (r : ref) : TextsObject :=
  match own_lookup k (own t) with
  | Some _ => {| own := own_define k r (own t); proto := proto t |}
  | None =>
      if String.eqb k "__proto__" then {| own := own t; proto := Some r |}
      else {| own := own_define k r (own t); proto := proto t |}
  end.

(** [delete texts[k]] removes an own property only. *)
Definition texts_delete (t : TextsObject) (k : string) : TextsObject :=
  {| own := own_remove k (own t); proto := proto t |}.

(** [existing.version] for whatever [getText] returned: only a record has
    such a property. *)
Definition version_of (h : heap) (existing : value) : option number :=
  match existing with
  | VItem r =>
      match deref h r with
      | Some item => version item
      | None => None
      end
  | _ => None
  end.

(** [x + 1] for [x] a number or [undefined]. *)
Definition plus_one (x : option number) : number :=
  match x with
  | Some (Num z) => Num (z + 1)
  | Some NaN | None => NaN
  end.

(** ** JSON *)

(** What [JSON.parse] returns, as far as [loadFromJson] looks at it:
    [null]; an object, with its fields [version], [lastUpdated] and [texts]
    when present, the last one with its own properties in order; or any
    other value (a number, a string, a boolean, an array), none of which has
    those three properties. *)
Inductive parsed : Type :=
| ParsedNull
| ParsedOther
| ParsedObject (version lastUpdated : option string)
    (texts : option (list (string * TextItem))).

(** What [JSON.stringify(artifact, null, 2)] visits: the two strings and
    the own properties of [texts] with the records they refer to. *)
Definition document : Type := string * string * list (string * option TextItem).

(** [JSON.parse] throws on malformed text. *)
Class JSON : Type := {
  JSON_parse : string -> settled parsed;
  JSON_stringify : document -> string
}.

(** ** The service *)

(** The process as the service sees it: the clock, the heap, and the
    private field [artifact]. *)
Record process (W : Type) : Type := {
  world : W;
  memory : heap;
  artifact : TextArtifact
}.
Arguments world {W} _.
Arguments memory {W} _.
Arguments artifact {W} _.

Section Service.
Context {W : Type} {clock_of_W : Clock W} {json : JSON}.

(** [new Date().toISOString()] *)
Definition now_iso (w : W) : string * W :=
  let (t, w') := Date_now w in (toISOString t, w').

(** [constructor()] *)
Definition create (w : W) (h : heap) : process W :=
  let (t, w') := now_iso w in
  {| world := w'; memory := h;
     artifact := {| schema := "1.0.0"; lastUpdated := t; texts := empty_object |} |}.

(** The records of a parsed [texts] object become objects of the heap, and
    its own properties refer to them. *)
Fixpoint install (recs : list (string * TextItem)) (h : heap)
    (props : list (string * ref)) : heap * list (string * ref) :=
  match recs with
  | [] => (h, props)
  | (k, item) :: rest =>
      let (r, h') := alloc h item in
      install rest h' (own_define k r props)
  end.

(** [x || d] for an optional string. *)
Definition or_else (x : option string) (d : string) : string :=
  match x with
  | Some s => if truthy_string s then s else d
  | None => d
  end.

(** The [try] block of [loadFromJson]. *)
Definition load_try (jsonString : string) (p : process W)
    : settled (process W) :=
  match JSON_parse jsonString with
  | Rejected e => Rejected e
  | Resolved ParsedNull =>
      Rejected (ErrorObject "Cannot read properties of null (reading 'version')")
  | Resolved ParsedOther =>
      let (t, w') := now_iso (world p) in
      Resolved {| world := w'; memory := memory p;
                  artifact := {| schema := "1.0.0"; lastUpdated := t;
                                 texts := empty_object |} |}
  | Resolved (ParsedObject v lu txts) =>
      let '(t, w') :=
        match lu with
        | Some s => if truthy_string s then (s, world p) else now_iso (world p)
        | None => now_iso (world p)
        end in
      let '(h', props) :=
        match txts with
        | Some recs => install recs (memory p) []
        | None => (memory p, [])
        end in
      Resolved {| world := w'; memory := h';
                  artifact := {| schema := or_else v "1.0.0"; lastUpdated := t;
                                 texts := {| own := props; proto := None |} |} |}
  end.

(** [loadFromJson(jsonString)]: whatever the [try] block throws is caught,
    and the artifact is then replaced by an empty one. *)
Definition loadFromJson (jsonString : string) (p : process W)
    : settled unit * process W :=
  match load_try jsonString p with
  | Resolved p' => (Resolved tt, p')
  | Rejected _ =>
      let (t, w') := now_iso (world p) in
      (Resolved tt,
       {| world := w'; memory := memory p;
          artifact := {| schema := "1.0.0"; lastUpdated := t;
                         texts := empty_object |} |})
  end.

(** What [JSON.stringify] reads of the artifact. *)
Definition snapshot (p : process W) : document :=
  (schema (artifact p), lastUpdated (artifact p),
   map (fun kr => (fst kr, deref (memory p) (snd kr))) (own (texts (artifact p)))).

(** [toJsonString()] *)
Definition toJsonString (p : process W) : string := JSON_stringify (snapshot p).

(** [getText(key)]: [this.artifact.texts[key] || null] *)
Definition getText (k : string) (p : process W) : value :=
  let v := texts_get (memory p) (texts (artifact p)) k in
  if truthy v then v else VNull.

(** [updateText(key, content, approvedBy?)]; the result is the reference to
    the new record. *)
Definition updateText (k c : string) (approver : option string) (p : process W)
    : ref * process W :=
  let existing := getText k p in
  let v :=
    if truthy existing then plus_one (version_of (memory p) existing)
    else Num 1 in
  let (t1, w1) := now_iso (world p) in
  let textItem :=
    {| key := k; content := c; approvedAt := Some t1; approvedBy := approver;
       version := Some v |} in
  let (r, h') := alloc (memory p) textItem in
  let texts' := texts_set (texts (artifact p)) k r in
  let (t2, w2) := now_iso w1 in
  (r, {| world := w2; memory := h';
         artifact := {| schema := schema (artifact p); lastUpdated := t2;
                        texts := texts' |} |}).

(** [deleteText(key)] *)
Definition deleteText (k : string) (p : process W) : bool * process W :=
  if truthy (texts_get (memory p) (texts (artifact p)) k) then
    let texts' := texts_delete (texts (artifact p)) k in
    let (t, w') := now_iso (world p) in
    (true, {| world := w'; memory := memory p;
              artifact := {| schema := schema (artifact p); lastUpdated := t;
                             texts := texts' |} |})
  else (false, p).

(** [getAllTexts()]: [{ ...this.artifact.texts }], a new object with the same
    own properties, which refer to the same records. *)
Definition getAllTexts (p : process W) : TextsObject :=
  {| own := own (texts (artifact p)); proto := None |}.

(** [getMetadata()] *)
Definition getMetadata (p : process W) : string * string * nat :=
  (schema (artifact p), lastUpdated (artifact p),
   List.length (own (texts (artifact p)))).

(** What a caller sees of a value it is handed: the value, and behind a
    reference the record as it is now. *)
Definition seen (h : heap) (v : value) : value * option TextItem :=
  (v, match v with VItem r => deref h r | _ => None end).

(** What [getText(k)] shows. *)
Definition get_seen (k : string) (p : process W) : value * option TextItem :=
  seen (memory p) (getText k p).

(** What [getAllTexts()] shows: the own properties with their records. *)
Definition all_seen (p : process W) : list (string * option TextItem) :=
  map (fun kr => (fst kr, deref (memory p) (snd kr))) (own (getAllTexts p)).

(** Every reference the artifact holds is to a record of the heap. *)
Definition valid (p : process W) : Prop :=
  (forall k r, In (k, r) (own (texts (artifact p))) ->
               r < List.length (memory p)) /\
  (forall r, proto (texts (artifact p)) = Some r -> r < List.length (memory p)).

End Service.

(** ** What a caller may do with the object [getAllTexts] returned

    The caller holds the returned object; the heap is the one the service
    uses. *)
Inductive mutation : Type :=
| SetEntry (k : string) (r : ref)             (* [all[k] = x], x an object held *)
| SetNewEntry (k : string) (item : TextItem)  (* [all[k] = { ... }] *)
| DeleteEntry (k : string)                    (* [delete all[k]] *)
| WriteRecord (k : string) (f : TextItem -> TextItem).
                                              (* [all[k].field = ...] *)

(** [item.content = c] *)
Definition with_content (c : string) (item : TextItem) : TextItem :=
  {| key := key item; content := c; approvedAt := approvedAt item;
     approvedBy := approvedBy item; version := version item |}.

(** The mutations of the returned mapping itself, as opposed to those of a
    record it refers to. *)
Definition on_mapping (mu : mutation) : bool :=
  match mu with
  | WriteRecord _ _ => false
  | _ => true
  end.

Fixpoint write_at (h : heap) (r : ref) (f : TextItem -> TextItem) : heap :=
  match h, r with
  | [], _ => []
  | item :: rest, O => f item :: rest
  | item :: rest, S r' => item :: write_at rest r' f
  end.

Definition mutate (mu : mutation) (all : TextsObject) (h : heap)
    : TextsObject * heap :=
  match mu with
  | SetEntry k r => (texts_set all k r, h)
  | SetNewEntry k item =>
      let (r, h') := alloc h item in (texts_set all k r, h')
  | DeleteEntry k => (texts_delete all k, h)
  | WriteRecord k f =>
      match texts_get h all k with
      | VItem r => (all, write_at h r f)
      | _ => (all, h)
      end
  end.

Fixpoint mutate_all (mus : list mutation) (all : TextsObject) (h : heap)
    : TextsObject * heap :=
  match mus with
  | [] => (all, h)
  | mu :: rest => let (all', h') := mutate mu all h in mutate_all rest all' h'
  end.

(** The caller's mutations happen in the heap of the process. *)
Definition after_mutations {W} (mus : list mutation) (all : TextsObject)
    (p : process W) : process W :=
  {| world := world p; memory := snd (mutate_all mus all (memory p));
     artifact := artifact p |}.

End Text.

(* ===================================================================== *)
(** * Part IV.  The configuration (src/config/env.ts)                   *)
(* ===================================================================== *)

Module Config.
Import JS.

(** [process.env]: the variables that are set, each with its text. *)
Definition environment : Type := list (string * string).

Fixpoint getenv (name : string) (e : environment) : option string :=
  match e with
  | [] => None
  | (n, v) :: rest => if String.eqb name n then Some v else getenv name rest
  end.

(** The three values [NODE_ENV] may have. *)
Inductive mode : Type :=
| development
| production
| test.

(** [z.infer<typeof envSchema>] *)
Record Env : Type := {
  GITHUB_TOKEN : option string;
  GITHUB_REPO : option string;
  GITHUB_BRANCH : string;
  GITHUB_TARGET_PATH : string;
  GITHUB_COMMIT_MESSAGE_TEMPLATE : string;
  GITHUB_PR_TITLE_TEMPLATE : string;
  GITHUB_PR_BODY_TEMPLATE : string;
  PORT : string;
  NODE_ENV : mode
}.

(** [z.string().default(d)]: the default stands in for a variable that is
    not set, and for no other. *)
Definition default (d : string) (x : option string) : string :=
  match x with
  | Some s => s
  | None => d
  end.

(** [z.enum(['development', 'production', 'test']).default('development')]:
    any other text is refused. *)
Definition mode_of (x : option string) : option mode :=
  match x with
  | None => Some development
  | Some s =>
      if String.eqb s "development" then Some development
      else if String.eqb s "production" then Some production
      else if String.eqb s "test" then Some test
      else None
  end.

(** [validateEnv()], that is [envSchema.parse(process.env)]: [None] stands
    for the error that [parse] throws.  A variable of the environment is a
    text, so that the fields declared [z.string()] accept whatever is set;
    the variables the schema does not name are dropped. *)
Definition validateEnv (e : environment) : option Env :=
  match mode_of (getenv "NODE_ENV" e) with
  | None => None
  | Some m =>
      Some {|
        GITHUB_TOKEN := getenv "GITHUB_TOKEN" e;
        GITHUB_REPO := getenv "GITHUB_REPO" e;
        GITHUB_BRANCH := default "main" (getenv "GITHUB_BRANCH" e);
        GITHUB_TARGET_PATH :=
          default "artifacts/texts.json" (getenv "GITHUB_TARGET_PATH" e);
        GITHUB_COMMIT_MESSAGE_TEMPLATE :=
          default "Update text artifact for {key} - {timestamp}"
            (getenv "GITHUB_COMMIT_MESSAGE_TEMPLATE" e);
        GITHUB_PR_TITLE_TEMPLATE :=
          default "Text Update: {key}" (getenv "GITHUB_PR_TITLE_TEMPLATE" e);
        GITHUB_PR_BODY_TEMPLATE :=
          default "Automated text update for {key} at {timestamp}"
            (getenv "GITHUB_PR_BODY_TEMPLATE" e);
        PORT := default "3000" (getenv "PORT" e);
        NODE_ENV := m
      |}
  end.

(** [!!(env.GITHUB_TOKEN && env.GITHUB_REPO)] *)
Definition isGitHubPRModeEnabled (env : Env) : bool :=
  if GitHub.truthy (GITHUB_TOKEN env) then GitHub.truthy (GITHUB_REPO env)
  else false.

(** [new GitHubService(env)] (src/services/github.service.ts): the
    constructor throws when a credential is not set or is the empty text,
    and else keeps the seven settings of the service. *)
Definition new_GitHubService (env : Env) : settled GitHub.GitHubPRConfig :=
  match GITHUB_TOKEN env, GITHUB_REPO env with
  | Some token, Some repo =>
      if negb (truthy_string token) || negb (truthy_string repo) then
        Rejected (ErrorObject "GitHub credentials not provided")
      else
        Resolved {|
          GitHub.token := token;
          GitHub.repo := repo;
          GitHub.branch := GITHUB_BRANCH env;
          GitHub.targetPath := GITHUB_TARGET_PATH env;
          GitHub.commitMessageTemplate := GITHUB_COMMIT_MESSAGE_TEMPLATE env;
          GitHub.prTitleTemplate := GITHUB_PR_TITLE_TEMPLATE env;
          GitHub.prBodyTemplate := GITHUB_PR_BODY_TEMPLATE env
        |}
  | _, _ => Rejected (ErrorObject "GitHub credentials not provided")
  end.

End Config.

(* ===================================================================== *)
(** * Part V.  [TextController] (src/controllers/text.controller.ts)    *)
(* ===================================================================== *)

Module Controller.
Import JS Config.

(** ** The body of a request *)

(** A property of [req.body], as far as the schema tells values apart: it
    is not there, it is a string, or it is something else. *)
Inductive field : Type :=
| Missing
| Str (s : string)
| NotAString.

(** [req.body]: an object, of which the schema reads [content] and
    [approvedBy], or any other value. *)
Inductive body : Type :=
| NotAnObject
| Object (content approvedBy : field).

(** [updateTextSchema.safeParse(req.body)], with
    [content: z.string().min(1)] and [approvedBy: z.string().optional()]:
    the data when the validation succeeds. *)
Definition updateTextSchema (b : body) : option (string * option string) :=
  match b with
  | Object (Str content) approvedBy =>
      if (String.length content <? 1)%nat then None
      else
        match approvedBy with
        | Missing => Some (content, None)
        | Str a => Some (content, Some a)
        | NotAString => None
        end
  | _ => None
  end.

(** ** The answer to a request *)

(** What [getMetadata] returns. *)
Definition metadata : Type := (string * string * nat)%type.

(** The object passed to [res.json].  Of a refusal only the two fields
    every refusal has are kept; the [details] that the answer to an invalid
    body lists are left out. *)
Inductive answer : Type :=
| Refused (error : string)
    (* [{ success: false, error }] *)
| AllTexts (meta : metadata) (texts : Text.TextsObject)
    (* [{ success: true, data: { ...metadata, texts } }] *)
| OneText (text : Text.value)
    (* [{ success: true, data: text }] *)
| Updated (text : Text.ref) (artifact : metadata)
    (githubSync : option GitHub.CreatePRResult)
    (* [{ success: true, data: { text, artifact }, githubSync? }] *)
| Deleted (artifact : metadata) (githubSync : option GitHub.CreatePRResult).
    (* [{ success: true, data: { deleted: true, artifact }, githubSync? }] *)

(** [res.status(code).json(answer)]; [res.json] alone answers 200. *)
Record response : Type := {
  status : nat;
  json : answer
}.

(** ** The process

    The controller owns one store; the remote calls issued so far are kept
    as they are for [GitHubService].  A request is handled from start to end
    without another one coming in between. *)
Record server (W : Type) : Type := {
  store : Text.process W;
  requests : list GitHub.request
}.
Arguments store {W} _.
Arguments requests {W} _.

Section Handlers.
Context {W : Type} {clock_of_W : Clock W} {octokit_of_W : GitHub.Octokit W}
        {buffer : GitHub.Buffer} {json_of_W : Text.JSON}.
Variable env : Env.

(** The state [GitHubService] runs from, and the server it leaves. *)
Definition remote_state (p : Text.process W) (issued : list GitHub.request)
    : GitHub.state W :=
  {| GitHub.world := Text.world p; GitHub.calls := issued |}.

Definition resume (p : Text.process W) (s : GitHub.state W) : server W :=
  {| store := {| Text.world := GitHub.world s; Text.memory := Text.memory p;
                 Text.artifact := Text.artifact p |};
     requests := GitHub.calls s |}.

(** [githubError instanceof Error ? githubError.message
                                  : 'Unknown GitHub error'] *)
Definition github_message_of (e : thrown) : string :=
  match e with
  | ErrorObject m => m
  | NotAnError => "Unknown GitHub error"
  end.

(** The statements of [updateText] and [deleteText] that leave
    [githubResult]: [null] unless the mode is enabled, and else what
    [syncContent] returned, or a failure made of what was thrown (which is
    also written to the log). *)
Definition github_sync (key artifactJson : string)
    : GitHub.M W (option GitHub.CreatePRResult) :=
  if isGitHubPRModeEnabled env then
    GitHub.try_catch
      (match new_GitHubService env with
       | Rejected e => GitHub.throw e
       | Resolved config =>
           GitHub.bind (GitHub.syncContent config key artifactJson 0)
             (fun githubResult => GitHub.ret (Some githubResult))
       end)
      (fun githubError =>
         GitHub.ret (Some {| GitHub.success := false;
                             GitHub.prUrl := None;
                             GitHub.error := Some (github_message_of githubError);
                             GitHub.noChanges := None |}))
  else GitHub.ret None.

(** [if (githubResult && !githubResult.success) 207, else 200] *)
Definition status_for (githubResult : option GitHub.CreatePRResult) : nat :=
  match githubResult with
  | Some r => if negb (GitHub.success r) then 207 else 200
  | None => 200
  end.

(** [getTexts(req, res)].  Nothing in its [try] block throws, nor in that
    of [getText]: their [catch] clauses have no part here. *)
Definition getTexts (c : server W) : response * server W :=
  let texts := Text.getAllTexts (store c) in
  let meta := Text.getMetadata (store c) in
  ({| status := 200; json := AllTexts meta texts |}, c).

(** [getText(req, res)], with [key] for [req.params.key] *)
Definition getText (key : string) (c : server W) : response * server W :=
  let text := Text.getText key (store c) in
  if negb (Text.truthy text) then
    ({| status := 404; json := Refused "Text not found" |}, c)
  else ({| status := 200; json := OneText text |}, c).

(** [updateText(req, res)] *)
Definition updateText (key : string) (b : body) (c : server W)
    : response * server W :=
  match updateTextSchema b with
  | None => ({| status := 400; json := Refused "Invalid request body" |}, c)
  | Some (content, approvedBy) =>
      let (updatedText, p) := Text.updateText key content approvedBy (store c) in
      let artifactJson := Text.toJsonString p in
      match github_sync key artifactJson (remote_state p (requests c)) with
      | (Resolved githubResult, s) =>
          let c' := resume p s in
          ({| status := status_for githubResult;
              json := Updated updatedText (Text.getMetadata (store c'))
                        githubResult |}, c')
      | (Rejected _, s) =>
          ({| status := 500; json := Refused "Failed to update text" |},
           resume p s)
      end
  end.

(** [deleteText(req, res)] *)
Definition deleteText (key : string) (c : server W) : response * server W :=
  let (deleted, p) := Text.deleteText key (store c) in
  if negb deleted then
    ({| status := 404; json := Refused "Text not found" |},
     {| store := p; requests := requests c |})
  else
    let artifactJson := Text.toJsonString p in
    match github_sync key artifactJson (remote_state p (requests c)) with
    | (Resolved githubResult, s) =>
        let c' := resume p s in
        ({| status := status_for githubResult;
            json := Deleted (Text.getMetadata (store c')) githubResult |}, c')
    | (Rejected _, s) =>
        ({| status := 500; json := Refused "Failed to delete text" |},
         resume p s)
    end.

End Handlers.
End Controller.

(* ===================================================================== *)
(** * Part VI.  What is said of a list of remote calls                  *)
(* ===================================================================== *)

Module Trace.
Import JS GitHub.

Definition is_fetch (r : request) : bool :=
  match r with GetContent _ _ _ _ => true | _ => false end.

(** A text without a hyphen; such is the decimal writing of a time that is
    not negative. *)
Fixpoint no_dash (s : string) : bool :=
  match s with
  | EmptyString => true
  | String c rest => negb (Ascii.eqb c "-") && no_dash rest
  end.

Section Trace.
Context {buffer : Buffer}.
Variable config : GitHubPRConfig.

(** The remote calls of an attempt that goes all the way, in the order in
    which the [try] block of [syncContent] makes them: the fetch, the tip
    of the base branch, the new branch, the fetch that [commitFile] makes
    when it was given no token ([again]), the write, the review request. *)
Definition attempt (key timestamp branchName body tip : string) (again : bool)
    (fileSha : option string) : list request :=
  ([GetContent (owner config) (rp config) (targetPath config) (branch config);
    GetBranch (owner config) (rp config) (branch config);
    CreateRef (owner config) (rp config) ("refs/heads/" ++ branchName) tip]
   ++ (if again then
         [GetContent (owner config) (rp config) (targetPath config)
            (branch config)]
       else [])
   ++ [CreateOrUpdateFileContents (owner config) (rp config) (targetPath config)
         (render (commitMessageTemplate config) key timestamp)
         (base64_encode body) fileSha branchName;
       PullsCreate (owner config) (rp config)
         (render (prTitleTemplate config) key timestamp)
         (render (prBodyTemplate config) key timestamp)
         branchName (branch config)])%list.

(** The calls of one attempt for [key] and [body]: a beginning of the
    sequence above, not empty, for a timestamp and a branch name made of two
    readings of the clock; and after it, when the attempt failed, the
    deletion of that branch. *)
Definition round (key body : string) (failed : bool) (tr : list request)
    : Prop :=
  exists t t' tip again fileSha n,
    (1 <= n)%nat /\
    tr = (firstn n (attempt key (toISOString t) (branch_name key t') body tip
                      again fileSha)
          ++ (if failed then
                [DeleteRef (owner config) (rp config)
                   ("heads/" ++ branch_name key t')]
              else []))%list.

(** The request concerns the configured repository. *)
Definition in_repository (r : request) : Prop :=
  match r with
  | GetContent o p _ _ | GetBranch o p _ | CreateRef o p _ _
  | CreateOrUpdateFileContents o p _ _ _ _ _ | PullsCreate o p _ _ _ _
  | DeleteRef o p _ => o = owner config /\ p = rp config
  end.

(** The request is one that a synchronisation of [key] may make: it reads
    the configured file on the base branch, or the tip of the base branch;
    or it creates, writes the configured file to, asks a review into the
    base branch for, or deletes a branch of the name that [syncContent]
    gives to the branches of this key. *)
Definition for_key (key : string) (r : request) : Prop :=
  match r with
  | GetContent _ _ path ref => path = targetPath config /\ ref = branch config
  | GetBranch _ _ b => b = branch config
  | CreateRef _ _ ref _ => exists t, ref = "refs/heads/" ++ branch_name key t
  | CreateOrUpdateFileContents _ _ path _ _ _ b =>
      path = targetPath config /\ exists t, b = branch_name key t
  | PullsCreate _ _ _ _ head base =>
      (exists t, head = branch_name key t) /\ base = branch config
  | DeleteRef _ _ ref => exists t, ref = "heads/" ++ branch_name key t
  end.

End Trace.
End Trace.

(* ===================================================================== *)
(** * Part VII.  What is said of a store and of a request               *)
(* ===================================================================== *)

Module Shape.
Import JS Text.

(** A key for which [Object.prototype] has no property: the keys for which
    a plain object is a mapping. *)
Definition plain (k : string) : Prop :=
  is_in k Object_prototype_methods = false /\ k <> "__proto__".

Section Shape.
Context {W : Type} {clock_of_W : Clock W}.

(** The [texts] object has a property of its own for the key. *)
Definition stored (k : string) (p : process W) : bool :=
  match own_lookup k (own (texts (artifact p))) with
  | Some _ => true
  | None => false
  end.

(** An object has each of its properties once. *)
Definition distinct_keys (p : process W) : Prop :=
  NoDup (map fst (own (texts (artifact p)))).

(** [updateText(k, c, a)] for each [(c, a)] of a list, in turn. *)
Definition updates (k : string) (writes : list (string * option string))
    (p : process W) : process W :=
  fold_left (fun q ca => snd (updateText k (fst ca) (snd ca) q)) writes p.

End Shape.

(** The body [{ content, approvedBy }] of a request, [approvedBy] being left
    out when there is none. *)
Definition body_of (content : string) (approvedBy : option string)
    : Controller.body :=
  Controller.Object (Controller.Str content)
    (match approvedBy with
     | Some a => Controller.Str a
     | None => Controller.Missing
     end).

(** The requests that were added to a list. *)
Definition added (before after : list GitHub.request) : list GitHub.request :=
  skipn (List.length before) after.

End Shape.

(* ===================================================================== *)
(** * Part VIII.  A scripted world, after the mocks of the test suite   *)
(* ===================================================================== *)

(** The tests of the repository replace Octokit by functions that settle as
    the test scripts them.  The same is done here, to run the services on
    concrete inputs: the remote answers each call with the next entry of a
    script, whatever the call, and the clock advances by one millisecond at
    each reading. *)
Module Mock.
Import JS.

(** ** Base64 of a sequence of bytes, which is what [Buffer] computes for
    ASCII text *)

Definition alphabet : string :=
  "ABCDEFGHIJKLMNOPQRSTUVWXYZabcdefghijklmnopqrstuvwxyz0123456789+/".

Definition sextet_char (n : nat) : ascii :=
  match String.get n alphabet with
  | Some c => c
  | None => "="%char
  end.

Fixpoint position (c : ascii) (s : string) (i : nat) : option nat :=
  match s with
  | EmptyString => None
  | String d s' => if Ascii.eqb c d then Some i else position c s' (S i)
  end.

Fixpoint encode (s : string) : string :=
  match s with
  | EmptyString => EmptyString
  | String a EmptyString =>
      let x := nat_of_ascii a in
      String (sextet_char (x / 4))
        (String (sextet_char (x mod 4 * 16)) "==")
  | String a (String b EmptyString) =>
      let x := nat_of_ascii a in
      let y := nat_of_ascii b in
      String (sextet_char (x / 4))
        (String (sextet_char (x mod 4 * 16 + y / 16))
           (String (sextet_char (y mod 16 * 4)) "="))
  | String a (String b (String c rest)) =>
      let x := nat_of_ascii a in
      let y := nat_of_ascii b in
      let z := nat_of_ascii c in
      String (sextet_char (x / 4))
        (String (sextet_char (x mod 4 * 16 + y / 16))
           (String (sextet_char (y mod 16 * 4 + z / 64))
              (String (sextet_char (z mod 64)) (encode rest))))
  end.

(** The sextets of the characters of the alphabet; the others are skipped. *)
Fixpoint sextets (s : string) : list nat :=
  match s with
  | EmptyString => []
  | String c s' =>
      match position c alphabet 0 with
      | Some n => n :: sextets s'
      | None => sextets s'
      end
  end.

Fixpoint bytes_of (l : list nat) : string :=
  match l with
  | a :: b :: c :: d :: rest =>
      String (ascii_of_nat (a * 4 + b / 16))
        (String (ascii_of_nat (b mod 16 * 16 + c / 4))
           (String (ascii_of_nat (c mod 4 * 64 + d)) (bytes_of rest)))
  | [a; b; c] =>
      String (ascii_of_nat (a * 4 + b / 16))
        (String (ascii_of_nat (b mod 16 * 16 + c / 4)) EmptyString)
  | [a; b] => String (ascii_of_nat (a * 4 + b / 16)) EmptyString
  | _ => EmptyString
  end.

Definition decode (s : string) : string := bytes_of (sextets s).

#[export] Instance buffer : GitHub.Buffer := {
  GitHub.base64_decode := decode;
  GitHub.base64_encode := encode
}.

(** ** The scripted remote and its clock *)

Inductive scripted : Type :=
| Content (d : GitHub.content_data)   (* for [repos.getContent] *)
| Text (s : string)                   (* a tip commit or a review URL *)
| Done                                (* for the calls whose answer is not read *)
| Fails (e : thrown).

Record universe : Type := {
  time : Z;
  script : list scripted
}.

(** What a call makes of the scripted entry; an entry of the wrong shape is
    a test that is wrongly set up, and rejects. *)
Definition reply (r : GitHub.request) (a : scripted) : settled (GitHub.answer r) :=
  match r return settled (GitHub.answer r) with
  | GitHub.GetContent _ _ _ _ =>
      match a with
      | Content d => Resolved d
      | Fails e => Rejected e
      | _ => Rejected NotAnError
      end
  | GitHub.GetBranch _ _ _ =>
      match a with
      | Text s => Resolved s
      | Fails e => Rejected e
      | _ => Rejected NotAnError
      end
  | GitHub.PullsCreate _ _ _ _ _ _ =>
      match a with
      | Text s => Resolved s
      | Fails e => Rejected e
      | _ => Rejected NotAnError
      end
  | GitHub.CreateRef _ _ _ _ =>
      match a with
      | Done => Resolved tt
      | Fails e => Rejected e
      | _ => Rejected NotAnError
      end
  | GitHub.CreateOrUpdateFileContents _ _ _ _ _ _ _ =>
      match a with
      | Done => Resolved tt
      | Fails e => Rejected e
      | _ => Rejected NotAnError
      end
  | GitHub.DeleteRef _ _ _ =>
      match a with
      | Done => Resolved tt
      | Fails e => Rejected e
      | _ => Rejected NotAnError
      end
  end.

#[export] Instance remote : GitHub.Octokit universe := {
  GitHub.octokit r w :=
    match script w with
    | [] => (reply r (Fails (ErrorObject "no scripted response left")), w)
    | a :: rest => (reply r a, {| time := time w; script := rest |})
    end
}.

#[export] Instance ticking : Clock universe := {
  Date_now w := (time w, {| time := (time w + 1)%Z; script := script w |})
}.

(** The configuration of the service tests, with the default templates of
    [src/config/env.ts]. *)
Definition config : GitHub.GitHubPRConfig := {|
  GitHub.token := "test-token";
  GitHub.repo := "test-owner/test-repo";
  GitHub.branch := "main";
  GitHub.targetPath := "artifacts/texts.json";
  GitHub.commitMessageTemplate := "Update text artifact for {key} - {timestamp}";
  GitHub.prTitleTemplate := "Text Update: {key}";
  GitHub.prBodyTemplate := "Automated text update for {key} at {timestamp}"
|}.

(** The same, with templates in which the placeholders come twice. *)
Definition repeating : GitHub.GitHubPRConfig := {|
  GitHub.token := "test-token";
  GitHub.repo := "test-owner/test-repo";
  GitHub.branch := "main";
  GitHub.targetPath := "artifacts/texts.json";
  GitHub.commitMessageTemplate := "{key} and {key} at {timestamp}, {timestamp}";
  GitHub.prTitleTemplate := "Text Update: {key} ({key})";
  GitHub.prBodyTemplate := "At {timestamp}: {key}; at {timestamp}: {key}"
|}.

(** A run that starts at the given time with the given script and no call
    issued yet. *)
Definition start (t : Z) (answers : list scripted) : GitHub.state universe :=
  {| GitHub.world := {| time := t; script := answers |}; GitHub.calls := [] |}.

(** A later state of such a run. *)
Definition at_time (t : Z) (answers : list scripted) (cs : list GitHub.request)
    : GitHub.state universe :=
  {| GitHub.world := {| time := t; script := answers |}; GitHub.calls := cs |}.

(** The remote holds a file with this content and this token. *)
Definition file (sha content : string) : scripted :=
  Content (GitHub.Entry "file" sha (encode content)).

Definition mismatch : scripted :=
  Fails (ErrorObject "SHA does not match").

(** ** The scenarios of the synchroniser tests *)

(** The fetch finds the very content that is to be written. *)
Definition unchanged : GitHub.state universe :=
  start 1000 [file "abc123" "same content"].

(** Both attempts are refused at the commit. *)
Definition twice_refused : GitHub.state universe :=
  start 1000 [file "abc123" "old content"; Text "def456"; Done; mismatch; Done;
              file "abc124" "old content"; Text "def456"; Done; mismatch; Done].

(** The first attempt is refused at the commit, the second one goes
    through. *)
Definition refused_then_accepted : GitHub.state universe :=
  start 1000 [file "abc123" "old content"; Text "def456"; Done; mismatch; Done;
              file "abc124" "old content"; Text "def456"; Done; Done;
              Text "https://github.com/test-owner/test-repo/pull/1"].

(** The first attempt is refused at the commit; the second one commits, and
    is refused the review request. *)
Definition refused_then_no_review : GitHub.state universe :=
  start 1000 [file "abc123" "old content"; Text "def456"; Done; mismatch; Done;
              file "abc124" "old content"; Text "def456"; Done; Done;
              Fails (ErrorObject "Validation Failed"); Done].

(** The fetch itself fails, and so does the deletion of the branch that was
    never created. *)
Definition fetch_fails : GitHub.state universe :=
  start 1000 [Fails (ErrorObject "API Error");
              Fails (ErrorObject "Reference does not exist")].

(** No file yet: the first write creates it. *)
Definition first_sync : GitHub.state universe :=
  start 0 [Fails (ErrorObject "Not Found"); Text "def456"; Done;
           Fails (ErrorObject "Not Found"); Done;
           Text "https://github.com/test-owner/test-repo/pull/1"].

(** The fetch of the test configuration. *)
Definition fetch : GitHub.request :=
  GitHub.GetContent "test-owner" (Some "test-repo") "artifacts/texts.json" "main".

(** The state a scenario is in once its first attempt has been cleaned up:
    with [retryCount = 1] the method makes one attempt and no other. *)
Definition after_first_attempt (s : GitHub.state universe) : GitHub.state universe :=
  snd (GitHub.syncContent config "test-key" "new content" 1 s).

(** The state a scenario ends in. *)
Definition at_the_end (s : GitHub.state universe) : GitHub.state universe :=
  snd (GitHub.syncContent config "test-key" "new content" 0 s).

(** ** A parser for the documents of the store tests *)

Definition quoted (s : string) : string :=
  String (ascii_of_nat 34) s ++ String (ascii_of_nat 34) EmptyString.

(** [{"texts":{"test-key":{"key":"test-key","content":"test content"}}}],
    the document of the test of missing fields. *)
Definition partial_document : string :=
  "{" ++ quoted "texts" ++ ":{" ++ quoted "test-key" ++ ":{"
    ++ quoted "key" ++ ":" ++ quoted "test-key" ++ ","
    ++ quoted "content" ++ ":" ++ quoted "test content" ++ "}}}".

Definition partial_record : Text.TextItem := {|
  Text.key := "test-key"; Text.content := "test content";
  Text.approvedAt := None; Text.approvedBy := None; Text.version := None
|}.

(** The few documents the tests load; every other text is refused, as
    [JSON.parse] refuses ['invalid json']. *)
Definition parse (s : string) : settled Text.parsed :=
  if String.eqb s partial_document then
    Resolved (Text.ParsedObject None None (Some [("test-key", partial_record)]))
  else if String.eqb s "{}" then Resolved (Text.ParsedObject None None None)
  else if String.eqb s "null" then Resolved Text.ParsedNull
  else if String.eqb s "42" then Resolved Text.ParsedOther
  else Rejected (ErrorObject "Unexpected token in JSON").

(** Of a document, only the keys are printed. *)
Definition stringify (d : Text.document) : string :=
  let '(v, lu, props) := d in
  v ++ " " ++ lu ++ " " ++ String.concat "," (map fst props).

#[export] Instance json : Text.JSON := {
  Text.JSON_parse := parse;
  Text.JSON_stringify := stringify
}.

(** A process whose clock shows [t], with an empty heap and a new service. *)
Definition service (t : Z) : Text.process universe :=
  Text.create {| time := t; script := [] |} [].

(** The store of the test [should return copy of all texts]. *)
Definition two_texts : Text.process universe :=
  snd (Text.updateText "key2" "content2" None
         (snd (Text.updateText "key1" "content1" None (service 0)))).

End Mock.
(* ===================================================================== *)
(** * Part IX.  Concrete requests, after the tests of the API           *)
(* ===================================================================== *)

Module Cases.
Import JS Config Mock.

(** The variables that the tests of the configuration set. *)
Definition variables : environment :=
  [("GITHUB_TOKEN", "test-token"); ("GITHUB_REPO", "test-owner/test-repo");
   ("NODE_ENV", "test")].

(** What [validateEnv] makes of them. *)
Definition with_credentials : Env := {|
  GITHUB_TOKEN := Some "test-token";
  GITHUB_REPO := Some "test-owner/test-repo";
  GITHUB_BRANCH := "main";
  GITHUB_TARGET_PATH := "artifacts/texts.json";
  GITHUB_COMMIT_MESSAGE_TEMPLATE := "Update text artifact for {key} - {timestamp}";
  GITHUB_PR_TITLE_TEMPLATE := "Text Update: {key}";
  GITHUB_PR_BODY_TEMPLATE := "Automated text update for {key} at {timestamp}";
  PORT := "3000";
  NODE_ENV := test
|}.

(** The same without the two credentials. *)
Definition without_credentials : Env := {|
  GITHUB_TOKEN := None;
  GITHUB_REPO := None;
  GITHUB_BRANCH := "main";
  GITHUB_TARGET_PATH := "artifacts/texts.json";
  GITHUB_COMMIT_MESSAGE_TEMPLATE := "Update text artifact for {key} - {timestamp}";
  GITHUB_PR_TITLE_TEMPLATE := "Text Update: {key}";
  GITHUB_PR_BODY_TEMPLATE := "Automated text update for {key} at {timestamp}";
  PORT := "3000";
  NODE_ENV := test
|}.

(** A controller that was created at the time [t], before its first
    request; the remote will give the scripted answers. *)
Definition server_at (t : Z) (answers : list Mock.scripted)
    : Controller.server Mock.universe :=
  {| Controller.store :=
       Text.create {| Mock.time := t; Mock.script := answers |} [];
     Controller.requests := [] |}.

(** The answers of a remote that has no file yet and accepts everything. *)
Definition accepting : list Mock.scripted :=
  [Mock.Fails (ErrorObject "Not Found"); Mock.Text "def456"; Mock.Done;
   Mock.Fails (ErrorObject "Not Found"); Mock.Done;
   Mock.Text "https://github.com/test-owner/test-repo/pull/1"].

(** The body of the request of the tests. *)
Definition test_body : Controller.body :=
  Shape.body_of "Test content" (Some "test-user").

(** The records of the store of two texts, as [JSON.stringify] writes them
    and [JSON.parse] reads them: a field that is [undefined] is left out. *)
Definition two_records : list (string * Text.TextItem) :=
  [("key1", {| Text.key := "key1"; Text.content := "content1";
               Text.approvedAt := Some "1970-01-01T00:00:00.001Z";
               Text.approvedBy := None; Text.version := Some (Text.Num 1) |});
   ("key2", {| Text.key := "key2"; Text.content := "content2";
               Text.approvedAt := Some "1970-01-01T00:00:00.003Z";
               Text.approvedBy := None; Text.version := Some (Text.Num 1) |})].

(** A codec that reads back what it writes of the store of two texts, and
    otherwise the documents of the tests. *)
Definition reading_back : Text.JSON := {|
  Text.JSON_parse s :=
    if String.eqb s (Mock.stringify (Text.snapshot Mock.two_texts)) then
      Resolved (Text.ParsedObject (Some "1.0.0")
                  (Some "1970-01-01T00:00:00.004Z") (Some two_records))
    else Mock.parse s;
  Text.JSON_stringify := Mock.stringify
|}.

End Cases.

(* ===================================================================== *)
(** * Part X.  Properties of the string operations                      *)
(* ===================================================================== *)

Module JSFacts.
Import JS.

Lemma append_nil_r (s : string) : s ++ "" = s.
Proof. induction s as [| c s IH]; cbn; [reflexivity | now rewrite IH]. Qed.

Lemma append_assoc (a b c : string) : (a ++ b) ++ c = a ++ b ++ c.
Proof. induction a as [| x a IH]; cbn; [reflexivity | now rewrite IH]. Qed.

Lemma length_append (a b : string) :
  String.length (a ++ b) = String.length a + String.length b.
Proof. induction a as [| x a IH]; cbn; [reflexivity | now rewrite IH]. Qed.

(** Two prefixes of one text that have the same length are the same. *)
Lemma append_same_length (a b a' b' : string) :
  a ++ b = a' ++ b' -> String.length a = String.length a' ->
  a = a' /\ b = b'.
Proof.
  revert a'. induction a as [| x a IH]; intros [| x' a']; cbn;
    try discriminate.
  - now split.
  - intros [= -> E] [= L]. destruct (IH _ E L) as [-> ->]. now split.
Qed.

Lemma strip_prefix_spec (p s r : string) :
  strip_prefix p s = Some r <-> s = p ++ r.
Proof.
  revert s. induction p as [| a p IH]; intros s; cbn.
  - split; [now intros [= ->] | now intros ->].
  - destruct s as [| b s].
    + split; discriminate.
    + destruct (Ascii.eqb_spec a b) as [-> | Hne].
      * rewrite IH. split; [now intros -> | now intros [= ->]].
      * split; [discriminate | intros [= E _]; now elim Hne].
Qed.

Lemma strip_prefix_none (p s : string) :
  strip_prefix p s = None -> forall r, s <> p ++ r.
Proof.
  intros E r Hr. apply strip_prefix_spec in Hr. congruence.
Qed.

(** The search finds the leftmost occurrence. *)
Lemma split_first_some (pat s before after : string) :
  split_first pat s = Some (before, after) ->
  first_occurrence pat s before after.
Proof.
  revert before after. induction s as [| c s IH]; intros before after.
  - cbn. destruct (strip_prefix pat "") as [rest |] eqn:E; [| discriminate].
    intros [= <- <-]. apply strip_prefix_spec in E. split; [exact E |].
    intros; cbn; lia.
  - cbn [split_first].
    destruct (strip_prefix pat (String c s)) as [rest |] eqn:E.
    + intros [= <- <-]. apply strip_prefix_spec in E. split; [exact E |].
      intros; cbn; lia.
    + destruct (split_first pat s) as [[b a] |] eqn:Es; [| discriminate].
      intros [= <- <-]. destruct (IH _ _ eq_refl) as [Hs Hmin]. split.
      * cbn. now rewrite <- Hs.
      * intros [| c' b'] a' Hs'.
        -- cbn in Hs'. elim (strip_prefix_none _ _ E a'). exact Hs'.
        -- cbn in Hs'. injection Hs' as _ Hs'. cbn.
           apply le_n_S. now apply (Hmin b' a').
Qed.

Lemma split_first_none (pat s : string) :
  split_first pat s = None -> absent pat s.
Proof.
  induction s as [| c s IH]; cbn [split_first].
  - destruct (strip_prefix pat "") as [rest |] eqn:E; [discriminate |].
    intros _ [| c' b] a Hs; cbn in Hs; [| discriminate].
    now elim (strip_prefix_none _ _ E a).
  - destruct (strip_prefix pat (String c s)) as [rest |] eqn:E; [discriminate |].
    destruct (split_first pat s) as [[b a] |] eqn:Es; [discriminate |].
    intros _ [| c' b'] a' Hs'; cbn in Hs'.
    + now elim (strip_prefix_none _ _ E a').
    + injection Hs' as _ Hs'. now elim (IH eq_refl b' a').
Qed.

Lemma first_occurrence_split (pat s before after : string) :
  first_occurrence pat s before after ->
  split_first pat s = Some (before, after).
Proof.
  intros [Hs Hmin].
  destruct (split_first pat s) as [[b a] |] eqn:E.
  - destruct (split_first_some _ _ _ _ E) as [Hs' Hmin'].
    pose proof (Hmin _ _ Hs') as L1. pose proof (Hmin' _ _ Hs) as L2.
    rewrite Hs in Hs'.
    destruct (append_same_length _ _ _ _ Hs' (Nat.le_antisymm _ _ L1 L2))
      as [-> Hrest].
    rewrite <- (append_nil_r pat) in Hrest at 1 2.
    rewrite !append_assoc in Hrest.
    destruct (append_same_length _ _ _ _ Hrest eq_refl) as [_ Ha].
    cbn in Ha. now subst.
  - now elim (split_first_none _ _ E before after).
Qed.

Lemma absent_split (pat s : string) : absent pat s -> split_first pat s = None.
Proof.
  intros Habs. destruct (split_first pat s) as [[b a] |] eqn:E; [| reflexivity].
  destruct (split_first_some _ _ _ _ E) as [Hs _]. now elim (Habs b a).
Qed.

(** Without a dollar sign the replacement text is inserted as it is. *)
Lemma GetSubstitution_no_dollar (matched before after r : string) :
  no_dollar r = true -> GetSubstitution matched before after r = r.
Proof.
  induction r as [| c r IH]; cbn; [reflexivity |].
  destruct (Ascii.eqb c "$"); cbn; [discriminate |].
  intros Hr. now rewrite IH.
Qed.

(** [replace] rewrites the leftmost occurrence and copies what follows. *)
Lemma replace_first (pat r s before after : string) :
  first_occurrence pat s before after ->
  replace pat r s = before ++ GetSubstitution pat before after r ++ after.
Proof.
  intros Hf. unfold replace. now rewrite (first_occurrence_split _ _ _ _ Hf).
Qed.

Lemma replace_absent (pat r s : string) : absent pat s -> replace pat r s = s.
Proof. intros Ha. unfold replace. now rewrite (absent_split _ _ Ha). Qed.

Lemma no_dollar_append (a b : string) :
  no_dollar (a ++ b) = no_dollar a && no_dollar b.
Proof.
  induction a as [| c a IH]; cbn; [reflexivity |].
  now rewrite IH, andb_assoc.
Qed.

Lemma no_dollar_digit (d : Z) : (0 <= d < 10)%Z ->
  Ascii.eqb (digit d) "$" = false.
Proof.
  intros Hd. unfold digit.
  assert (Hn : Z.to_nat d < 10) by lia.
  destruct (Z.to_nat d) as [| [| [| [| [| [| [| [| [| [| n]]]]]]]]]];
    try reflexivity. lia.
Qed.

Lemma no_dollar_digits (n : nat) (z : Z) : no_dollar (digits n z) = true.
Proof.
  revert z. induction n as [| n IH]; intros z; cbn [digits]; [reflexivity |].
  rewrite no_dollar_append, IH. unfold no_dollar.
  rewrite no_dollar_digit; [reflexivity |].
  apply Z.mod_pos_bound. lia.
Qed.

Lemma no_dollar_year_string (y : Z) : no_dollar (year_string y) = true.
Proof.
  unfold year_string.
  destruct ((0 <=? y)%Z && (y <=? 9999)%Z); [apply no_dollar_digits |].
  destruct (y <? 0)%Z.
  - change (negb (Ascii.eqb "-" "$") && no_dollar (digits 6 (- y)) = true).
    now rewrite no_dollar_digits.
  - change (negb (Ascii.eqb "+" "$") && no_dollar (digits 6 y) = true).
    now rewrite no_dollar_digits.
Qed.

(** A timestamp holds no dollar sign. *)
Lemma no_dollar_toISOString (t : Z) : no_dollar (toISOString t) = true.
Proof.
  unfold toISOString. destruct (civil_from_days _) as [[y m] d].
  rewrite !no_dollar_append, !no_dollar_digits, no_dollar_year_string.
  reflexivity.
Qed.

(** The replacement text ["$&"] stands for the text that was matched: the
    replacement changes nothing. *)
Lemma replace_by_matched_text (pat s : string) : replace pat "$&" s = s.
Proof.
  unfold replace. destruct (split_first pat s) as [[before after] |] eqn:E;
    [| reflexivity].
  destruct (split_first_some _ _ _ _ E) as [-> _].
  cbn. now rewrite append_nil_r.
Qed.

(** ** The operations on a few inputs *)

Example replace_only_first : replace "{key}" "k" "a {key} b {key}" = "a k b {key}".
Proof. reflexivity. Qed.
Example replace_expands_matched_text : replace "{key}" "$&" "a {key} b" = "a {key} b".
Proof. reflexivity. Qed.
Example replace_expands_every_pattern : replace "b" "[$`|$'|$$|$1|$]" "abc" = "a[a|c|$|$1|$]c".
Proof. reflexivity. Qed.
Example split_owner_and_repo : split_slash "test-owner/test-repo" = ["test-owner"; "test-repo"].
Proof. reflexivity. Qed.
Example split_without_slash : split_slash "abc" = ["abc"].
Proof. reflexivity. Qed.
Example string_of_time : string_of_Z 1672531200000 = "1672531200000".
Proof. reflexivity. Qed.
Example string_of_zero : string_of_Z 0 = "0".
Proof. reflexivity. Qed.
Example string_of_negative : string_of_Z (-15) = "-15".
Proof. reflexivity. Qed.
Example string_of_thousand : string_of_Z 1000 = "1000".
Proof. reflexivity. Qed.
Example iso_of_epoch : toISOString 0 = "1970-01-01T00:00:00.000Z".
Proof. reflexivity. Qed.
Example iso_of_2023 : toISOString 1672531200000 = "2023-01-01T00:00:00.000Z".
Proof. reflexivity. Qed.
Example iso_of_leap_day : toISOString 951827696789 = "2000-02-29T12:34:56.789Z".
Proof. reflexivity. Qed.
Example iso_before_epoch : toISOString (-1) = "1969-12-31T23:59:59.999Z".
Proof. reflexivity. Qed.
Example iso_of_year_10000 : toISOString 253402300800000 = "+010000-01-01T00:00:00.000Z".
Proof. reflexivity. Qed.
Example iso_of_year_minus_1 : toISOString (-62198755200000) = "-000001-01-01T00:00:00.000Z".
Proof. reflexivity. Qed.

End JSFacts.
(* ===================================================================== *)
(** * Part XI.  Properties of [GitHubService]                           *)
(* ===================================================================== *)

Module GitHubFacts.
Import JS GitHub.

(** One more awaited call of which the outcome is known. *)
Ltac step E := unfold bind at 1; rewrite E.

Section Facts.
Context {W : Type} {clock_of_W : Clock W} {octokit_of_W : Octokit W}
        {buffer : Buffer}.
Variable config : GitHubPRConfig.

Lemma count_app f (l1 l2 : list request) :
  count f (l1 ++ l2) = count f l1 + count f l2.
Proof. unfold count. now rewrite filter_app, length_app. Qed.

Lemma issued_app (s s' : state W) tr :
  calls s' = (calls s ++ tr)%list -> issued s s' = tr.
Proof.
  unfold issued. intros ->.
  rewrite skipn_app, skipn_all, Nat.sub_diag. reflexivity.
Qed.

(** The clock issues no remote call. *)
Lemma clock_calls (s s' : state W) (a : settled Z) :
  clock s = (a, s') -> calls s' = calls s /\ exists t, a = Resolved t.
Proof.
  unfold clock. destruct (Date_now (world s)) as [t w'].
  intros [= <- <-]. split; [reflexivity | now exists t].
Qed.

(** [getCurrentFile] issues exactly one call, the fetch. *)
Lemma getCurrentFile_calls (s s' : state W) a :
  getCurrentFile config s = (a, s') ->
  calls s' = (calls s ++ [GetContent (owner config) (rp config)
                           (targetPath config) (branch config)])%list.
Proof.
  unfold getCurrentFile, try_catch, bind, call.
  destruct (octokit _ (world s)) as [[d | e] w']; cbn.
  - destruct d as [| type sha content]; cbn.
    + intros [= <- <-]. reflexivity.
    + destruct (negb (type =? "file")); cbn; intros [= <- <-]; reflexivity.
  - destruct (is_error_with "Not Found" e); cbn; intros [= <- <-]; reflexivity.
Qed.

Lemma createBranch_calls bn (s s' : state W) a :
  createBranch config bn s = (a, s') ->
  (exists e, a = Rejected e /\
     calls s' = (calls s ++ [GetBranch (owner config) (rp config) (branch config)])%list)
  \/ (exists tip,
     calls s' = (calls s ++ [GetBranch (owner config) (rp config) (branch config);
                             CreateRef (owner config) (rp config)
                               ("refs/heads/" ++ bn) tip])%list).
Proof.
  unfold createBranch, bind, call.
  destruct (octokit _ (world s)) as [[tip | e] w']; cbn.
  - destruct (octokit _ w') as [a' w'']. intros [= <- <-]. right. exists tip.
    cbn. now rewrite <- app_assoc.
  - intros [= <- <-]. left. exists e. split; reflexivity.
Qed.

Lemma createBranch_resolved bn (s s' : state W) :
  createBranch config bn s = (Resolved tt, s') ->
  exists tip,
    calls s' = (calls s ++ [GetBranch (owner config) (rp config) (branch config);
                            CreateRef (owner config) (rp config)
                              ("refs/heads/" ++ bn) tip])%list.
Proof.
  intros E. destruct (createBranch_calls _ _ _ _ E) as [(e & He & _) | Hr].
  - discriminate.
  - exact Hr.
Qed.

Lemma file_sha_for_calls base (s s' : state W) a :
  file_sha_for config base s = (a, s') ->
  calls s' = calls s \/
  calls s' = (calls s ++ [GetContent (owner config) (rp config)
                           (targetPath config) (branch config)])%list.
Proof.
  unfold file_sha_for. destruct (truthy base).
  - intros [= <- <-]. now left.
  - unfold bind. destruct (getCurrentFile config s) as [[cur | e] s1] eqn:E;
      apply getCurrentFile_calls in E; intros [= <- <-]; now right.
Qed.

(** A token that was passed in is the token that is written with. *)
Lemma file_sha_for_given base (s s' : state W) a :
  truthy base = true ->
  file_sha_for config base s = (a, s') -> a = Resolved base /\ s' = s.
Proof. unfold file_sha_for. intros ->. now intros [= <- <-]. Qed.

Lemma put_file_calls bn body msg fs (s s' : state W) a :
  put_file config bn body msg fs s = (a, s') ->
  calls s' = (calls s ++ [CreateOrUpdateFileContents (owner config) (rp config)
                            (targetPath config) msg (base64_encode body)
                            (if truthy fs then fs else None) bn])%list.
Proof.
  unfold put_file, call. destruct (truthy fs);
    destruct (octokit _ (world s)) as [a' w']; now intros [= <- <-].
Qed.

Lemma createPullRequest_calls bn title body (s s' : state W) a :
  createPullRequest config bn title body s = (a, s') ->
  calls s' = (calls s ++ [PullsCreate (owner config) (rp config) title body bn
                            (branch config)])%list.
Proof.
  unfold createPullRequest, call.
  destruct (octokit _ (world s)) as [a' w']. now intros [= <- <-].
Qed.

(** The cleanup always completes normally, after exactly one call. *)
Lemma cleanup_calls bn (s s' : state W) a :
  cleanup config bn s = (a, s') ->
  a = Resolved tt /\
  calls s' = (calls s ++ [DeleteRef (owner config) (rp config) ("heads/" ++ bn)])%list.
Proof.
  unfold cleanup, try_catch, deleteBranch, call.
  destruct (octokit _ (world s)) as [[[] | e] w']; cbn; intros [= <- <-]; now split.
Qed.

Lemma sync_try_calls key body ts bn (s s' : state W) a :
  sync_try config key body ts bn s = (a, s') ->
  exists rest,
    calls s' = (calls s ++ GetContent (owner config) (rp config)
                             (targetPath config) (branch config) :: rest)%list /\
    Forall (of_attempt body bn) rest.
Proof.
  unfold sync_try. unfold bind at 1.
  destruct (getCurrentFile config s) as [[cur | e] s1] eqn:Ef;
    pose proof (getCurrentFile_calls _ _ _ Ef) as Hf.
  2:{ intros [= <- <-]. exists []. split; [exact Hf | constructor]. }
  destruct (same_content cur body).
  { intros [= <- <-]. exists []. split; [exact Hf | constructor]. }
  unfold bind at 1.
  destruct (createBranch config bn s1) as [[[] | e] s2] eqn:Eb.
  2:{ intros [= <- <-].
      destruct (createBranch_calls _ _ _ _ Eb) as [(e' & _ & Hb) | (tip & Hb)];
        rewrite Hb, Hf, <- app_assoc; cbn; eexists; (split; [reflexivity |]);
        repeat constructor. }
  apply createBranch_resolved in Eb. destruct Eb as (tip & Hb).
  unfold bind at 1. unfold commitFile, try_catch. unfold bind at 1.
  destruct (file_sha_for config (sha_of cur) s2) as [[fs | e] s3] eqn:Es;
    pose proof (file_sha_for_calls _ _ _ _ Es) as Hs.
  2:{ destruct (is_error_with "SHA does not match" e); unfold throw;
        intros [= <- <-];
        (destruct Hs as [Hs | Hs]; rewrite Hs, Hb, Hf, <- ?app_assoc; cbn;
         eexists; (split; [reflexivity |]); repeat constructor). }
  destruct (put_file config bn body _ fs s3) as [[[] | e] s4] eqn:Ep;
    pose proof (put_file_calls _ _ _ _ _ _ _ Ep) as Hp.
  2:{ destruct (is_error_with "SHA does not match" e); unfold throw;
        intros [= <- <-];
        (destruct Hs as [Hs | Hs]; rewrite Hp, Hs, Hb, Hf, <- ?app_assoc; cbn;
         eexists; (split; [reflexivity |]); repeat constructor). }
  unfold bind at 1.
  destruct (createPullRequest config bn _ _ s4) as [[url | e] s5] eqn:Er;
    pose proof (createPullRequest_calls _ _ _ _ _ _ Er) as Hr;
    intros [= <- <-];
    (destruct Hs as [Hs | Hs]; rewrite Hr, Hp, Hs, Hb, Hf, <- ?app_assoc; cbn;
     eexists; (split; [reflexivity |]); repeat constructor).
Qed.

(** [syncContent] satisfies the equation of the method: the calls it is
    allowed are never exhausted. *)
Lemma syncContent_unfold key body rc (s : state W) :
  syncContent config key body rc s =
  syncContent_body config (syncContent config) key body rc s.
Proof.
  unfold syncContent. cbn [syncContent_within].
  unfold syncContent_body, bind, try_catch.
  destruct (clock s) as [[t | e] s1]; [| reflexivity].
  destruct (clock s1) as [[t' | e] s2]; [| reflexivity].
  destruct (sync_try _ _ _ _ _ s2) as [[r | e] s3]; [reflexivity |].
  destruct (cleanup _ _ s3) as [[[] | e'] s4]; [| reflexivity].
  destruct (is_error_with "RACE_CONDITION" e); [| reflexivity].
  destruct (Z.ltb_spec rc 1); [| reflexivity].
  replace (retries_left rc) with (S (retries_left (rc + 1)))
    by (unfold retries_left; lia).
  reflexivity.
Qed.

(** An attempt whose commit is refused issues one write and one deletion,
    and hands over to the retry when one is left. *)
Lemma conflicted_attempt_run key body (s s' : state W) bn rc :
  conflicted_attempt config key body s s' bn ->
  syncContent config key body rc s =
    (if (rc <? 1)%Z then syncContent config key body (rc + 1) s'
     else (Resolved (Failure "Failed due to race condition after retry"), s')).
Proof.
  intros (t & s1 & t' & s2 & cur & s3 & s4 & fs & s5 & e & s6 &
          Hc1 & Hc2 & -> & Hf & Hsame & Hb & Hsha & Hput & He & Hclean).
  rewrite syncContent_unfold. unfold syncContent_body.
  step Hc1. step Hc2.
  unfold try_catch at 1. unfold sync_try.
  step Hf. rewrite Hsame. step Hb.
  unfold bind at 1. unfold commitFile. unfold try_catch at 1.
  step Hsha. rewrite Hput, He. unfold throw at 1.
  step Hclean.
  change (is_error_with "RACE_CONDITION"
            (ErrorObject "RACE_CONDITION: File was modified by another process"))
    with true.
  cbv iota. destruct (rc <? 1)%Z; reflexivity.
Qed.

Lemma conflicted_attempt_calls key body (s s' : state W) bn :
  conflicted_attempt config key body s s' bn ->
  exists tr,
    calls s' = (calls s ++ tr)%list /\
    count is_commit tr = 1 /\
    filter is_branch_delete tr =
      [DeleteRef (owner config) (rp config) ("heads/" ++ bn)] /\
    count is_review_open tr = 0 /\
    Forall (fun r => is_commit r = true ->
                     commit_content r = Some (base64_encode body)) tr.
Proof.
  intros (t & s1 & t' & s2 & cur & s3 & s4 & fs & s5 & e & s6 &
          Hc1 & Hc2 & -> & Hf & Hsame & Hb & Hsha & Hput & He & Hclean).
  apply clock_calls in Hc1, Hc2. destruct Hc1 as [Hc1 _], Hc2 as [Hc2 _].
  apply getCurrentFile_calls in Hf. apply createBranch_resolved in Hb.
  destruct Hb as (tip & Hb). apply file_sha_for_calls in Hsha.
  apply put_file_calls in Hput. apply cleanup_calls in Hclean.
  destruct Hclean as [_ Hclean].
  destruct Hsha as [Hsha | Hsha];
    rewrite Hclean, Hput, Hsha, Hb, Hf, Hc2, Hc1, <- ?app_assoc; cbn;
    eexists; (split; [reflexivity |]); cbn;
    (repeat split; try reflexivity);
    repeat constructor; cbn; try discriminate; intros; reflexivity.
Qed.

(** An attempt that commits and opens the review returns its reference. *)
Lemma committed_attempt_run key body (s s' : state W) url bn rc :
  committed_attempt config key body s s' (Resolved url) bn ->
  syncContent config key body rc s = (Resolved (Success url), s').
Proof.
  intros (t & s1 & t' & s2 & cur & s3 & s4 & fs & s5 & s6 &
          Hc1 & Hc2 & -> & Hf & Hsame & Hb & Hsha & Hput & Hpr).
  rewrite syncContent_unfold. unfold syncContent_body.
  step Hc1. step Hc2.
  unfold try_catch at 1. unfold sync_try.
  step Hf. rewrite Hsame. step Hb.
  unfold bind at 1. unfold commitFile. unfold try_catch at 1.
  step Hsha. rewrite Hput. step Hpr. reflexivity.
Qed.

(** An attempt that commits and is refused the review cleans up and fails
    with the reason of that refusal. *)
Lemma committed_attempt_refused key body (s s' : state W) e bn rc :
  committed_attempt config key body s s' (Rejected e) bn ->
  is_error_with "RACE_CONDITION" e = false ->
  syncContent config key body rc s =
    (Resolved (Failure (message_of e)), snd (cleanup config bn s')).
Proof.
  intros (t & s1 & t' & s2 & cur & s3 & s4 & fs & s5 & s6 &
          Hc1 & Hc2 & -> & Hf & Hsame & Hb & Hsha & Hput & Hpr) He.
  rewrite syncContent_unfold. unfold syncContent_body.
  step Hc1. step Hc2.
  unfold try_catch at 1. unfold sync_try.
  step Hf. rewrite Hsame. step Hb.
  unfold bind at 1. unfold commitFile. unfold try_catch at 1.
  step Hsha. rewrite Hput. step Hpr.
  unfold bind at 1.
  destruct (cleanup config (branch_name key t') s') as [c s''] eqn:Hclean.
  destruct (cleanup_calls _ _ _ _ Hclean) as [-> _].
  rewrite He. reflexivity.
Qed.

Lemma committed_attempt_calls key body (s s' : state W) opened bn :
  committed_attempt config key body s s' opened bn ->
  exists tr,
    calls s' = (calls s ++ tr)%list /\
    count is_commit tr = 1 /\
    count is_branch_delete tr = 0 /\
    count is_review_open tr = 1 /\
    Forall (fun r => is_commit r = true ->
                     commit_content r = Some (base64_encode body)) tr.
Proof.
  intros (t & s1 & t' & s2 & cur & s3 & s4 & fs & s5 & s6 &
          Hc1 & Hc2 & -> & Hf & Hsame & Hb & Hsha & Hput & Hpr).
  apply clock_calls in Hc1, Hc2. destruct Hc1 as [Hc1 _], Hc2 as [Hc2 _].
  apply getCurrentFile_calls in Hf. apply createBranch_resolved in Hb.
  destruct Hb as (tip & Hb). apply file_sha_for_calls in Hsha.
  apply put_file_calls in Hput. apply createPullRequest_calls in Hpr.
  destruct Hsha as [Hsha | Hsha];
    rewrite Hpr, Hput, Hsha, Hb, Hf, Hc2, Hc1, <- ?app_assoc; cbn;
    eexists; (split; [reflexivity |]); cbn;
    (repeat split; try reflexivity);
    repeat constructor; cbn; try discriminate; intros; reflexivity.
Qed.

Lemma of_attempt_no_delete body bn (l : list request) :
  Forall (of_attempt body bn) l -> filter is_branch_delete l = [].
Proof.
  induction 1 as [| r l Hr _ IH]; [reflexivity |].
  cbn. destruct r; cbn in *; try exact IH. contradiction.
Qed.

Lemma of_attempt_body body bn (l : list request) :
  Forall (of_attempt body bn) l ->
  Forall (fun r => is_commit r = true ->
                   commit_content r = Some (base64_encode body)) l.
Proof.
  apply Forall_impl. intros r Hr Hc. destruct r; cbn in *; try discriminate.
  now destruct Hr as [-> _].
Qed.

(** Every write of a call of [syncContent], retry included, carries the
    body the call was given. *)
Lemma syncContent_within_calls n key body rc (s s' : state W) res :
  syncContent_within config n key body rc s = (res, s') ->
  exists tr,
    calls s' = (calls s ++ tr)%list /\
    Forall (fun r => is_commit r = true ->
                     commit_content r = Some (base64_encode body)) tr.
Proof.
  revert rc s s' res. induction n as [| n IH]; intros rc s s' res.
  - cbn. intros [= <- <-]. exists []. now rewrite app_nil_r.
  - cbn [syncContent_within]. unfold syncContent_body.
    unfold bind at 1. destruct (clock s) as [a1 s1] eqn:Hc1.
    destruct (clock_calls _ _ _ Hc1) as [E1 [t ->]].
    unfold bind at 1. destruct (clock s1) as [a2 s2] eqn:Hc2.
    destruct (clock_calls _ _ _ Hc2) as [E2 [t' ->]].
    unfold try_catch at 1.
    destruct (sync_try config key body _ _ s2) as [[r | e] s3] eqn:Ht;
      destruct (sync_try_calls _ _ _ _ _ _ _ Ht) as (rest & E3 & Hrest);
      apply of_attempt_body in Hrest.
    + intros [= <- <-]. eexists. rewrite E3, E2, E1. split; [reflexivity |].
      constructor; [discriminate | exact Hrest].
    + unfold bind at 1.
      destruct (cleanup config _ s3) as [c s4] eqn:Hcl.
      destruct (cleanup_calls _ _ _ _ Hcl) as [-> E4].
      assert (Hpre : exists tr, calls s4 = (calls s ++ tr)%list /\
                Forall (fun r => is_commit r = true ->
                   commit_content r = Some (base64_encode body)) tr).
      { eexists. rewrite E4, E3, E2, E1, <- app_assoc. split; [reflexivity |].
        cbn. constructor; [discriminate |].
        apply Forall_app. split; [exact Hrest |].
        constructor; [discriminate | constructor]. }
      destruct Hpre as (tr & Etr & Htr).
      destruct (is_error_with "RACE_CONDITION" e).
      * destruct (rc <? 1)%Z.
        -- intros Hrec. apply IH in Hrec. destruct Hrec as (tr' & Etr' & Htr').
           exists (tr ++ tr')%list. rewrite Etr', Etr, app_assoc.
           split; [reflexivity | now apply Forall_app].
        -- intros [= <- <-]. now exists tr.
      * intros [= <- <-]. now exists tr.
Qed.

Lemma syncContent_calls key body rc (s s' : state W) res :
  syncContent config key body rc s = (res, s') ->
  exists tr,
    calls s' = (calls s ++ tr)%list /\
    Forall (fun r => is_commit r = true ->
                     commit_content r = Some (base64_encode body)) tr.
Proof. apply syncContent_within_calls. Qed.

(** A call of [syncContent] starts by fetching the file. *)
Lemma syncContent_fetches_first key body rc (s s' : state W) res :
  syncContent config key body rc s = (res, s') ->
  exists rest,
    issued s s' = GetContent (owner config) (rp config) (targetPath config)
                    (branch config) :: rest.
Proof.
  rewrite syncContent_unfold. unfold syncContent_body.
  unfold bind at 1. destruct (clock s) as [a1 s1] eqn:Hc1.
  destruct (clock_calls _ _ _ Hc1) as [E1 [t ->]].
  unfold bind at 1. destruct (clock s1) as [a2 s2] eqn:Hc2.
  destruct (clock_calls _ _ _ Hc2) as [E2 [t' ->]].
  unfold try_catch at 1.
  destruct (sync_try config key body _ _ s2) as [[r | e] s3] eqn:Ht;
    destruct (sync_try_calls _ _ _ _ _ _ _ Ht) as (rest & E3 & _).
  - intros [= <- <-]. exists rest. apply issued_app. now rewrite E3, E2, E1.
  - unfold bind at 1.
    destruct (cleanup config _ s3) as [c s4] eqn:Hcl.
    destruct (cleanup_calls _ _ _ _ Hcl) as [-> E4].
    assert (Hpre : exists rest', calls s4 =
              (calls s ++ GetContent (owner config) (rp config)
                            (targetPath config) (branch config) :: rest')%list).
    { eexists. rewrite E4, E3, E2, E1, <- app_assoc. reflexivity. }
    destruct Hpre as (rest' & Epre).
    destruct (is_error_with "RACE_CONDITION" e).
    + destruct (rc <? 1)%Z.
      * intros Hrec. apply syncContent_calls in Hrec.
        destruct Hrec as (tr' & Etr' & _).
        exists (rest' ++ tr')%list. apply issued_app.
        rewrite Etr', Epre, <- app_assoc. reflexivity.
      * intros [= <- <-]. exists rest'. now apply issued_app.
    + intros [= <- <-]. exists rest'. now apply issued_app.
Qed.

(** When the fetch of an attempt returns a file with a token, the write of
    that attempt is made with that token. *)
Lemma sync_try_token key body ts bn (s s1 s' : state W) f a :
  getCurrentFile config s = (Resolved (Some f), s1) ->
  truthy (Some (sha f)) = true ->
  sync_try config key body ts bn s = (a, s') ->
  exists tr,
    calls s' = (calls s ++ tr)%list /\
    Forall (fun r => is_commit r = true -> commit_sha r = Some (sha f)) tr.
Proof.
  intros Hf Hsha. unfold sync_try. step Hf.
  apply getCurrentFile_calls in Hf.
  destruct (same_content (Some f) body).
  { intros [= <- <-]. eexists. split; [exact Hf |].
    constructor; [discriminate | constructor]. }
  unfold bind at 1.
  destruct (createBranch config bn s1) as [[[] | e] s2] eqn:Eb.
  2:{ intros [= <- <-].
      destruct (createBranch_calls _ _ _ _ Eb) as [(e' & _ & Hb) | (tip & Hb)];
        rewrite Hb, Hf, <- app_assoc; cbn; eexists; (split; [reflexivity |]);
        repeat constructor; discriminate. }
  apply createBranch_resolved in Eb. destruct Eb as (tip & Hb).
  unfold bind at 1. unfold commitFile, try_catch. unfold bind at 1.
  destruct (file_sha_for config (sha_of (Some f)) s2) as [a3 s3] eqn:Es.
  destruct (file_sha_for_given _ _ _ _ Hsha Es) as [-> ->].
  destruct (put_file config bn body _ _ s2) as [[[] | e] s4] eqn:Ep;
    pose proof (put_file_calls _ _ _ _ _ _ _ Ep) as Hp;
    cbn [sha_of option_map] in Hp; rewrite Hsha in Hp.
  2:{ destruct (is_error_with "SHA does not match" e); unfold throw;
        intros [= <- <-]; rewrite Hp, Hb, Hf, <- ?app_assoc; cbn;
        eexists; (split; [reflexivity |]);
        repeat constructor; cbn; try discriminate; intros; reflexivity. }
  unfold bind at 1.
  destruct (createPullRequest config bn _ _ s4) as [[url | e] s5] eqn:Er;
    pose proof (createPullRequest_calls _ _ _ _ _ _ Er) as Hr;
    intros [= <- <-]; rewrite Hr, Hp, Hb, Hf, <- ?app_assoc; cbn;
    eexists; (split; [reflexivity |]);
    repeat constructor; cbn; try discriminate; intros; reflexivity.
Qed.

(** The message of the write and the title and the body of the review
    request of an attempt are the three templates, all rendered with the key
    and with the one timestamp of the attempt. *)
Lemma sync_try_renders key body ts bn (s s' : state W) a :
  sync_try config key body ts bn s = (a, s') ->
  Forall (rendered config key ts) (issued s s').
Proof.
  unfold sync_try. unfold bind at 1.
  destruct (getCurrentFile config s) as [[cur | e] s1] eqn:Ef;
    pose proof (getCurrentFile_calls _ _ _ Ef) as Hf.
  2:{ intros [= <- <-]. rewrite (issued_app _ _ _ Hf). repeat constructor. }
  destruct (same_content cur body).
  { intros [= <- <-]. rewrite (issued_app _ _ _ Hf). repeat constructor. }
  unfold bind at 1.
  destruct (createBranch config bn s1) as [[[] | e] s2] eqn:Eb.
  2:{ intros [= <- <-].
      destruct (createBranch_calls _ _ _ _ Eb) as [(e' & _ & Hb) | (tip & Hb)];
        rewrite Hf, <- app_assoc in Hb; rewrite (issued_app _ _ _ Hb);
        repeat constructor. }
  apply createBranch_resolved in Eb. destruct Eb as (tip & Hb).
  rewrite Hf, <- app_assoc in Hb.
  unfold bind at 1. unfold commitFile, try_catch. unfold bind at 1.
  destruct (file_sha_for config (sha_of cur) s2) as [[fs | e] s3] eqn:Es;
    pose proof (file_sha_for_calls _ _ _ _ Es) as Hs.
  2:{ destruct (is_error_with "SHA does not match" e); unfold throw;
        intros [= <- <-];
        (destruct Hs as [Hs | Hs]; rewrite Hb, <- ?app_assoc in Hs;
         rewrite (issued_app _ _ _ Hs); repeat constructor). }
  destruct (put_file config bn body _ fs s3) as [[[] | e] s4] eqn:Ep;
    pose proof (put_file_calls _ _ _ _ _ _ _ Ep) as Hp.
  2:{ destruct (is_error_with "SHA does not match" e); unfold throw;
        intros [= <- <-];
        (destruct Hs as [Hs | Hs]; rewrite Hs, Hb, <- ?app_assoc in Hp;
         rewrite (issued_app _ _ _ Hp); repeat constructor). }
  unfold bind at 1.
  destruct (createPullRequest config bn _ _ s4) as [[url | e] s5] eqn:Er;
    pose proof (createPullRequest_calls _ _ _ _ _ _ Er) as Hr;
    intros [= <- <-];
    (destruct Hs as [Hs | Hs]; rewrite Hp, Hs, Hb, <- ?app_assoc in Hr;
     rewrite (issued_app _ _ _ Hr); repeat constructor).
Qed.

End Facts.
End GitHubFacts.
(* ===================================================================== *)
(** * Part XII.  The synchronisation protocol                           *)
(* ===================================================================== *)

Module Sync.
Import JS GitHub GitHubFacts.

Section Protocol.
Context {W : Type} {clock_of_W : Clock W} {octokit_of_W : Octokit W}
        {buffer : Buffer}.
Variable config : GitHubPRConfig.

(** C1.  When the fetch of a call of [syncContent] returns a file whose
    decoded content is the very text that is to be written, the call returns
    [NoChange]; the fetch is the only remote call it issues, so that no
    branch is created or deleted, nothing is committed and no review is
    opened. *)
Theorem sync_of_unchanged_content_is_NoChange
    (key newContent : string) (retryCount : Z)
    (s s1 s2 s3 : state W) (t t' : Z) (file : GitHubFileContent) :
  clock s = (Resolved t, s1) ->
  clock s1 = (Resolved t', s2) ->
  getCurrentFile config s2 = (Resolved (Some file), s3) ->
  content file = newContent ->
  syncContent config key newContent retryCount s = (Resolved NoChange, s3) /\
  issued s s3 = [GetContent (owner config) (rp config) (targetPath config)
                   (branch config)] /\
  count is_branch_create (issued s s3) = 0 /\
  count is_commit (issued s s3) = 0 /\
  count is_review_open (issued s s3) = 0 /\
  count is_branch_delete (issued s s3) = 0.
Proof.
  intros Hc1 Hc2 Hf Hsame.
  assert (Hrun : syncContent config key newContent retryCount s
                 = (Resolved NoChange, s3)).
  { rewrite syncContent_unfold. unfold syncContent_body.
    step Hc1. step Hc2. unfold try_catch, sync_try. step Hf.
    unfold same_content. rewrite Hsame, String.eqb_refl. reflexivity. }
  assert (Hcalls : issued s s3 =
            [GetContent (owner config) (rp config) (targetPath config)
               (branch config)]).
  { apply issued_app. apply getCurrentFile_calls in Hf.
    apply clock_calls in Hc1, Hc2. destruct Hc1 as [E1 _], Hc2 as [E2 _].
    now rewrite Hf, E2, E1. }
  rewrite Hcalls. repeat split; trivial.
Qed.


(** C3, as the code has it.  When the commit step of the first attempt is
    refused for a token that no longer matches, the commit of the second
    attempt succeeds and the review request is then opened, the call issues
    exactly two writes and exactly one branch deletion, that of the branch
    of the first attempt, and returns [Success] with the reference of the
    review. *)
Theorem sync_refused_then_accepted_succeeds
    (key newContent url : string) (s s1 s2 : state W) (bn1 bn2 : string) :
  conflicted_attempt config key newContent s s1 bn1 ->
  committed_attempt config key newContent s1 s2 (Resolved url) bn2 ->
  syncContent config key newContent 0 s = (Resolved (Success url), s2) /\
  count is_commit (issued s s2) = 2 /\
  filter is_branch_delete (issued s s2)
    = [DeleteRef (owner config) (rp config) ("heads/" ++ bn1)].
Proof.
  intros H1 H2. split; [| split].
  - rewrite (conflicted_attempt_run _ _ _ _ _ _ 0 H1). cbn [Z.ltb Z.compare].
    cbn [Z.add]. now rewrite (committed_attempt_run _ _ _ _ _ _ _ 1 H2).
  - destruct (conflicted_attempt_calls _ _ _ _ _ _ H1) as (tr1 & E1 & C1 & _).
    destruct (committed_attempt_calls _ _ _ _ _ _ _ H2) as (tr2 & E2 & C2 & _).
    rewrite (issued_app s s2 (tr1 ++ tr2)) by (now rewrite E2, E1, app_assoc).
    rewrite count_app. lia.
  - destruct (conflicted_attempt_calls _ _ _ _ _ _ H1) as (tr1 & E1 & _ & D1 & _).
    destruct (committed_attempt_calls _ _ _ _ _ _ _ H2)
      as (tr2 & E2 & _ & D2 & _).
    rewrite (issued_app s s2 (tr1 ++ tr2)) by (now rewrite E2, E1, app_assoc).
    rewrite filter_app, D1. unfold count in D2.
    apply length_zero_iff_nil in D2. now rewrite D2.
Qed.

(** C4.  A call whose first attempt is refused at the commit retries by
    running the method again from the state the cleanup left, with the same
    key and the same body.  The retry starts by fetching the file again;
    when that fetch returns a file with a token, the retry writes with that
    token; and every write of the whole call carries the encoding of the
    body the call was given. *)
Theorem retry_fetches_again_and_sends_the_same_body
    (key newContent : string) (s s1 : state W) (bn1 : string) :
  conflicted_attempt config key newContent s s1 bn1 ->
  syncContent config key newContent 0 s = syncContent config key newContent 1 s1 /\
  forall res s2,
    syncContent config key newContent 1 s1 = (res, s2) ->
    (exists rest,
       issued s1 s2 = GetContent (owner config) (rp config) (targetPath config)
                        (branch config) :: rest) /\
    Forall (fun r => is_commit r = true ->
                     commit_content r = Some (base64_encode newContent))
           (issued s s2) /\
    (forall t sa t' sb file sc,
       clock s1 = (Resolved t, sa) ->
       clock sa = (Resolved t', sb) ->
       getCurrentFile config sb = (Resolved (Some file), sc) ->
       truthy (Some (sha file)) = true ->
       Forall (fun r => is_commit r = true -> commit_sha r = Some (sha file))
              (issued s1 s2)).
Proof.
  intros H1.
  assert (Hretry : syncContent config key newContent 0 s
                   = syncContent config key newContent 1 s1).
  { now rewrite (conflicted_attempt_run _ _ _ _ _ _ 0 H1). }
  split; [exact Hretry |]. intros res s2 Hrun. split; [| split].
  - exact (syncContent_fetches_first _ _ _ _ _ _ _ Hrun).
  - rewrite <- Hretry in Hrun.
    destruct (syncContent_calls _ _ _ _ _ _ _ Hrun) as (tr & E & Htr).
    now rewrite (issued_app _ _ _ E).
  - intros t sa t' sb file sc Hc1 Hc2 Hf Hsha.
    rewrite syncContent_unfold in Hrun. unfold syncContent_body in Hrun.
    revert Hrun. step Hc1. step Hc2. unfold try_catch at 1.
    apply clock_calls in Hc1, Hc2. destruct Hc1 as [E1 _], Hc2 as [E2 _].
    destruct (sync_try config key newContent _ _ sb) as [[r | e] s3] eqn:Ht;
      destruct (sync_try_token _ _ _ _ _ _ _ _ _ _ Hf Hsha Ht) as (tr & E3 & Htr).
    + intros [= <- <-]. rewrite (issued_app s1 s3 tr); [exact Htr |].
      now rewrite E3, E2, E1.
    + unfold bind at 1.
      destruct (cleanup config _ s3) as [c s4] eqn:Hcl.
      destruct (cleanup_calls _ _ _ _ _ Hcl) as [-> E4].
      assert (Hall : Forall (fun r => is_commit r = true ->
                                      commit_sha r = Some (sha file))
                       (issued s1 s4)).
      { rewrite (issued_app s1 s4 (tr ++ [DeleteRef (owner config) (rp config)
                   ("heads/" ++ branch_name key t')])).
        - apply Forall_app. split; [exact Htr |].
          constructor; [discriminate | constructor].
        - now rewrite E4, E3, E2, E1, app_assoc. }
      destruct (is_error_with "RACE_CONDITION" e); cbn [Z.ltb Z.compare];
        now intros [= <- <-].
Qed.

(** C10.  When the [try] block of an attempt throws, wherever it does -- at
    the fetch and at the creation of the branch as well --, the call issues
    exactly one branch deletion in that attempt, that of the branch name the
    attempt generated.  However that deletion settles ([d]), the call goes
    on: to the retry when the error is a conflict and none was made yet, and
    otherwise to a failure whose reason is computed from the error that was
    thrown, not from [d]. *)
Theorem failed_attempt_deletes_its_branch_once
    (key newContent : string) (retryCount : Z)
    (s s1 s2 s3 : state W) (t t' : Z) (e : thrown) (d : settled unit) (w4 : W) :
  clock s = (Resolved t, s1) ->
  clock s1 = (Resolved t', s2) ->
  sync_try config key newContent (toISOString t) (branch_name key t') s2
    = (Rejected e, s3) ->
  octokit (DeleteRef (owner config) (rp config) ("heads/" ++ branch_name key t'))
          (world s3) = (d, w4) ->
  let deletion :=
    DeleteRef (owner config) (rp config) ("heads/" ++ branch_name key t') in
  let s4 := {| world := w4; calls := (calls s3 ++ [deletion])%list |} in
  filter is_branch_delete (issued s s4) = [deletion] /\
  syncContent config key newContent retryCount s =
    (if is_error_with "RACE_CONDITION" e then
       if (retryCount <? 1)%Z
       then syncContent config key newContent (retryCount + 1) s4
       else (Resolved (Failure "Failed due to race condition after retry"), s4)
     else (Resolved (Failure (message_of e)), s4)).
Proof.
  intros Hc1 Hc2 Ht Hd deletion s4.
  assert (Hcl : cleanup config (branch_name key t') s3 = (Resolved tt, s4)).
  { unfold cleanup, try_catch, deleteBranch, call. fold deletion.
    unfold deletion in Hd |- *. rewrite Hd. now destruct d as [[] | e']. }
  split.
  - destruct (sync_try_calls _ _ _ _ _ _ _ _ Ht) as (rest & E3 & Hrest).
    apply clock_calls in Hc1, Hc2. destruct Hc1 as [E1 _], Hc2 as [E2 _].
    rewrite (issued_app s s4
               (GetContent (owner config) (rp config) (targetPath config)
                  (branch config) :: rest ++ [deletion])).
    + cbn [filter is_branch_delete]. rewrite filter_app.
      now rewrite (of_attempt_no_delete _ _ _ Hrest).
    + cbn [calls s4]. rewrite E3, E2, E1, <- app_assoc. reflexivity.
  - rewrite syncContent_unfold. unfold syncContent_body.
    step Hc1. step Hc2. unfold try_catch at 1. rewrite Ht. step Hcl.
    destruct (is_error_with "RACE_CONDITION" e); [| reflexivity].
    destruct (retryCount <? 1)%Z; reflexivity.
Qed.

End Protocol.

Import Mock.

Ltac conflicted := unfold conflicted_attempt; do 11 eexists; repeat split; reflexivity.
Ltac committed := unfold committed_attempt; do 10 eexists; repeat split; reflexivity.

Lemma sync_of_unchanged_content_witness :
  let file := {| sha := "abc123"; content := "same content" |} in
  let s1 := at_time 1001 [Mock.file "abc123" "same content"] [] in
  let s2 := at_time 1002 [Mock.file "abc123" "same content"] [] in
  let s3 := at_time 1002 [] [fetch] in
  clock unchanged = (Resolved 1000%Z, s1) /\
  clock s1 = (Resolved 1001%Z, s2) /\
  getCurrentFile Mock.config s2 = (Resolved (Some file), s3) /\
  content file = "same content" /\
  syncContent Mock.config "test-key" "same content" 0 unchanged
    = (Resolved NoChange, s3) /\
  issued unchanged s3 = [fetch].
Proof.
  intros file s1 s2 s3.
  assert (Hc1 : clock unchanged = (Resolved 1000%Z, s1)) by reflexivity.
  assert (Hc2 : clock s1 = (Resolved 1001%Z, s2)) by reflexivity.
  assert (Hf : getCurrentFile Mock.config s2 = (Resolved (Some file), s3))
    by reflexivity.
  assert (Hsame : content file = "same content") by reflexivity.
  destruct (sync_of_unchanged_content_is_NoChange Mock.config "test-key"
              "same content" 0 unchanged s1 s2 s3 1000 1001 file
              Hc1 Hc2 Hf Hsame) as (Hrun & Hcalls & _).
  repeat split; assumption.
Defined.



Lemma sync_refused_then_accepted_witness :
  let s1 := after_first_attempt refused_then_accepted in
  let s2 := at_the_end refused_then_accepted in
  let url := "https://github.com/test-owner/test-repo/pull/1" in
  conflicted_attempt Mock.config "test-key" "new content" refused_then_accepted
    s1 "text-update-test-key-1001" /\
  committed_attempt Mock.config "test-key" "new content" s1 s2 (Resolved url)
    "text-update-test-key-1003" /\
  syncContent Mock.config "test-key" "new content" 0 refused_then_accepted
    = (Resolved (Success url), s2) /\
  count is_commit (issued refused_then_accepted s2) = 2 /\
  filter is_branch_delete (issued refused_then_accepted s2)
    = [DeleteRef "test-owner" (Some "test-repo")
         "heads/text-update-test-key-1001"].
Proof.
  intros s1 s2 url.
  assert (H1 : conflicted_attempt Mock.config "test-key" "new content"
                 refused_then_accepted s1 "text-update-test-key-1001")
    by conflicted.
  assert (H2 : committed_attempt Mock.config "test-key" "new content" s1 s2
                 (Resolved url) "text-update-test-key-1003") by committed.
  destruct (sync_refused_then_accepted_succeeds Mock.config "test-key"
              "new content" url refused_then_accepted s1 s2 _ _ H1 H2)
    as (Hrun & Hcommits & Hdeletes).
  repeat split; assumption.
Defined.

(** C3, as the specification words it, fails: the first commit is refused
    for the token, the second commit succeeds, and the review request is
    then refused; the call returns a failure, after two deletions. *)
Lemma sync_refused_then_committed_may_fail :
  exists s2,
    conflicted_attempt Mock.config "test-key" "new content"
      refused_then_no_review (after_first_attempt refused_then_no_review)
      "text-update-test-key-1001" /\
    committed_attempt Mock.config "test-key" "new content"
      (after_first_attempt refused_then_no_review) s2
      (Rejected (ErrorObject "Validation Failed")) "text-update-test-key-1003" /\
    fst (syncContent Mock.config "test-key" "new content" 0 refused_then_no_review)
      = Resolved (Failure "Validation Failed") /\
    count is_branch_delete
      (calls (snd (syncContent Mock.config "test-key" "new content" 0
                     refused_then_no_review))) = 2.
Proof.
  eexists. split; [conflicted | split; [committed |]].
  split; reflexivity.
Qed.

Lemma retry_fetches_again_witness :
  let s1 := after_first_attempt refused_then_accepted in
  let s2 := at_the_end refused_then_accepted in
  conflicted_attempt Mock.config "test-key" "new content" refused_then_accepted
    s1 "text-update-test-key-1001" /\
  syncContent Mock.config "test-key" "new content" 0 refused_then_accepted
    = syncContent Mock.config "test-key" "new content" 1 s1 /\
  (exists rest, issued s1 s2 = fetch :: rest) /\
  Forall (fun r => is_commit r = true ->
                   commit_content r = Some (Mock.encode "new content"))
         (issued refused_then_accepted s2) /\
  Forall (fun r => is_commit r = true -> commit_sha r = Some "abc124")
         (issued s1 s2).
Proof.
  intros s1 s2.
  assert (H1 : conflicted_attempt Mock.config "test-key" "new content"
                 refused_then_accepted s1 "text-update-test-key-1001")
    by conflicted.
  destruct (retry_fetches_again_and_sends_the_same_body Mock.config "test-key"
              "new content" refused_then_accepted s1 _ H1) as (Hretry & Hrest).
  destruct (Hrest (Resolved (Success "https://github.com/test-owner/test-repo/pull/1"))
              s2 eq_refl) as (Hfetch & Hbody & Htoken).
  repeat split; try assumption.
  exact (Htoken 1002%Z _ 1003%Z _ {| sha := "abc124"; content := "old content" |}
           _ eq_refl eq_refl eq_refl eq_refl).
Defined.

Lemma failed_attempt_witness :
  let s1 := at_time 1001 (script (world fetch_fails)) [] in
  let s2 := at_time 1002 (script (world fetch_fails)) [] in
  let s3 := at_time 1002 [Fails (ErrorObject "Reference does not exist")] [fetch] in
  let deletion :=
    DeleteRef "test-owner" (Some "test-repo") "heads/text-update-test-key-1001" in
  let s4 := at_time 1002 [] [fetch; deletion] in
  clock fetch_fails = (Resolved 1000%Z, s1) /\
  clock s1 = (Resolved 1001%Z, s2) /\
  sync_try Mock.config "test-key" "new content" (toISOString 1000)
    (branch_name "test-key" 1001) s2 = (Rejected (ErrorObject "API Error"), s3) /\
  octokit deletion (world s3)
    = (Rejected (ErrorObject "Reference does not exist"), world s4) /\
  filter is_branch_delete (issued fetch_fails s4) = [deletion] /\
  syncContent Mock.config "test-key" "new content" 0 fetch_fails
    = (Resolved (Failure "API Error"), s4).
Proof.
  intros s1 s2 s3 deletion s4.
  assert (Hc1 : clock fetch_fails = (Resolved 1000%Z, s1)) by reflexivity.
  assert (Hc2 : clock s1 = (Resolved 1001%Z, s2)) by reflexivity.
  assert (Ht : sync_try Mock.config "test-key" "new content" (toISOString 1000)
                 (branch_name "test-key" 1001) s2
               = (Rejected (ErrorObject "API Error"), s3)) by reflexivity.
  assert (Hd : octokit deletion (world s3)
               = (Rejected (ErrorObject "Reference does not exist"), world s4))
    by reflexivity.
  destruct (failed_attempt_deletes_its_branch_once Mock.config "test-key"
              "new content" 0 fetch_fails s1 s2 s3 1000 1001 _ _ _
              Hc1 Hc2 Ht Hd) as (Hdel & Hrun).
  repeat split; assumption.
Defined.

End Sync.
(* ===================================================================== *)
(** * Part XIII.  The rendering of the templates                        *)
(* ===================================================================== *)

Module Rendering.
Import JS GitHub JSFacts.

Section Rendering.
Context {W : Type} {clock_of_W : Clock W} {octokit_of_W : Octokit W}
        {buffer : Buffer}.
Variable config : GitHubPRConfig.


End Rendering.

Import Mock.



(** C5 at a key the service can receive, ["$&"].  Whatever the template and
    the timestamp, rendering leaves the placeholder [{key}] where it is,
    since the replacement text ["$&"] stands for the text that was matched.
    So it is in a whole call, here on a remote that has no file yet: the call
    succeeds, and the commit message, the title and the body of the review
    all keep [{key}], where substituting the key as it is would give
    ["Update text artifact for $& - ..."], ["Text Update: $&"] and
    ["Automated text update for $& at ..."]. *)
Theorem key_with_dollar_pattern_is_not_substituted :
  (forall template timestamp,
     render template "$&" timestamp = replace "{timestamp}" timestamp template) /\
  let run := syncContent Mock.config "$&" "new content" 0 first_sync in
  fst run = Resolved (Success "https://github.com/test-owner/test-repo/pull/1") /\
  filter is_commit (calls (snd run))
    = [CreateOrUpdateFileContents "test-owner" (Some "test-repo")
         "artifacts/texts.json"
         "Update text artifact for {key} - 1970-01-01T00:00:00.000Z"
         (Mock.encode "new content") None "text-update-$&-1"] /\
  filter is_review_open (calls (snd run))
    = [PullsCreate "test-owner" (Some "test-repo") "Text Update: {key}"
         "Automated text update for {key} at 1970-01-01T00:00:00.000Z"
         "text-update-$&-1" "main"].
Proof.
  split.
  - intros template timestamp. unfold render.
    now rewrite replace_by_matched_text.
  - repeat split.
Qed.

End Rendering.
(* ===================================================================== *)
(** * Part XIV.  Properties of [TextService]                            *)
(* ===================================================================== *)

Module TextFacts.
Import JS Text.
Local Open Scope list_scope.

(** ** Own properties *)

Lemma own_lookup_In k r (props : list (string * ref)) :
  own_lookup k props = Some r -> In (k, r) props.
Proof.
  induction props as [| [k' r'] rest IH]; cbn; [discriminate |].
  destruct (String.eqb_spec k k') as [-> | Hne].
  - intros [= ->]. now left.
  - intros E. right. now apply IH.
Qed.

Lemma own_lookup_define_same k r (props : list (string * ref)) :
  own_lookup k (own_define k r props) = Some r.
Proof.
  induction props as [| [k' r'] rest IH]; cbn.
  - now rewrite String.eqb_refl.
  - destruct (String.eqb_spec k k') as [-> | Hne]; cbn.
    + now rewrite String.eqb_refl.
    + destruct (String.eqb_spec k k'); [contradiction | exact IH].
Qed.

Lemma own_lookup_define_other k k' r (props : list (string * ref)) :
  k <> k' -> own_lookup k (own_define k' r props) = own_lookup k props.
Proof.
  intros Hne. induction props as [| [k'' r''] rest IH]; cbn.
  - destruct (String.eqb_spec k k'); [contradiction | reflexivity].
  - destruct (String.eqb_spec k' k'') as [-> | Hne']; cbn.
    + destruct (String.eqb_spec k k''); [contradiction | reflexivity].
    + destruct (String.eqb_spec k k''); [reflexivity | exact IH].
Qed.

Lemma In_own_define k r (props : list (string * ref)) k' r' :
  In (k', r') (own_define k r props) -> (k', r') = (k, r) \/ In (k', r') props.
Proof.
  induction props as [| [k'' r''] rest IH]; cbn.
  - intros [E | []]. left. now symmetry.
  - destruct (String.eqb_spec k k'') as [-> | Hne]; cbn.
    + intros [E | Hin]; [left; now symmetry | right; now right].
    + intros [E | Hin]; [right; now left |].
      destruct (IH Hin) as [E | Hin']; [now left | right; now right].
Qed.

Lemma In_own_remove k (props : list (string * ref)) k' r' :
  In (k', r') (own_remove k props) -> In (k', r') props.
Proof.
  induction props as [| [k'' r''] rest IH]; cbn; [easy |].
  destruct (String.eqb k k''); cbn.
  - intros Hin. right. now apply IH.
  - intros [E | Hin]; [now left | right; now apply IH].
Qed.

(** ** The heap *)

Lemma deref_alloc_old (h : heap) item r :
  r < List.length h -> deref (snd (alloc h item)) r = deref h r.
Proof. intros Hr. unfold deref, alloc. cbn. now rewrite nth_error_app1. Qed.

Lemma deref_alloc_new (h : heap) item :
  deref (snd (alloc h item)) (fst (alloc h item)) = Some item.
Proof.
  unfold deref, alloc. cbn.
  rewrite nth_error_app2, Nat.sub_diag by lia. reflexivity.
Qed.

Lemma deref_extended (h extra : heap) r :
  r < List.length h -> deref (h ++ extra) r = deref h r.
Proof. intros Hr. unfold deref. now rewrite nth_error_app1. Qed.

(** ** The records of a parsed document *)

(** [install] extends the heap; each key of the document, when the keys
    are distinct, then refers to the record the document has under it; and
    the other properties are as they were. *)
Lemma install_spec (recs : list (string * TextItem)) :
  forall (h h' : heap) (props props' : list (string * ref)),
    install recs h props = (h', props') ->
    (exists extra, h' = (h ++ extra)%list) /\
    (NoDup (map fst recs) ->
     forall k item, In (k, item) recs ->
       exists r, own_lookup k props' = Some r /\ deref h' r = Some item) /\
    (forall k, ~ In k (map fst recs) -> own_lookup k props' = own_lookup k props) /\
    (forall k r, In (k, r) props' ->
       In (k, r) props \/ (List.length h <= r < List.length h')).
Proof.
  induction recs as [| [k0 item0] rest IH]; intros h h' props props'.
  - cbn. intros [= <- <-]. repeat split.
    + exists []. now rewrite app_nil_r.
    + intros _ k item [].
    + intros k r Hin. now left.
  - cbn [install alloc]. intros E.
    destruct (IH _ _ _ _ E) as ((extra & ->) & Hrec & Hother & Hin).
    repeat split.
    + exists (item0 :: extra). now rewrite <- app_assoc.
    + intros Hnd k item [[= <- <-] | Hrest].
      * inversion Hnd as [| ? ? Hnotin Hnd']; subst.
        exists (List.length h). split.
        -- rewrite (Hother _ Hnotin). apply own_lookup_define_same.
        -- unfold deref. rewrite <- app_assoc. cbn.
           rewrite nth_error_app2, Nat.sub_diag by lia. reflexivity.
      * inversion Hnd as [| ? ? Hnotin Hnd']; subst.
        now apply Hrec.
    + intros k Hk. cbn in Hk.
      rewrite Hother by (intros Hin'; apply Hk; now right).
      apply own_lookup_define_other. intros ->. apply Hk. now left.
    + intros k r Hkr. destruct (Hin _ _ Hkr) as [Hdef | Hrange].
      * destruct (In_own_define _ _ _ _ _ Hdef) as [[= -> ->] | Hold].
        -- right. rewrite !length_app. cbn. lia.
        -- now left.
      * right. rewrite !length_app in *. cbn in *. lia.
Qed.

Section Service.
Context {W : Type} {clock_of_W : Clock W} {json : JSON}.

(** ** Validity is kept by every method *)

Lemma valid_create (w : W) : valid (create w []).
Proof.
  unfold create, now_iso. destruct (Date_now w) as [t w'].
  split; cbn; [intros k r [] | discriminate].
Qed.

Lemma valid_updateText k c a (p : process W) :
  valid p -> valid (snd (updateText k c a p)).
Proof.
  intros [Hown Hproto]. unfold updateText, now_iso, alloc.
  destruct (Date_now (world p)) as [t1 w1]. destruct (Date_now w1) as [t2 w2].
  cbn. unfold texts_set.
  assert (Hnew : forall k' r',
            In (k', r') (own_define k (List.length (memory p))
                           (own (texts (artifact p)))) ->
            r' < List.length (memory p ++ [ {| key := k; content := c;
                   approvedAt := Some (toISOString t1); approvedBy := a;
                   version := Some (if truthy (getText k p)
                                    then plus_one (version_of (memory p) (getText k p))
                                    else Num 1) |} ])).
  { intros k' r' Hin. rewrite length_app. cbn.
    destruct (In_own_define _ _ _ _ _ Hin) as [[= _ ->] | Hold]; [lia |].
    specialize (Hown _ _ Hold). lia. }
  destruct (own_lookup k (own (texts (artifact p)))) as [r0 |].
  - split; cbn; [exact Hnew |].
    intros r Hr. rewrite length_app. specialize (Hproto _ Hr). lia.
  - destruct (k =? "__proto__")%string; split; cbn.
    + intros k' r' Hin. rewrite length_app. specialize (Hown _ _ Hin). lia.
    + intros r [= <-]. rewrite length_app. cbn. lia.
    + exact Hnew.
    + intros r Hr. rewrite length_app. specialize (Hproto _ Hr). lia.
Qed.

Lemma valid_deleteText k (p : process W) :
  valid p -> valid (snd (deleteText k p)).
Proof.
  intros [Hown Hproto]. unfold deleteText, now_iso.
  destruct (truthy _); [| now split].
  destruct (Date_now (world p)) as [t w']. split; cbn.
  - intros k' r' Hin. apply In_own_remove in Hin. now apply (Hown k').
  - exact Hproto.
Qed.

Lemma valid_load_try jsonString (p p' : process W) :
  load_try jsonString p = Resolved p' -> valid p'.
Proof.
  unfold load_try.
  destruct (JSON_parse jsonString) as [[| | v lu txts] | e]; try discriminate.
  - destruct (now_iso (world p)) as [t w']. intros [= <-].
    split; cbn; [intros k r [] | discriminate].
  - match goal with
    | |- context [let '(_, _) := ?x in _] => destruct x as [t w']
    end.
    destruct txts as [recs |].
    + destruct (install recs (memory p) []) as [h' props] eqn:Ei.
      intros [= <-]. split; cbn; [| discriminate].
      destruct (install_spec _ _ _ _ _ Ei) as (_ & _ & _ & Hin).
      intros k r Hkr. destruct (Hin _ _ Hkr) as [[] | Hr]. lia.
    + intros [= <-]. split; cbn; [intros k r [] | discriminate].
Qed.

Lemma valid_loadFromJson jsonString (p : process W) :
  valid (snd (loadFromJson jsonString p)).
Proof.
  unfold loadFromJson.
  destruct (load_try jsonString p) as [p' | e] eqn:E.
  - exact (valid_load_try _ _ _ E).
  - destruct (now_iso (world p)) as [t w'].
    split; cbn; [intros k r [] | discriminate].
Qed.

End Service.
End TextFacts.
(* ===================================================================== *)
(** * Part XV.  The artifact store                                      *)
(* ===================================================================== *)

Module Store.
Import JS Text TextFacts.
Local Open Scope list_scope.

Section Store.
Context {W : Type} {clock_of_W : Clock W} {json : JSON}.

(** For a key that [Object.prototype] knows nothing of, in a store whose
    [texts] object has its original prototype, [updateText] does what is
    expected of it: the new record has the given content and approver, the
    time of the call, and the version after that of the record the key had,
    or 1; the key then refers to this record; and [lastUpdated] is a later
    reading of the clock. *)
Lemma updateText_of_plain_key (k c : string) (a : option string) (p : process W) :
  proto (texts (artifact p)) = None ->
  is_in k Object_prototype_methods = false ->
  k <> "__proto__" ->
  let r := fst (updateText k c a p) in
  let p' := snd (updateText k c a p) in
  let t1 := fst (now_iso (world p)) in
  let t2 := fst (now_iso (snd (now_iso (world p)))) in
  deref (memory p') r
    = Some {| key := k; content := c; approvedAt := Some t1; approvedBy := a;
              version := Some
                (match own_lookup k (own (texts (artifact p))) with
                 | Some r0 => plus_one (version_of (memory p) (VItem r0))
                 | None => Num 1
                 end) |} /\
  getText k p' = VItem r /\
  lastUpdated (artifact p') = t2.
Proof.
  intros Hproto Hplain Hk. unfold updateText, getText, texts_get, texts_set.
  rewrite Hproto. unfold Object_prototype_get. rewrite Hplain.
  destruct (String.eqb_spec k "__proto__") as [-> | _]; [now elim Hk |].
  destruct (now_iso (world p)) as [t1 w1]. cbn [fst snd].
  destruct (now_iso w1) as [t2 w2]. cbn [fst snd].
  destruct (own_lookup k (own (texts (artifact p)))) as [r0 |] eqn:E;
    cbn [truthy fst snd alloc memory artifact texts own proto lastUpdated];
    rewrite own_lookup_define_same; cbn [truthy];
    (split; [| split; reflexivity]);
    unfold deref; rewrite nth_error_app2, Nat.sub_diag by lia; reflexivity.
Qed.


(** ** The object returned by [getAllTexts] *)

Lemma mutate_all_extends (mus : list mutation) :
  forallb on_mapping mus = true ->
  forall all h, exists extra, snd (mutate_all mus all h) = h ++ extra.
Proof.
  induction mus as [| mu rest IH]; intros Hmus all h.
  - exists []. cbn. now rewrite app_nil_r.
  - cbn in Hmus. apply andb_prop in Hmus. destruct Hmus as [Hmu Hrest].
    cbn [mutate_all]. destruct mu as [k r | k item | k | k f]; cbn in *;
      try discriminate.
    + apply (IH Hrest).
    + destruct (IH Hrest (texts_set all k (List.length h)) (h ++ [item]))
        as (extra & E).
      exists (item :: extra). now rewrite E, <- app_assoc.
    + apply (IH Hrest).
Qed.

Lemma texts_get_extended (h extra : heap) (t : TextsObject) k :
  (forall r, proto t = Some r -> r < List.length h) ->
  texts_get (h ++ extra) t k = texts_get h t k.
Proof.
  intros Hproto. unfold texts_get. destruct (own_lookup k (own t)); [reflexivity |].
  destruct (proto t) as [p0 |]; [| reflexivity].
  now rewrite deref_extended by (now apply Hproto).
Qed.

(** A reference that [texts[k]] gives is to a record of the heap. *)
Lemma texts_get_valid (p : process W) k r :
  valid p -> texts_get (memory p) (texts (artifact p)) k = VItem r ->
  r < List.length (memory p).
Proof.
  intros [Hown Hproto]. unfold texts_get.
  destruct (own_lookup k (own (texts (artifact p)))) as [r0 |] eqn:E.
  - intros [= <-]. apply own_lookup_In in E. now apply (Hown k).
  - assert (Hobj : forall q, (forall x, q = Some x -> x < List.length (memory p)) ->
              Object_prototype_get q k = VItem r -> r < List.length (memory p)).
    { intros q Hq. unfold Object_prototype_get.
      destruct (is_in k Object_prototype_methods); [discriminate |].
      destruct (k =? "__proto__")%string; [| discriminate].
      destruct q as [x |]; [| discriminate]. intros [= <-]. now apply Hq. }
    destruct (proto (texts (artifact p))) as [p0 |] eqn:Ep.
    + destruct (deref (memory p) p0) as [item |].
      * destruct (item_get item k) as [v |] eqn:Ei.
        -- unfold item_get in Ei.
           repeat match type of Ei with
                  | (if ?b then _ else _) = _ => destruct b
                  end;
           try discriminate;
           try (injection Ei as <-; discriminate);
           try (destruct (approvedAt item); cbn in Ei; [injection Ei as <- |];
                discriminate);
           try (destruct (approvedBy item); cbn in Ei; [injection Ei as <- |];
                discriminate);
           try (destruct (version item); cbn in Ei; [injection Ei as <- |];
                discriminate).
        -- apply Hobj. intros x [= <-]. now apply Hproto.
      * apply Hobj. intros x [= <-]. now apply Hproto.
    + apply Hobj. discriminate.
Qed.


End Store.

Import Mock.


(** C6 at a key the service can receive, ["constructor"].  On a service
    that was just created, whatever the clock, the content and the approver,
    the record [updateText] creates for this key has the version [NaN]:
    [getText] finds the method of that name which every object inherits, and
    adds one to the version it has not.  So it is in the scripted world: the
    store has no item and no property of that name, and the version of the
    new record is [NaN], where the first write of a key is to give
    version 1. *)
Theorem first_upsert_of_constructor_has_version_NaN :
  (forall (W : Type) (clock_of_W : Clock W) (json : JSON) (w : W)
          (c : string) (a : option string),
     let p := create w [] in
     getText "constructor" p = VBuiltin "constructor" /\
     option_map version
       (deref (memory (snd (updateText "constructor" c a p)))
              (fst (updateText "constructor" c a p)))
       = Some (Some NaN)) /\
  getMetadata (service 0) = ("1.0.0", "1970-01-01T00:00:00.000Z", 0) /\
  own_lookup "constructor" (own (texts (artifact (service 0)))) = None /\
  get_seen "constructor" (snd (updateText "constructor" "x" None (service 0)))
    = (VItem (fst (updateText "constructor" "x" None (service 0))),
       Some {| key := "constructor"; content := "x";
               approvedAt := Some "1970-01-01T00:00:00.001Z";
               approvedBy := None; version := Some NaN |}).
Proof.
  split.
  - intros W0 clock_of_W json0 w c a p. unfold p, create, now_iso.
    destruct (Date_now w) as [t0 w0]. split; [reflexivity |].
    unfold updateText, now_iso. cbn.
    destruct (Date_now w0) as [t1 w1]. destruct (Date_now w1) as [t2 w2].
    reflexivity.
  - repeat split.
Qed.

Lemma valid_two_texts : valid two_texts.
Proof. unfold two_texts. apply valid_updateText, valid_updateText, valid_create. Qed.



End Store.
(* ===================================================================== *)
(** * Part XVI.  Every run of [syncContent], and the other methods      *)
(* ===================================================================== *)

Module Attempts.
Import JS GitHub GitHubFacts Trace.

Section Attempts.
Context {W : Type} {clock_of_W : Clock W} {octokit_of_W : Octokit W}
        {buffer : Buffer}.
Variable config : GitHubPRConfig.

(** ** One attempt, and the induction over the attempts *)

(** A run of [syncContent] is an attempt, followed when the attempt threw by
    the cleanup and then by the retry, or by the failure. *)
Lemma syncContent_attempt key body rc (s s' : state W) res :
  syncContent config key body rc s = (res, s') ->
  exists t s1 t' s2 a s3,
    clock s = (Resolved t, s1) /\
    clock s1 = (Resolved t', s2) /\
    sync_try config key body (toISOString t) (branch_name key t') s2 = (a, s3) /\
    match a with
    | Resolved r => res = Resolved r /\ s' = s3
    | Rejected e =>
        exists s4,
          cleanup config (branch_name key t') s3 = (Resolved tt, s4) /\
          if is_error_with "RACE_CONDITION" e then
            if (rc <? 1)%Z then
              syncContent config key body (rc + 1) s4 = (res, s')
            else
              res = Resolved (Failure "Failed due to race condition after retry")
              /\ s' = s4
          else res = Resolved (Failure (message_of e)) /\ s' = s4
    end.
Proof.
  rewrite syncContent_unfold. unfold syncContent_body.
  unfold bind at 1. destruct (clock s) as [a1 s1] eqn:Hc1.
  destruct (clock_calls _ _ _ Hc1) as [_ [t ->]].
  unfold bind at 1. destruct (clock s1) as [a2 s2] eqn:Hc2.
  destruct (clock_calls _ _ _ Hc2) as [_ [t' ->]].
  unfold try_catch at 1.
  destruct (sync_try config key body _ _ s2) as [[r | e] s3] eqn:Ht.
  - intros [= <- <-]. exists t, s1, t', s2, (Resolved r), s3.
    do 3 (split; [first [assumption | reflexivity] |]).
    now split.
  - unfold bind at 1.
    destruct (cleanup config _ s3) as [c s4] eqn:Hcl.
    destruct (cleanup_calls _ _ _ _ _ Hcl) as [-> _].
    intros Hrest. exists t, s1, t', s2, (Rejected e), s3.
    do 3 (split; [first [assumption | reflexivity] |]).
    exists s4. split; [first [assumption | reflexivity] |].
    destruct (is_error_with "RACE_CONDITION" e).
    + destruct (rc <? 1)%Z; [exact Hrest | now injection Hrest as <- <-].
    + now injection Hrest as <- <-.
Qed.

(** The retries are counted down: what holds of a call as soon as it holds
    of the call it may make holds of every call. *)
Lemma retry_induction (P : Z -> Prop) :
  (forall rc, ((rc < 1)%Z -> P (rc + 1)%Z) -> P rc) -> forall rc, P rc.
Proof.
  intros Hstep rc.
  remember (retries_left rc) as n eqn:En. revert rc En.
  induction n as [| n IH]; intros rc En; apply Hstep; intros Hlt.
  - unfold retries_left in En. lia.
  - apply IH. unfold retries_left in *. lia.
Qed.

(** What the [try] block returns, and what it has then asked the remote. *)
Lemma sync_try_resolved key body ts bn (s s' : state W) r :
  sync_try config key body ts bn s = (Resolved r, s') ->
  (r = NoChange /\ calls s' = (calls s ++ [GetContent (owner config) (rp config)
                                  (targetPath config) (branch config)])%list) \/
  (exists url tr,
     r = Success url /\
     calls s' = (calls s ++ tr ++
                   [PullsCreate (owner config) (rp config)
                      (render (prTitleTemplate config) key ts)
                      (render (prBodyTemplate config) key ts) bn
                      (branch config)])%list).
Proof.
  unfold sync_try. unfold bind at 1.
  destruct (getCurrentFile config s) as [[cur | e] s1] eqn:Ef;
    pose proof (getCurrentFile_calls _ _ _ _ Ef) as Hf; [| discriminate].
  destruct (same_content cur body).
  { intros [= <- <-]. left. now split. }
  unfold bind at 1.
  destruct (createBranch config bn s1) as [[[] | e] s2] eqn:Eb; [| discriminate].
  apply createBranch_resolved in Eb. destruct Eb as (tip & Hb).
  unfold bind at 1.
  destruct (commitFile config bn body _ _ s2) as [[[] | e] s3] eqn:Ec;
    [| discriminate].
  unfold bind at 1.
  destruct (createPullRequest config bn _ _ s3) as [[url | e] s4] eqn:Er;
    [| discriminate].
  apply createPullRequest_calls in Er.
  intros [= <- <-]. right. exists url.
  assert (Hc : exists mid, calls s3 = (calls s2 ++ mid)%list).
  { revert Ec. unfold commitFile, try_catch. unfold bind at 1.
    destruct (file_sha_for config _ s2) as [[fs | e] s2'] eqn:Es.
    - destruct (put_file config bn body _ fs s2') as [[[] | e] s2''] eqn:Ep.
      + intros [= <-]. apply put_file_calls in Ep.
        destruct (file_sha_for_calls _ _ _ _ _ Es) as [E | E];
          rewrite Ep, E, <- ?app_assoc; eexists; reflexivity.
      + destruct (is_error_with _ e); discriminate.
    - destruct (is_error_with _ e); discriminate. }
  destruct Hc as (mid & Hc).
  exists (GetContent (owner config) (rp config) (targetPath config) (branch config)
            :: GetBranch (owner config) (rp config) (branch config)
            :: CreateRef (owner config) (rp config) ("refs/heads/" ++ bn) tip
            :: mid)%list.
  split; [reflexivity |].
  rewrite Er, Hc, Hb, Hf, <- !app_assoc. reflexivity.
Qed.

(** ** The calls of one attempt *)

(** The [try] block asks the remote for a beginning of the sequence
    [attempt], the first fetch at least. *)
Lemma sync_try_prefix key body ts bn (s s' : state W) a :
  sync_try config key body ts bn s = (a, s') ->
  exists tip again fileSha n,
    (1 <= n)%nat /\
    calls s' = (calls s ++ firstn n (attempt config key ts bn body tip again
                                       fileSha))%list.
Proof.
  unfold sync_try. unfold bind at 1.
  destruct (getCurrentFile config s) as [[cur | e] s1] eqn:Ef;
    pose proof (getCurrentFile_calls _ _ _ _ Ef) as Hf.
  2:{ intros [= <- <-]. exists "", false, None, 1. split; [lia | exact Hf]. }
  destruct (same_content cur body).
  { intros [= <- <-]. exists "", false, None, 1. split; [lia | exact Hf]. }
  unfold bind at 1.
  destruct (createBranch config bn s1) as [[[] | e] s2] eqn:Eb.
  2:{ intros [= <- <-].
      destruct (createBranch_calls _ _ _ _ _ Eb) as [(e' & _ & Hb) | (tip & Hb)].
      - exists "", false, None, 2. split; [lia |].
        rewrite Hb, Hf, <- app_assoc. reflexivity.
      - exists tip, false, None, 3. split; [lia |].
        rewrite Hb, Hf, <- app_assoc. reflexivity. }
  apply createBranch_resolved in Eb. destruct Eb as (tip & Hb).
  unfold bind at 1. unfold commitFile, try_catch. unfold bind at 1.
  destruct (file_sha_for config (sha_of cur) s2) as [[fs | e] s3] eqn:Es;
    pose proof (file_sha_for_calls _ _ _ _ _ Es) as Hs.
  2:{ destruct (is_error_with "SHA does not match" e); unfold throw;
        intros [= <- <-];
        (destruct Hs as [Hs | Hs];
         [exists tip, false, None, 3 | exists tip, true, None, 4];
         (split; [lia |]); rewrite Hs, Hb, Hf, <- ?app_assoc; reflexivity). }
  destruct (put_file config bn body _ fs s3) as [[[] | e] s4] eqn:Ep;
    pose proof (put_file_calls _ _ _ _ _ _ _ _ Ep) as Hp.
  2:{ destruct (is_error_with "SHA does not match" e); unfold throw;
        intros [= <- <-];
        (destruct Hs as [Hs | Hs];
         [exists tip, false, (if truthy fs then fs else None), 4
         | exists tip, true, (if truthy fs then fs else None), 5];
         (split; [lia |]); rewrite Hp, Hs, Hb, Hf, <- ?app_assoc; reflexivity). }
  unfold bind at 1.
  destruct (createPullRequest config bn _ _ s4) as [[url | e] s5] eqn:Er;
    pose proof (createPullRequest_calls _ _ _ _ _ _ _ Er) as Hr;
    intros [= <- <-];
    (destruct Hs as [Hs | Hs];
     [exists tip, false, (if truthy fs then fs else None), 5
     | exists tip, true, (if truthy fs then fs else None), 6];
     (split; [lia |]); rewrite Hr, Hp, Hs, Hb, Hf, <- ?app_assoc; reflexivity).
Qed.

Lemma count_firstn f n (l : list request) : count f (firstn n l) <= count f l.
Proof.
  revert n. induction l as [| r l IH]; intros [| n]; cbn; try lia.
  specialize (IH n). unfold count in *. cbn. destruct (f r); cbn; lia.
Qed.

(** An attempt reads at most twice and does each other thing at most once;
    it deletes nothing; it writes only to a branch it has asked for, and asks
    for a review only of what it has written. *)
Lemma attempt_counts key ts bn body tip again fileSha n :
  let tr := firstn n (attempt config key ts bn body tip again fileSha) in
  count is_fetch tr <= 2 /\
  count is_branch_create tr <= 1 /\
  count is_commit tr <= count is_branch_create tr /\
  count is_review_open tr <= count is_commit tr /\
  count is_branch_delete tr = 0.
Proof.
  destruct again; do 7 (destruct n as [| n]; [cbn; lia |]); cbn; lia.
Qed.

Lemma Forall_beginning (P : request -> Prop) n (l : list request) :
  Forall P l -> Forall P (firstn n l).
Proof.
  intros H. revert n. induction H as [| r l Hr _ IH]; intros [| n]; cbn;
    constructor; [exact Hr | apply IH].
Qed.

Lemma attempt_addressed key ts t' body tip again fileSha n :
  Forall (fun r => in_repository config r /\ for_key config key r)
    (firstn n (attempt config key ts (branch_name key t') body tip again fileSha)).
Proof.
  apply Forall_beginning.
  destruct again; cbn; repeat constructor; try reflexivity; now exists t'.
Qed.

(** ** Every run of [syncContent] *)

(** The calls of a run are those of its attempts, one after the other:
    attempts that failed, and then a last one, which returned or failed.
    There are no more attempts than the retry count allows. *)
Lemma syncContent_rounds key body :
  forall rc (s s' : state W) res,
    syncContent config key body rc s = (res, s') ->
    exists r before last failed,
      res = Resolved r /\
      success r = negb failed /\
      calls s' = (calls s ++ List.concat before ++ last)%list /\
      Forall (round config key body true) before /\
      round config key body failed last /\
      List.length before <= retries_left rc.
Proof.
  intros rc. pattern rc. apply retry_induction. clear rc.
  intros rc IH s s' res Hrun.
  destruct (syncContent_attempt _ _ _ _ _ _ Hrun)
    as (t & s1 & t' & s2 & a & s3 & Hc1 & Hc2 & Ht & Ha).
  apply clock_calls in Hc1, Hc2. destruct Hc1 as [E1 _], Hc2 as [E2 _].
  destruct (sync_try_prefix _ _ _ _ _ _ _ Ht)
    as (tip & again & fileSha & n & Hn & E3).
  rewrite E2, E1 in E3.
  destruct a as [r | e].
  - destruct Ha as [-> ->].
    exists r, [], (firstn n (attempt config key (toISOString t)
                               (branch_name key t') body tip again fileSha)),
      false.
    repeat split; [| exact E3 | constructor | | cbn; lia].
    + destruct (sync_try_resolved _ _ _ _ _ _ _ Ht)
        as [[-> _] | (url & tr & -> & _)]; reflexivity.
    + exists t, t', tip, again, fileSha, n. split; [exact Hn |].
      now rewrite app_nil_r.
  - destruct Ha as (s4 & Hcl & Ha).
    apply cleanup_calls in Hcl. destruct Hcl as [_ E4]. rewrite E3 in E4.
    assert (Hround : round config key body true
              (firstn n (attempt config key (toISOString t) (branch_name key t')
                           body tip again fileSha)
               ++ [DeleteRef (owner config) (rp config)
                     ("heads/" ++ branch_name key t')])).
    { exists t, t', tip, again, fileSha, n. now split. }
    assert (Hend : forall reason, res = Resolved (Failure reason) /\ s' = s4 ->
              exists r before last failed,
                res = Resolved r /\
                success r = negb failed /\
                calls s' = (calls s ++ List.concat before ++ last)%list /\
                Forall (round config key body true) before /\
                round config key body failed last /\
                List.length before <= retries_left rc).
    { intros reason [-> ->]. eexists (Failure reason), [], _, true.
      repeat split; [| constructor | exact Hround | cbn; lia].
      now rewrite E4, <- app_assoc. }
    destruct (is_error_with "RACE_CONDITION" e); [| now apply Hend in Ha].
    destruct (Z.ltb_spec rc 1) as [Hlt | Hge]; [| now apply Hend in Ha].
    destruct (IH Hlt _ _ _ Ha)
      as (r & before & last & failed & Hr & Hs & E5 & Hb & Hl & Hlen).
    eexists r, (_ :: before), last, failed.
    repeat split;
      [exact Hr | exact Hs | | constructor; [exact Hround | exact Hb]
      | exact Hl |].
    + rewrite E5, E4. cbn [List.concat]. now rewrite <- !app_assoc.
    + cbn. unfold retries_left in *. lia.
Qed.

Lemma count_concat_le f b (rounds : list (list request)) :
  Forall (fun tr => count f tr <= b) rounds ->
  count f (List.concat rounds) <= b * List.length rounds.
Proof.
  induction 1 as [| tr rounds Htr _ IH]; cbn [List.concat List.length];
    [unfold count; cbn; lia |].
  rewrite count_app. lia.
Qed.

Lemma count_concat_order f g (rounds : list (list request)) :
  Forall (fun tr => count f tr <= count g tr) rounds ->
  count f (List.concat rounds) <= count g (List.concat rounds).
Proof.
  induction 1 as [| tr rounds Htr _ IH]; cbn [List.concat];
    [unfold count; cbn; lia |].
  rewrite !count_app. lia.
Qed.

Lemma round_counts key body failed tr :
  round config key body failed tr ->
  count is_fetch tr <= 2 /\
  count is_branch_create tr <= 1 /\
  count is_commit tr <= count is_branch_create tr /\
  count is_review_open tr <= count is_commit tr /\
  count is_branch_delete tr = (if failed then 1 else 0).
Proof.
  intros (t & t' & tip & again & fileSha & n & _ & ->).
  pose proof (attempt_counts key (toISOString t) (branch_name key t') body tip
                again fileSha n) as H.
  cbv zeta in H. revert H.
  generalize (firstn n (attempt config key (toISOString t) (branch_name key t')
                          body tip again fileSha)).
  intros tr0 (H1 & H2 & H3 & H4 & H5).
  unfold count in *. rewrite !filter_app, !length_app.
  destruct failed; cbn; lia.
Qed.

Lemma round_addressed key body failed tr :
  round config key body failed tr ->
  Forall (fun r => in_repository config r /\ for_key config key r) tr.
Proof.
  intros (t & t' & tip & again & fileSha & n & _ & ->).
  apply Forall_app. split; [apply attempt_addressed |].
  destruct failed; repeat constructor. now exists t'.
Qed.

(** What is known of the calls of a run, in one place. *)
Lemma syncContent_trace key body rc (s s' : state W) res :
  syncContent config key body rc s = (res, s') ->
  exists r tr,
    res = Resolved r /\
    calls s' = (calls s ++ tr)%list /\
    Forall (fun r => in_repository config r /\ for_key config key r) tr /\
    Forall (fun r => is_commit r = true ->
                     commit_content r = Some (base64_encode body)) tr /\
    count is_commit tr <= S (retries_left rc).
Proof.
  intros Hrun.
  destruct (syncContent_rounds _ _ _ _ _ _ Hrun)
    as (r & before & last & failed & -> & _ & E & Hb & Hl & Hlen).
  destruct (syncContent_calls _ _ _ _ _ _ _ Hrun) as (tr & E' & Hbody).
  rewrite E' in E. apply app_inv_head in E. subst tr.
  exists r, (List.concat before ++ last)%list.
  split; [reflexivity |]. split; [exact E' |]. split; [| split; [exact Hbody |]].
  - apply Forall_app. split; [| exact (round_addressed _ _ _ _ Hl)].
    clear - Hb. induction Hb as [| tr before Htr _ IH]; [constructor |].
    cbn [List.concat]. apply Forall_app. split; [| exact IH].
    exact (round_addressed _ _ _ _ Htr).
  - rewrite count_app.
    assert (Hc : count is_commit (List.concat before) <= 1 * List.length before).
    { apply count_concat_le. eapply Forall_impl; [| exact Hb].
      intros tr Htr. destruct (round_counts _ _ _ _ Htr) as (_ & ? & ? & _). lia. }
    destruct (round_counts _ _ _ _ Hl) as (_ & ? & ? & _). lia.
Qed.

(** What a run returns, and the call it made last. *)
Lemma syncContent_last_call key body :
  forall rc (s s' : state W) res,
    syncContent config key body rc s = (res, s') ->
    exists r tr,
      res = Resolved r /\
      ((r = NoChange /\
        calls s' = (calls s ++ tr ++ [GetContent (owner config) (rp config)
                                       (targetPath config) (branch config)])%list)
       \/ (exists url title text bn,
             r = Success url /\
             calls s' = (calls s ++ tr ++ [PullsCreate (owner config) (rp config)
                                            title text bn (branch config)])%list)
       \/ (exists reason bn,
             r = Failure reason /\
             calls s' = (calls s ++ tr ++ [DeleteRef (owner config) (rp config)
                                            ("heads/" ++ bn)])%list)).
Proof.
  intros rc. pattern rc. apply retry_induction. clear rc.
  intros rc IH s s' res Hrun.
  destruct (syncContent_attempt _ _ _ _ _ _ Hrun)
    as (t & s1 & t' & s2 & a & s3 & Hc1 & Hc2 & Ht & Ha).
  apply clock_calls in Hc1, Hc2. destruct Hc1 as [E1 _], Hc2 as [E2 _].
  destruct a as [r | e].
  - destruct Ha as [-> ->].
    destruct (sync_try_resolved _ _ _ _ _ _ _ Ht)
      as [[-> E3] | (url & tr & -> & E3)]; rewrite E2, E1 in E3.
    + exists NoChange, []. split; [reflexivity |]. left. now split.
    + exists (Success url), tr. split; [reflexivity |]. right. left.
      now exists url, (render (prTitleTemplate config) key (toISOString t)),
        (render (prBodyTemplate config) key (toISOString t)),
        (branch_name key t').
  - destruct Ha as (s4 & Hcl & Ha).
    apply cleanup_calls in Hcl. destruct Hcl as [_ E4].
    destruct (sync_try_calls _ _ _ _ _ _ _ _ Ht) as (rest & E3 & _).
    rewrite E2, E1 in E3. rewrite E3, <- app_assoc in E4. cbn in E4.
    assert (Hend : forall reason, res = Resolved (Failure reason) /\ s' = s4 ->
              exists r tr,
                res = Resolved r /\
                ((r = NoChange /\
                  calls s' = (calls s ++ tr ++ [GetContent (owner config)
                                (rp config) (targetPath config)
                                (branch config)])%list)
                 \/ (exists url title text bn,
                       r = Success url /\
                       calls s' = (calls s ++ tr ++ [PullsCreate (owner config)
                                     (rp config) title text bn
                                     (branch config)])%list)
                 \/ (exists reason bn,
                       r = Failure reason /\
                       calls s' = (calls s ++ tr ++ [DeleteRef (owner config)
                                     (rp config) ("heads/" ++ bn)])%list))).
    { intros reason [-> ->].
      exists (Failure reason),
        (GetContent (owner config) (rp config) (targetPath config)
           (branch config) :: rest).
      split; [reflexivity |]. right. right.
      exists reason, (branch_name key t'). now split. }
    destruct (is_error_with "RACE_CONDITION" e); [| now apply Hend in Ha].
    destruct (Z.ltb_spec rc 1) as [Hlt | Hge]; [| now apply Hend in Ha].
    destruct (IH Hlt _ _ _ Ha) as (r & tr & -> & Hr).
    exists r,
      ((GetContent (owner config) (rp config) (targetPath config)
          (branch config) :: rest)
       ++ [DeleteRef (owner config) (rp config) ("heads/" ++ branch_name key t')]
       ++ tr)%list.
    split; [reflexivity |].
    destruct Hr as [[-> E5] | [(url & title & text & bn & -> & E5)
                              | (reason & bn & -> & E5)]];
      rewrite E4 in E5.
    + left. split; [reflexivity |].
      rewrite E5, <- !app_assoc. cbn. now rewrite <- !app_assoc.
    + right. left. exists url, title, text, bn. split; [reflexivity |].
      rewrite E5, <- !app_assoc. cbn. now rewrite <- !app_assoc.
    + right. right. exists reason, bn. split; [reflexivity |].
      rewrite E5, <- !app_assoc. cbn. now rewrite <- !app_assoc.
Qed.

(** ** The properties of [syncContent] *)

(** X1.  [syncContent] never throws: whatever the remote and the clock do,
    and whatever the retry count it is called with, it returns one of its
    three results. It returns [NoChange] right after a fetch, [Success]
    right after it has asked for the review, and [Failure] right after it
    has asked for the deletion of a branch. *)
Theorem syncContent_never_throws key body rc (s : state W) :
  exists r tr,
    fst (syncContent config key body rc s) = Resolved r /\
    ((r = NoChange /\
      issued s (snd (syncContent config key body rc s))
        = (tr ++ [GetContent (owner config) (rp config) (targetPath config)
                    (branch config)])%list)
     \/ (exists url title text bn,
           r = Success url /\
           issued s (snd (syncContent config key body rc s))
             = (tr ++ [PullsCreate (owner config) (rp config) title text bn
                         (branch config)])%list)
     \/ (exists reason bn,
           r = Failure reason /\
           issued s (snd (syncContent config key body rc s))
             = (tr ++ [DeleteRef (owner config) (rp config)
                         ("heads/" ++ bn)])%list)).
Proof.
  destruct (syncContent config key body rc s) as [res s'] eqn:Hrun.
  destruct (syncContent_last_call _ _ _ _ _ _ Hrun) as (r & tr & -> & H).
  exists r, tr. split; [reflexivity |]. cbn [snd].
  destruct H as [[-> E] | [(url & title & text & bn & -> & E)
                          | (reason & bn & -> & E)]].
  - left. split; [reflexivity | now apply issued_app].
  - right. left. exists url, title, text, bn.
    split; [reflexivity | now apply issued_app].
  - right. right. exists reason, bn.
    split; [reflexivity | now apply issued_app].
Qed.

(** X2.  The remote calls of a run of [syncContent] are those of its
    attempts, one after the other. Each attempt makes a beginning of one
    sequence of calls, always in the same order: the fetch, the tip of the
    base branch, the new branch, a second fetch or none, the write, the
    review request; an attempt that failed then asks for the deletion of its
    branch. Every attempt but the last has failed; the last has failed
    exactly when the result says so; and the attempts before the last are no
    more than the retry count allows (one for the count 0 the method is
    called with, none from 1 on). *)
Theorem syncContent_runs_in_attempts key body rc (s : state W) :
  exists r before last failed,
    fst (syncContent config key body rc s) = Resolved r /\
    success r = negb failed /\
    issued s (snd (syncContent config key body rc s))
      = (List.concat before ++ last)%list /\
    Forall (round config key body true) before /\
    round config key body failed last /\
    List.length before <= retries_left rc.
Proof.
  destruct (syncContent config key body rc s) as [res s'] eqn:Hrun.
  destruct (syncContent_rounds _ _ _ _ _ _ Hrun)
    as (r & before & last & failed & -> & Hs & E & Hb & Hl & Hlen).
  exists r, before, last, failed. cbn [fst snd].
  repeat split; trivial. now apply issued_app.
Qed.

(** X3.  A run of [syncContent] makes at most [1 + retries_left retryCount]
    attempts, that is two for the retry count 0 and one from 1 on: it asks
    for no more branches and no more deletions than that, and reads the file
    at most twice as often. It never writes more often than it has asked for
    a branch, and never asks for more reviews than it has written. *)
Theorem syncContent_is_bounded key body rc (s : state W) :
  let tr := issued s (snd (syncContent config key body rc s)) in
  let attempts := S (retries_left rc) in
  count is_fetch tr <= 2 * attempts /\
  count is_branch_create tr <= attempts /\
  count is_branch_delete tr <= attempts /\
  count is_commit tr <= count is_branch_create tr /\
  count is_review_open tr <= count is_commit tr.
Proof.
  destruct (syncContent config key body rc s) as [res s'] eqn:Hrun.
  destruct (syncContent_rounds _ _ _ _ _ _ Hrun)
    as (r & before & last & failed & _ & _ & E & Hb & Hl & Hlen).
  cbn [snd]. rewrite (issued_app _ _ _ E). clear E Hrun.
  assert (Hall : Forall (fun tr =>
            count is_fetch tr <= 2 /\ count is_branch_create tr <= 1 /\
            count is_commit tr <= count is_branch_create tr /\
            count is_review_open tr <= count is_commit tr /\
            count is_branch_delete tr <= 1) before).
  { eapply Forall_impl; [| exact Hb]. intros tr Htr.
    destruct (round_counts _ _ _ _ Htr) as (H1 & H2 & H3 & H4 & H5).
    repeat split; trivial. rewrite H5. lia. }
  destruct (round_counts _ _ _ _ Hl) as (L1 & L2 & L3 & L4 & L5).
  assert (L5' : count is_branch_delete last <= 1)
    by (rewrite L5; destruct failed; lia).
  pose proof (count_concat_le is_fetch 2 before
                (Forall_impl _ (fun tr H => proj1 H) Hall)) as B1.
  pose proof (count_concat_le is_branch_create 1 before
                (Forall_impl _ (fun tr H => proj1 (proj2 H)) Hall)) as B2.
  pose proof (count_concat_order is_commit is_branch_create before
                (Forall_impl _ (fun tr H => proj1 (proj2 (proj2 H))) Hall)) as B3.
  pose proof (count_concat_order is_review_open is_commit before
                (Forall_impl _ (fun tr H => proj1 (proj2 (proj2 (proj2 H)))) Hall))
    as B4.
  pose proof (count_concat_le is_branch_delete 1 before
                (Forall_impl _ (fun tr H => proj2 (proj2 (proj2 (proj2 H)))) Hall))
    as B5.
  cbv zeta. rewrite !count_app. repeat split; lia.
Qed.

(** X4.  Every remote call of a run of [syncContent] goes to the configured
    repository, and is one of these: a read of the configured file on the
    base branch, a read of the tip of the base branch, or the creation, the
    writing of the configured file to, the request of a review into the base
    branch for, or the deletion of a branch named [text-update-], the key,
    [-] and an integer. The service writes to no other branch and deletes no
    other. *)
Theorem syncContent_calls_are_for_the_key key body rc (s : state W) :
  Forall (fun r => in_repository config r /\ for_key config key r)
    (issued s (snd (syncContent config key body rc s))).
Proof.
  destruct (syncContent config key body rc s) as [res s'] eqn:Hrun.
  destruct (syncContent_rounds _ _ _ _ _ _ Hrun)
    as (r & before & last & failed & _ & _ & E & Hb & Hl & _).
  cbn [snd]. rewrite (issued_app _ _ _ E). clear E Hrun.
  apply Forall_app. split; [| exact (round_addressed _ _ _ _ Hl)].
  induction Hb as [| tr before Htr _ IH]; [constructor |].
  cbn [List.concat]. apply Forall_app. split; [| exact IH].
  exact (round_addressed _ _ _ _ Htr).
Qed.

(** X5.  The reason of a failure never holds the mark [RACE_CONDITION] by
    which [commitFile] reports a conflict: a conflict is retried, or
    reported in other words. *)
Theorem syncContent_failure_has_no_conflict_mark key body rc (s : state W) reason :
  fst (syncContent config key body rc s) = Resolved (Failure reason) ->
  includes reason "RACE_CONDITION" = false.
Proof.
  revert s. pattern rc. apply retry_induction. clear rc.
  intros rc IH s Hres.
  destruct (syncContent config key body rc s) as [res s'] eqn:Hrun.
  cbn [fst] in Hres. subst res.
  destruct (syncContent_attempt _ _ _ _ _ _ Hrun)
    as (t & s1 & t' & s2 & a & s3 & _ & _ & Ht & Ha).
  destruct a as [r | e].
  - destruct Ha as [[= <-] _].
    destruct (sync_try_resolved _ _ _ _ _ _ _ Ht)
      as [[[=] _] | (url & tr & [=] & _)].
  - destruct Ha as (s4 & _ & Ha).
    destruct (is_error_with "RACE_CONDITION" e) eqn:He.
    + destruct (Z.ltb_spec rc 1) as [Hlt | Hge].
      * apply (IH Hlt s4). now rewrite Ha.
      * destruct Ha as [[= ->] _]. reflexivity.
    + destruct Ha as [[= ->] _]. destruct e as [m |]; [exact He | reflexivity].
Qed.

(** A file that [getCurrentFile] returns is what the remote has answered. *)
Lemma getCurrentFile_some (s s' : state W) file :
  getCurrentFile config s = (Resolved (Some file), s') ->
  exists c,
    fst (octokit (GetContent (owner config) (rp config) (targetPath config)
                    (branch config)) (world s))
      = Resolved (Entry "file" (sha file) c) /\
    content file = base64_decode c.
Proof.
  unfold getCurrentFile, try_catch, bind, call.
  destruct (octokit _ (world s)) as [[[| type sha0 c] | e] w']; cbn.
  - discriminate.
  - destruct (String.eqb_spec type "file") as [-> | Hty]; cbn.
    + intros [= <- <-]. now exists c.
    + discriminate.
  - destruct (is_error_with "Not Found" e); cbn; discriminate.
Qed.

Lemma sync_try_NoChange key body ts bn (s s' : state W) :
  sync_try config key body ts bn s = (Resolved NoChange, s') ->
  exists file,
    getCurrentFile config s = (Resolved (Some file), s') /\ content file = body.
Proof.
  unfold sync_try. unfold bind at 1.
  destruct (getCurrentFile config s) as [[cur | e] s1] eqn:Ef; [| discriminate].
  destruct (same_content cur body) eqn:Hsame.
  - intros [= <-]. destruct cur as [file |]; [| discriminate].
    exists file. split; [reflexivity |]. now apply String.eqb_eq.
  - intros Hrest.
    assert (Hno : sync_try config key body ts bn s = (Resolved NoChange, s')).
    { unfold sync_try. unfold bind at 1. now rewrite Ef, Hsame. }
    destruct (sync_try_resolved _ _ _ _ _ _ _ Hno)
      as [[_ Hcalls] | (url & tr & [=] & _)].
    exfalso. clear Hno. revert Hrest. unfold bind at 1.
    destruct (createBranch config bn s1) as [[[] | e] s2] eqn:Eb; [| discriminate].
    unfold bind at 1.
    destruct (commitFile config bn body _ _ s2) as [[[] | e] s3]; [| discriminate].
    unfold bind at 1.
    destruct (createPullRequest config bn _ _ s3) as [[url | e] s4];
      discriminate.
Qed.

(** X6.  [syncContent] returns [NoChange] only when the remote holds the
    very content that was to be written: the call ends with a fetch that the
    remote has answered with a file whose decoded content is that content. *)
Theorem NoChange_only_for_the_same_content key body rc (s : state W) :
  fst (syncContent config key body rc s) = Resolved NoChange ->
  exists s0 file c,
    getCurrentFile config s0
      = (Resolved (Some file), snd (syncContent config key body rc s)) /\
    content file = body /\
    fst (octokit (GetContent (owner config) (rp config) (targetPath config)
                    (branch config)) (world s0))
      = Resolved (Entry "file" (sha file) c) /\
    base64_decode c = body.
Proof.
  revert s. pattern rc. apply retry_induction. clear rc.
  intros rc IH s Hres.
  destruct (syncContent config key body rc s) as [res s'] eqn:Hrun.
  cbn [fst snd] in Hres |- *. subst res.
  destruct (syncContent_attempt _ _ _ _ _ _ Hrun)
    as (t & s1 & t' & s2 & a & s3 & _ & _ & Ht & Ha).
  destruct a as [r | e].
  - destruct Ha as [[= <-] ->].
    destruct (sync_try_NoChange _ _ _ _ _ _ Ht) as (file & Hf & Hc).
    destruct (getCurrentFile_some _ _ _ Hf) as (c & Hr & Hd).
    exists s2, file, c. repeat split; trivial. congruence.
  - destruct Ha as (s4 & _ & Ha).
    destruct (is_error_with "RACE_CONDITION" e).
    + destruct (Z.ltb_spec rc 1) as [Hlt | Hge].
      * specialize (IH Hlt s4). rewrite Ha in IH. cbn [fst snd] in IH.
        now apply IH.
      * destruct Ha as [[=] _].
    + destruct Ha as [[=] _].
Qed.

(** ** The methods one by one *)

(** X7.  [getCurrentFile] returns [null] in one case only: the remote has
    refused the fetch with an error whose message holds [Not Found]. It
    returns a file exactly when the remote has answered with an entry of
    type [file], of which it keeps the token and the decoded content. In
    every other case it throws: what the remote threw, or one of its own two
    errors for a directory and for an entry of another type, which its own
    [catch] clause lets through. *)
Theorem getCurrentFile_is_null_only_for_Not_Found (s : state W) :
  let remote :=
    fst (octokit (GetContent (owner config) (rp config) (targetPath config)
                    (branch config)) (world s)) in
  let result := fst (getCurrentFile config s) in
  (result = Resolved None <->
     exists e, remote = Rejected e /\ is_error_with "Not Found" e = true) /\
  (forall f, result = Resolved (Some f) <->
     exists c, remote = Resolved (Entry "file" (sha f) c) /\
               content f = base64_decode c) /\
  (forall e, result = Rejected e <->
     (remote = Rejected e /\ is_error_with "Not Found" e = false) \/
     (remote = Resolved Listing /\
      e = ErrorObject "Path points to a directory, not a file") \/
     (exists type sha c,
        remote = Resolved (Entry type sha c) /\ type <> "file" /\
        e = ErrorObject "Path does not point to a file")).
Proof.
  cbv zeta. unfold getCurrentFile, try_catch, bind, call.
  destruct (octokit _ (world s)) as [[[| type sha0 c] | e] w']; cbn [fst].
  - cbn. split; [| split].
    + split; [discriminate | intros (e & [=] & _)].
    + intros f. split; [discriminate | intros (c & [=] & _)].
    + intros e. split.
      * intros [= <-]. right. left. now split.
      * intros [[[=] _] | [[_ ->] | (ty & sh & c & [=] & _)]]. reflexivity.
  - destruct (String.eqb_spec type "file") as [-> | Hty]; cbn; (split; [| split]).
    + split; [discriminate | intros (e & [=] & _)].
    + intros f. split.
      * intros [= <-]. now exists c.
      * intros (c' & [= Hs Hc'] & Hc). destruct f as [fsha fcontent]; cbn in *.
        now subst.
    + intros e. split; [discriminate |].
      intros [[[=] _] | [[[=] _] | (ty & sh & c' & [= <- _ _] & Hne & _)]].
      now elim Hne.
    + split; [discriminate | intros (e & [=] & _)].
    + intros f. split; [discriminate |].
      intros (c' & [= -> _ _] & _). now elim Hty.
    + intros e. split.
      * intros [= <-]. right. right. now exists type, sha0, c.
      * intros [[[=] _] | [[[=] _] | (ty & sh & c' & _ & _ & ->)]]. reflexivity.
  - destruct (is_error_with "Not Found" e) eqn:He; cbn; (split; [| split]).
    + split; [intros _; now exists e | reflexivity].
    + intros f. split; [discriminate | intros (c & [=] & _)].
    + intros e'. split; [discriminate |].
      intros [[[= <-] Hf] | [[[=] _] | (ty & sh & c & [=] & _)]]. congruence.
    + split; [discriminate | intros (e' & [= <-] & He'); congruence].
    + intros f. split; [discriminate | intros (c & [=] & _)].
    + intros e'. split.
      * intros [= <-]. left. now split.
      * intros [[[= <-] _] | [[[=] _] | (ty & sh & c & [=] & _)]]. reflexivity.
Qed.

(** X8.  The remote calls of [commitFile]. Given a token that is not the
    empty text, it makes one call, the write with that token. Given none, it
    first fetches the file, and writes with the token of the file it found,
    or without any when it found no file or an empty token; when that fetch
    throws, it writes nothing. The write is of the encoded content, with the
    message given, to the configured path on the branch given. *)
Theorem commitFile_calls bn body msg baseSha (s : state W) :
  let write fileSha :=
    CreateOrUpdateFileContents (owner config) (rp config) (targetPath config)
      msg (base64_encode body) fileSha bn in
  let fetch :=
    GetContent (owner config) (rp config) (targetPath config) (branch config) in
  issued s (snd (commitFile config bn body msg baseSha s)) =
    if truthy baseSha then [write baseSha]
    else
      match fst (getCurrentFile config s) with
      | Resolved currentFile =>
          [fetch; write (if truthy (sha_of currentFile) then sha_of currentFile
                         else None)]
      | Rejected _ => [fetch]
      end.
Proof.
  cbv zeta. unfold commitFile, try_catch, file_sha_for.
  destruct (truthy baseSha) eqn:Hb.
  - unfold bind, ret.
    destruct (put_file config bn body msg baseSha s) as [[[] | e] s1] eqn:Ep;
      pose proof (put_file_calls _ _ _ _ _ _ _ _ Ep) as Hp; rewrite Hb in Hp.
    + cbn [snd]. now apply issued_app.
    + destruct (is_error_with "SHA does not match" e); unfold throw; cbn [snd];
        now apply issued_app.
  - unfold bind at 1. unfold bind at 1.
    destruct (getCurrentFile config s) as [[cur | e] s1] eqn:Ef;
      pose proof (getCurrentFile_calls _ _ _ _ Ef) as Hf; cbn [fst].
    + unfold ret.
      destruct (put_file config bn body msg (sha_of cur) s1) as [[[] | e] s2] eqn:Ep;
        pose proof (put_file_calls _ _ _ _ _ _ _ _ Ep) as Hp;
        rewrite Hf, <- app_assoc in Hp.
      * cbn [snd]. now apply issued_app.
      * destruct (is_error_with "SHA does not match" e); unfold throw; cbn [snd];
          now apply issued_app.
    + destruct (is_error_with "SHA does not match" e); unfold throw; cbn [snd];
        now apply issued_app.
Qed.

(** X9.  [commitFile] never throws an error that speaks of a token that does
    not match: such an error, from the write or from the fetch before it, is
    replaced by the error marked [RACE_CONDITION], which is the only thing
    [syncContent] looks for. *)
Theorem commitFile_hides_the_mismatch bn body msg baseSha (s : state W) e :
  fst (commitFile config bn body msg baseSha s) = Rejected e ->
  is_error_with "SHA does not match" e = false.
Proof.
  unfold commitFile, try_catch.
  destruct (bind _ _ s) as [[[] | e0] s1]; cbn [fst]; [discriminate |].
  destruct (is_error_with "SHA does not match" e0) eqn:He0; unfold throw;
    cbn [fst]; intros [= <-]; [reflexivity | exact He0].
Qed.

End Attempts.

(** ** In the scripted world *)

Import Mock.

Lemma syncContent_failure_witness :
  fst (syncContent Mock.config "test-key" "new content" 0 twice_refused)
    = Resolved (Failure "Failed due to race condition after retry") /\
  includes "Failed due to race condition after retry" "RACE_CONDITION" = false.
Proof.
  split; [reflexivity |].
  apply (syncContent_failure_has_no_conflict_mark Mock.config "test-key"
           "new content" 0 twice_refused).
  reflexivity.
Defined.

Lemma NoChange_only_for_the_same_content_witness :
  fst (syncContent Mock.config "test-key" "same content" 0 unchanged)
    = Resolved NoChange /\
  exists s0 file c,
    getCurrentFile Mock.config s0
      = (Resolved (Some file),
         snd (syncContent Mock.config "test-key" "same content" 0 unchanged)) /\
    content file = "same content" /\
    fst (octokit (GetContent (owner Mock.config) (rp Mock.config)
                    (targetPath Mock.config) (branch Mock.config)) (world s0))
      = Resolved (Entry "file" (sha file) c) /\
    base64_decode c = "same content".
Proof.
  split; [reflexivity |].
  apply (NoChange_only_for_the_same_content Mock.config "test-key"
           "same content" 0 unchanged).
  reflexivity.
Defined.

Lemma commitFile_hides_the_mismatch_witness :
  let s := start 1000 [mismatch] in
  let e := ErrorObject "RACE_CONDITION: File was modified by another process" in
  fst (commitFile Mock.config "text-update-test-key-1001" "new content"
         "Update" (Some "abc123") s) = Rejected e /\
  is_error_with "SHA does not match" e = false.
Proof.
  intros s e. split; [reflexivity |].
  apply (commitFile_hides_the_mismatch Mock.config "text-update-test-key-1001"
           "new content" "Update" (Some "abc123") s e).
  reflexivity.
Defined.

End Attempts.
(* ===================================================================== *)
(** * Part XVII.  The names of the branches                             *)
(* ===================================================================== *)

Module Names.
Import JS GitHub JSFacts Trace.

(** ** Decimal writing *)

Lemma length_digits (n : nat) (z : Z) : String.length (digits n z) = n.
Proof.
  revert z. induction n as [| n IH]; intros z; cbn [digits]; [reflexivity |].
  rewrite length_append, IH. cbn. lia.
Qed.

Lemma digit_inj (a b : Z) :
  (0 <= a < 10)%Z -> (0 <= b < 10)%Z -> digit a = digit b -> a = b.
Proof.
  intros Ha Hb E. unfold digit in E. apply (f_equal nat_of_ascii) in E.
  rewrite !nat_ascii_embedding in E by lia. lia.
Qed.

(** The [n] digits of a number tell it up to a multiple of [10 ^ n]. *)
Lemma digits_inj (n : nat) :
  forall a b : Z,
    digits n a = digits n b ->
    (a mod 10 ^ Z.of_nat n = b mod 10 ^ Z.of_nat n)%Z.
Proof.
  induction n as [| n IH]; intros a b E.
  - cbn. now rewrite !Z.mod_1_r.
  - cbn [digits] in E.
    apply append_same_length in E; [| now rewrite !length_digits].
    destruct E as [Ehigh Elow]. injection Elow as Elow.
    apply digit_inj in Elow; try (apply Z.mod_pos_bound; lia).
    apply IH in Ehigh.
    rewrite Nat2Z.inj_succ, Z.pow_succ_r by lia.
    rewrite !Z.rem_mul_r by lia. now rewrite Ehigh, Elow.
Qed.

(** The digits are counted rightly as long as the count is not cut short. *)
Lemma count_digits_bound (fuel : nat) :
  forall z : Z,
    (0 <= z < 10 * 2 ^ Z.of_nat fuel)%Z ->
    (z < 10 ^ Z.of_nat (count_digits fuel z))%Z.
Proof.
  induction fuel as [| fuel IH]; intros z Hz.
  - cbn in *. lia.
  - cbn [count_digits]. destruct (Z.ltb_spec z 10) as [Hlt | Hge]; [cbn; lia |].
    rewrite Nat2Z.inj_succ, Z.pow_succ_r in * by lia.
    assert (Hq : (z / 10 < 10 ^ Z.of_nat (count_digits fuel (z / 10)))%Z).
    { apply IH. split; [apply Z.div_pos; lia |].
      apply Z.div_lt_upper_bound; [lia |].
      assert (0 < 2 ^ Z.of_nat fuel)%Z by (apply Z.pow_pos_nonneg; lia). lia. }
    assert (Hz' : (z < 10 * (z / 10 + 1))%Z).
    { pose proof (Z.div_mod z 10 ltac:(lia)).
      pose proof (Z.mod_pos_bound z 10 ltac:(lia)). lia. }
    lia.
Qed.

(** [String(z)] has all the digits of [z]. *)
Lemma string_of_Z_fits (z : Z) :
  (0 <= z)%Z ->
  (z < 10 ^ Z.of_nat (count_digits (Z.to_nat (Z.log2 z)) z))%Z.
Proof.
  intros Hz. apply count_digits_bound. split; [exact Hz |].
  rewrite Z2Nat.id by apply Z.log2_nonneg.
  destruct (Z.eq_dec z 0) as [-> | Hne]; [cbn; lia |].
  pose proof (Z.log2_spec z ltac:(lia)) as [_ Hup].
  rewrite Z.pow_succ_r in Hup by apply Z.log2_nonneg.
  assert (0 < 2 ^ Z.log2 z)%Z by (apply Z.pow_pos_nonneg; [lia | apply Z.log2_nonneg]).
  lia.
Qed.

(** Two times that are written alike are the same time. *)
Lemma string_of_Z_inj (a b : Z) :
  (0 <= a)%Z -> (0 <= b)%Z -> string_of_Z a = string_of_Z b -> a = b.
Proof.
  intros Ha Hb. unfold string_of_Z.
  rewrite !Z.abs_eq by assumption.
  destruct (Z.ltb_spec a 0); [lia |]. destruct (Z.ltb_spec b 0); [lia |].
  intros E.
  pose proof (string_of_Z_fits a Ha) as Fa.
  pose proof (string_of_Z_fits b Hb) as Fb.
  revert E Fa Fb.
  generalize (count_digits (Z.to_nat (Z.log2 a)) a) as n.
  generalize (count_digits (Z.to_nat (Z.log2 b)) b) as m.
  intros m n E Fa Fb.
  assert (Hnm : n = m).
  { apply (f_equal String.length) in E. now rewrite !length_digits in E. }
  subst m. apply digits_inj in E.
  now rewrite !Z.mod_small in E by lia.
Qed.

(** ** Hyphens *)

Lemma no_dash_append (a b : string) :
  no_dash (a ++ b) = no_dash a && no_dash b.
Proof.
  induction a as [| c a IH]; cbn; [reflexivity |].
  now rewrite IH, andb_assoc.
Qed.

Lemma no_dash_digits (n : nat) (z : Z) : no_dash (digits n z) = true.
Proof.
  revert z. induction n as [| n IH]; intros z; cbn [digits]; [reflexivity |].
  rewrite no_dash_append, IH. unfold no_dash, digit.
  assert (Hd : Z.to_nat (z mod 10) < 10).
  { pose proof (Z.mod_pos_bound z 10 ltac:(lia)). lia. }
  destruct (Z.to_nat (z mod 10)) as [| [| [| [| [| [| [| [| [| [| d]]]]]]]]]];
    try reflexivity. lia.
Qed.

Lemma no_dash_string_of_Z (z : Z) : (0 <= z)%Z -> no_dash (string_of_Z z) = true.
Proof.
  intros Hz. unfold string_of_Z. destruct (Z.ltb_spec z 0); [lia |].
  apply no_dash_digits.
Qed.

(** A text is cut in one way only at its last hyphen. *)
Lemma cut_at_last_dash (k k' d d' : string) :
  no_dash d = true -> no_dash d' = true ->
  k ++ "-" ++ d = k' ++ "-" ++ d' -> k = k' /\ d = d'.
Proof.
  intros Hd Hd'. revert k'.
  induction k as [| c k IH]; intros [| c' k']; cbn.
  - intros [= ->]. now split.
  - intros [= <- ->]. rewrite no_dash_append in Hd. cbn in Hd.
    now rewrite andb_false_r in Hd.
  - intros [= -> <-]. rewrite no_dash_append in Hd'. cbn in Hd'.
    now rewrite andb_false_r in Hd'.
  - intros [= -> E]. destruct (IH _ E) as [-> ->]. now split.
Qed.

(** X10.  The name of a branch tells the key and the time it was made of, as
    long as the clock shows a time that is not before 1970: two attempts get
    the same branch only for the same key at the same millisecond. *)
Theorem branch_names_differ (key key' : string) (now now' : Z) :
  (0 <= now)%Z -> (0 <= now')%Z ->
  key <> key' \/ now <> now' ->
  branch_name key now <> branch_name key' now'.
Proof.
  intros Hn Hn' Hdiff E. unfold branch_name in E.
  apply (append_same_length "text-update-" _ "text-update-") in E;
    [| reflexivity].
  destruct E as [_ E].
  apply cut_at_last_dash in E; try now apply no_dash_string_of_Z.
  destruct E as [Ek Et]. apply string_of_Z_inj in Et; trivial.
  destruct Hdiff; contradiction.
Qed.

Lemma branch_names_differ_witness :
  (0 <= 1001)%Z /\ (0 <= 1003)%Z /\
  ("test-key" <> "test-key" \/ 1001%Z <> 1003%Z) /\
  branch_name "test-key" 1001 <> branch_name "test-key" 1003.
Proof.
  assert (H1 : (0 <= 1001)%Z) by lia.
  assert (H2 : (0 <= 1003)%Z) by lia.
  assert (H3 : "test-key" <> "test-key" \/ 1001%Z <> 1003%Z) by (right; lia).
  exact (conj H1 (conj H2 (conj H3
           (branch_names_differ "test-key" "test-key" 1001 1003 H1 H2 H3)))).
Defined.

(** Before 1970 the names may coincide. *)
Example branch_names_before_1970 :
  branch_name "a" (-5) = branch_name "a-" 5.
Proof. reflexivity. Qed.

End Names.
(* ===================================================================== *)
(** * Part XVIII.  More on the artifact store                           *)
(* ===================================================================== *)

Module Records.
Import JS Text TextFacts Store Shape.
Local Open Scope list_scope.

(** ** Own properties *)

Lemma own_lookup_remove_same k (props : list (string * ref)) :
  own_lookup k (own_remove k props) = None.
Proof.
  induction props as [| [k' r'] rest IH]; cbn; [reflexivity |].
  destruct (String.eqb_spec k k') as [-> | Hne]; cbn; [exact IH |].
  destruct (String.eqb_spec k k'); [contradiction | exact IH].
Qed.

Lemma own_lookup_remove_other k k' (props : list (string * ref)) :
  k' <> k -> own_lookup k' (own_remove k props) = own_lookup k' props.
Proof.
  intros Hne. induction props as [| [k'' r''] rest IH]; cbn; [reflexivity |].
  destruct (String.eqb_spec k k'') as [<- | Hne']; cbn.
  - destruct (String.eqb_spec k' k); [contradiction | exact IH].
  - destruct (String.eqb_spec k' k''); [reflexivity | exact IH].
Qed.

Lemma own_lookup_not_In k (props : list (string * ref)) :
  ~ In k (map fst props) -> own_lookup k props = None.
Proof.
  induction props as [| [k' r'] rest IH]; cbn; [reflexivity |].
  intros Hk. destruct (String.eqb_spec k k') as [-> | Hne].
  - elim Hk. now left.
  - apply IH. intros Hin. apply Hk. now right.
Qed.

Lemma own_remove_absent k (props : list (string * ref)) :
  own_lookup k props = None -> own_remove k props = props.
Proof.
  induction props as [| [k' r'] rest IH]; cbn; [reflexivity |].
  destruct (String.eqb k k'); [discriminate |].
  intros E. now rewrite IH.
Qed.

Lemma length_own_remove k (props : list (string * ref)) :
  NoDup (map fst props) ->
  List.length (own_remove k props)
    = List.length props - (match own_lookup k props with Some _ => 1 | None => 0 end).
Proof.
  induction props as [| [k' r'] rest IH]; cbn; [reflexivity |].
  intros Hnd. inversion Hnd as [| ? ? Hnotin Hnd']; subst.
  destruct (String.eqb_spec k k') as [-> | Hne]; cbn.
  - rewrite own_remove_absent by (now apply own_lookup_not_In). lia.
  - rewrite (IH Hnd'). destruct (own_lookup k rest) eqn:E; [| lia].
    apply own_lookup_In in E. destruct rest; [destruct E | cbn; lia].
Qed.

Lemma own_define_absent k r (props : list (string * ref)) :
  own_lookup k props = None -> own_define k r props = props ++ [(k, r)].
Proof.
  induction props as [| [k' r'] rest IH]; cbn; [reflexivity |].
  destruct (String.eqb k k'); [discriminate |].
  intros E. now rewrite IH.
Qed.

Lemma length_own_define k r (props : list (string * ref)) :
  List.length (own_define k r props)
    = List.length props + (match own_lookup k props with Some _ => 0 | None => 1 end).
Proof.
  induction props as [| [k' r'] rest IH]; cbn; [reflexivity |].
  destruct (String.eqb k k'); cbn; [lia | now rewrite IH].
Qed.

Lemma own_lookup_app k (a b : list (string * ref)) :
  own_lookup k (a ++ b)
    = match own_lookup k a with Some r => Some r | None => own_lookup k b end.
Proof.
  induction a as [| [k' r'] rest IH]; cbn; [reflexivity |].
  destruct (String.eqb k k'); [reflexivity | exact IH].
Qed.

Section Records.
Context {W : Type} {clock_of_W : Clock W} {json : JSON}.

(** ** [deleteText] *)

(** X11.  For a key that [Object.prototype] knows nothing of, in a store
    whose [texts] object has its original prototype, [deleteText] returns
    whether the key was stored. After it [getText] finds nothing under the
    key, every other key shows what it showed before, and the count has gone
    down by one if the key was stored. When it was not, the store is not
    touched at all: [lastUpdated] stays, and the clock is not read. *)
Theorem deleteText_removes_the_key (k : string) (p : process W) :
  proto (texts (artifact p)) = None ->
  plain k ->
  distinct_keys p ->
  let deleted := fst (deleteText k p) in
  let p' := snd (deleteText k p) in
  deleted = stored k p /\
  getText k p' = VNull /\
  (forall k', k' <> k -> get_seen k' p' = get_seen k' p) /\
  snd (getMetadata p') = snd (getMetadata p) - (if deleted then 1 else 0) /\
  (deleted = false -> p' = p).
Proof.
  intros Hproto [Hplain Hk] Hnd. cbv zeta.
  assert (Hget : forall q : process W, proto (texts (artifact q)) = None ->
            texts_get (memory q) (texts (artifact q)) k
            = match own_lookup k (own (texts (artifact q))) with
              | Some r => VItem r
              | None => VUndefined
              end).
  { intros q Hq. unfold texts_get. rewrite Hq.
    destruct (own_lookup k (own (texts (artifact q)))); [reflexivity |].
    unfold Object_prototype_get. rewrite Hplain.
    destruct (String.eqb_spec k "__proto__"); [contradiction | reflexivity]. }
  unfold deleteText, stored. rewrite (Hget p Hproto).
  destruct (own_lookup k (own (texts (artifact p)))) as [r |] eqn:El; cbn [truthy].
  - destruct (now_iso (world p)) as [t w']. cbn [fst snd].
    split; [reflexivity |]. split; [| split; [| split]].
    + unfold getText, texts_get, texts_delete.
      cbn [memory artifact texts own proto].
      rewrite own_lookup_remove_same, Hproto.
      unfold Object_prototype_get. rewrite Hplain.
      destruct (String.eqb_spec k "__proto__"); [contradiction | reflexivity].
    + intros k' Hne. unfold get_seen, getText, texts_get, texts_delete.
      cbn [memory artifact texts own proto].
      now rewrite own_lookup_remove_other.
    + unfold getMetadata. cbn [snd artifact texts texts_delete own].
      rewrite (length_own_remove _ _ Hnd), El. reflexivity.
    + discriminate.
  - cbn [fst snd]. split; [reflexivity |]. split; [| split; [| split]].
    + unfold getText. now rewrite (Hget p Hproto), El.
    + reflexivity.
    + lia.
    + reflexivity.
Qed.

(** X12.  For a name that every object inherits from [Object.prototype], and
    for [__proto__], [deleteText] reports a deletion although the store
    holds nothing under that name: the store shows the same records
    afterwards, and [lastUpdated] has become the time of the call. *)
Theorem deleteText_reports_inherited_names (k : string) (p : process W) :
  proto (texts (artifact p)) = None ->
  is_in k Object_prototype_methods = true \/ k = "__proto__" ->
  stored k p = false ->
  fst (deleteText k p) = true /\
  all_seen (snd (deleteText k p)) = all_seen p /\
  snd (getMetadata (snd (deleteText k p))) = snd (getMetadata p) /\
  lastUpdated (artifact (snd (deleteText k p))) = fst (now_iso (world p)).
Proof.
  intros Hproto Hk Hs. unfold stored in Hs.
  destruct (own_lookup k (own (texts (artifact p)))) eqn:El; [discriminate |].
  assert (Ht : truthy (texts_get (memory p) (texts (artifact p)) k) = true).
  { unfold texts_get. rewrite El, Hproto. unfold Object_prototype_get.
    destruct (is_in k Object_prototype_methods) eqn:Hin; [reflexivity |].
    destruct Hk as [Hk | ->]; [discriminate | reflexivity]. }
  unfold deleteText. rewrite Ht.
  destruct (now_iso (world p)) as [t w']. cbn [fst snd].
  unfold all_seen, getAllTexts, getMetadata, texts_delete.
  cbn [memory artifact texts own lastUpdated snd].
  rewrite (own_remove_absent _ _ El). repeat split.
Qed.

(** ** [updateText] *)

(** X13.  Writing one key leaves the others alone: unless the key is
    [__proto__], every other key shows after [updateText] what it showed
    before; and the count grows by one when the key was not stored, and
    stays when it was. *)
Theorem updateText_touches_one_key (k c : string) (a : option string)
    (p : process W) :
  valid p ->
  k <> "__proto__" ->
  (forall k', k' <> k ->
     get_seen k' (snd (updateText k c a p)) = get_seen k' p) /\
  snd (getMetadata (snd (updateText k c a p)))
    = snd (getMetadata p) + (if stored k p then 0 else 1).
Proof.
  intros Hvalid Hk. unfold updateText, alloc.
  destruct (now_iso (world p)) as [t1 w1]. destruct (now_iso w1) as [t2 w2].
  cbn [snd].
  assert (Hset : forall r,
            texts_set (texts (artifact p)) k r
            = {| own := own_define k r (own (texts (artifact p)));
                 proto := proto (texts (artifact p)) |}).
  { intros r. unfold texts_set.
    destruct (own_lookup k (own (texts (artifact p)))); [reflexivity |].
    destruct (String.eqb_spec k "__proto__"); [contradiction | reflexivity]. }
  split.
  - intros k' Hne. unfold get_seen, getText. cbn [memory artifact texts].
    rewrite Hset.
    assert (Hsame : texts_get (memory p ++ [ {| key := k; content := c;
                        approvedAt := Some t1; approvedBy := a;
                        version := Some (if truthy (getText k p)
                                         then plus_one (version_of (memory p)
                                                          (getText k p))
                                         else Num 1) |} ])
                      {| own := own_define k (List.length (memory p))
                                  (own (texts (artifact p)));
                         proto := proto (texts (artifact p)) |} k'
                    = texts_get (memory p) (texts (artifact p)) k').
    { unfold texts_get. cbn [own proto].
      rewrite own_lookup_define_other by exact Hne.
      destruct (own_lookup k' (own (texts (artifact p)))); [reflexivity |].
      destruct (proto (texts (artifact p))) as [p0 |] eqn:Ep; [| reflexivity].
      now rewrite deref_extended by (now apply (proj2 Hvalid)). }
    unfold getText in Hsame |- *. rewrite Hsame.
    destruct (truthy (texts_get (memory p) (texts (artifact p)) k')) eqn:Ht;
      [| reflexivity].
    unfold seen.
    destruct (texts_get (memory p) (texts (artifact p)) k')
      as [| | | | r | |] eqn:Eg; try reflexivity.
    now rewrite deref_extended by (now apply (texts_get_valid p k')).
  - unfold getMetadata, stored. cbn [snd artifact texts]. rewrite Hset.
    cbn [own]. rewrite length_own_define.
    destruct (own_lookup k (own (texts (artifact p)))); reflexivity.
Qed.

(** X14.  A write under the key [__proto__], in a store whose [texts] object
    has its original prototype, is not stored as a text: [updateText]
    returns a new record, and [getText] returns it for that key, but
    [getAllTexts] and the count are as before, and so are the records that
    [toJsonString] writes. The record has the version [NaN]. It has become
    the prototype of the [texts] object: a name of one of its fields that is
    not stored, such as [content], is now found by [getText], which returns
    the value of the field. *)
Theorem updateText_of_proto_is_not_stored (c : string) (a : option string)
    (p : process W) :
  valid p ->
  proto (texts (artifact p)) = None ->
  stored "__proto__" p = false ->
  stored "content" p = false ->
  c <> "" ->
  let r := fst (updateText "__proto__" c a p) in
  let p' := snd (updateText "__proto__" c a p) in
  all_seen p' = all_seen p /\
  snd (getMetadata p') = snd (getMetadata p) /\
  snd (snapshot p') = snd (snapshot p) /\
  get_seen "__proto__" p'
    = (VItem r,
       Some {| key := "__proto__"; content := c;
               approvedAt := Some (fst (now_iso (world p)));
               approvedBy := a; version := Some NaN |}) /\
  getText "content" p' = VString c.
Proof.
  intros Hvalid Hproto Hs Hsc Hc. cbv zeta.
  unfold stored in Hs, Hsc.
  destruct (own_lookup "__proto__" (own (texts (artifact p)))) eqn:El;
    [discriminate |].
  destruct (own_lookup "content" (own (texts (artifact p)))) eqn:Elc;
    [discriminate |].
  assert (Hg : getText "__proto__" p = VObjectPrototype).
  { unfold getText, texts_get. now rewrite El, Hproto. }
  unfold updateText. rewrite Hg. cbn [truthy version_of plus_one].
  destruct (now_iso (world p)) as [t1 w1]. destruct (now_iso w1) as [t2 w2].
  unfold alloc. cbn [fst snd]. unfold texts_set.
  rewrite El, String.eqb_refl.
  assert (Hown : map (fun kr : string * ref =>
                        (fst kr, deref (memory p ++ [ {| key := "__proto__";
                           content := c; approvedAt := Some t1; approvedBy := a;
                           version := Some NaN |} ]) (snd kr)))
                     (own (texts (artifact p)))
                 = map (fun kr => (fst kr, deref (memory p) (snd kr)))
                     (own (texts (artifact p)))).
  { apply map_ext_in. intros [k r] Hin. cbn [fst snd].
    now rewrite deref_extended by (now apply (proj1 Hvalid k)). }
  split; [| split; [| split; [| split]]].
  - unfold all_seen, getAllTexts. cbn [memory artifact texts own]. exact Hown.
  - reflexivity.
  - unfold snapshot. cbn [snd memory artifact texts own]. exact Hown.
  - unfold get_seen, getText, texts_get, seen.
    cbn [memory artifact texts own proto]. rewrite El.
    unfold deref. rewrite nth_error_app2, Nat.sub_diag by lia. cbn.
    rewrite nth_error_app2, Nat.sub_diag by lia. reflexivity.
  - unfold getText, texts_get. cbn [memory artifact texts own proto].
    rewrite Elc. unfold deref. rewrite nth_error_app2, Nat.sub_diag by lia.
    cbn. destruct c; [now elim Hc | reflexivity].
Qed.

(** What [getText] finds for a plain key. *)
Lemma getText_of_plain_key (k : string) (q : process W) :
  proto (texts (artifact q)) = None ->
  plain k ->
  getText k q = match own_lookup k (own (texts (artifact q))) with
                | Some r => VItem r
                | None => VNull
                end.
Proof.
  intros Hq [Hplain Hk]. unfold getText, texts_get. rewrite Hq.
  destruct (own_lookup k (own (texts (artifact q)))); [reflexivity |].
  unfold Object_prototype_get. rewrite Hplain.
  destruct (String.eqb_spec k "__proto__"); [contradiction | reflexivity].
Qed.

Lemma deleteText_of_plain_key (k : string) (q : process W) :
  proto (texts (artifact q)) = None ->
  plain k ->
  fst (deleteText k q) = stored k q /\
  (stored k q = false -> snd (deleteText k q) = q) /\
  proto (texts (artifact (snd (deleteText k q)))) = None /\
  own_lookup k (own (texts (artifact (snd (deleteText k q))))) = None.
Proof.
  intros Hq Hplain. pose proof (getText_of_plain_key k q Hq Hplain) as Hg.
  unfold getText in Hg. unfold deleteText, stored.
  destruct (own_lookup k (own (texts (artifact q)))) as [r |] eqn:El.
  - destruct (truthy (texts_get (memory q) (texts (artifact q)) k)) eqn:Ht;
      [| discriminate].
    destruct (now_iso (world q)) as [t w']. cbn [fst snd artifact texts].
    unfold texts_delete. cbn [own proto].
    repeat split; [discriminate | exact Hq | apply own_lookup_remove_same].
  - destruct (truthy (texts_get (memory q) (texts (artifact q)) k)) eqn:Ht.
    + rewrite Hg in Ht. discriminate.
    + cbn [fst snd]. now repeat split.
Qed.

Lemma updateText_keeps_the_prototype (k c : string) (a : option string)
    (q : process W) :
  k <> "__proto__" ->
  proto (texts (artifact (snd (updateText k c a q)))) = proto (texts (artifact q)).
Proof.
  intros Hk. unfold updateText, alloc.
  destruct (now_iso (world q)) as [t1 w1]. destruct (now_iso w1) as [t2 w2].
  cbn [snd artifact texts]. unfold texts_set.
  destruct (own_lookup k (own (texts (artifact q)))); [reflexivity |].
  destruct (String.eqb_spec k "__proto__"); [contradiction | reflexivity].
Qed.

Lemma updates_snoc (k : string) ws w (p : process W) :
  updates k (ws ++ [w]) p = snd (updateText k (fst w) (snd w) (updates k ws p)).
Proof. unfold updates. now rewrite fold_left_app. Qed.

(** After one write or more of a key that was not stored, the version of
    its record is the number of the writes. *)
Lemma updates_version (k : string) (p : process W) :
  proto (texts (artifact p)) = None ->
  plain k ->
  stored k p = false ->
  forall ws, ws <> [] ->
    proto (texts (artifact (updates k ws p))) = None /\
    exists r item,
      own_lookup k (own (texts (artifact (updates k ws p)))) = Some r /\
      deref (memory (updates k ws p)) r = Some item /\
      version item = Some (Num (Z.of_nat (List.length ws))).
Proof.
  intros Hproto Hplain Hs ws.
  induction ws as [| [c a] ws IH] using rev_ind; [intros H; now elim H |].
  intros _. rewrite updates_snoc. cbn [fst snd].
  assert (Hq : proto (texts (artifact (updates k ws p))) = None).
  { destruct ws as [| w ws']; [exact Hproto |]. now apply IH. }
  split; [rewrite updateText_keeps_the_prototype; [exact Hq | apply Hplain] |].
  pose proof (updateText_of_plain_key k c a (updates k ws p) Hq
                (proj1 Hplain) (proj2 Hplain)) as H.
  cbv zeta in H. destruct H as (Hd & Hg & _).
  rewrite getText_of_plain_key in Hg;
    [| rewrite updateText_keeps_the_prototype; [exact Hq | apply Hplain]
     | exact Hplain].
  destruct (own_lookup k (own (texts (artifact
              (snd (updateText k c a (updates k ws p))))))) as [r |] eqn:El;
    [| discriminate].
  injection Hg as Hg.
  eexists r, _. split; [reflexivity |]. split; [rewrite Hg; exact Hd |].
  cbn [version]. rewrite length_app. cbn [List.length].
  destruct ws as [| w ws'].
  - unfold updates. cbn [fold_left]. unfold stored in Hs.
    destruct (own_lookup k (own (texts (artifact p)))); [discriminate |].
    reflexivity.
  - destruct IH as (_ & r0 & item0 & Hl0 & Hd0 & Hv0); [discriminate |].
    rewrite Hl0. unfold version_of. rewrite Hd0, Hv0. cbn [plus_one].
    do 2 f_equal. lia.
Qed.


(** ** [loadFromJson] *)

(** The records of a document whose keys are distinct and new are seen
    after those that were there, each under its key, in the order of the
    document. *)
Lemma install_seen (recs : list (string * TextItem)) :
  forall (h : heap) (props : list (string * ref)),
    NoDup (map fst recs) ->
    (forall k, In k (map fst recs) -> own_lookup k props = None) ->
    (forall k r, In (k, r) props -> r < List.length h) ->
    map (fun kr => (fst kr, deref (fst (install recs h props)) (snd kr)))
      (snd (install recs h props))
    = map (fun kr => (fst kr, deref h (snd kr))) props
      ++ map (fun ki => (fst ki, Some (snd ki))) recs.
Proof.
  induction recs as [| [k item] rest IH]; intros h props Hnd Hnew Hin.
  - cbn. now rewrite app_nil_r.
  - cbn [install alloc]. inversion Hnd as [| ? ? Hnotin Hnd']; subst.
    rewrite own_define_absent by (apply Hnew; now left).
    rewrite IH.
    + rewrite map_app. cbn [map fst snd]. rewrite <- app_assoc. cbn [app].
      f_equal.
      * apply map_ext_in. intros [k' r'] Hk'. cbn [fst snd].
        now rewrite deref_extended by (now apply (Hin k')).
      * f_equal. f_equal. unfold deref.
        rewrite nth_error_app2, Nat.sub_diag by lia. reflexivity.
    + exact Hnd'.
    + intros k' Hk'. rewrite own_lookup_app, Hnew by (now right). cbn.
      destruct (String.eqb_spec k' k) as [-> | _]; [contradiction | reflexivity].
    + intros k' r' Hk'. rewrite length_app. cbn.
      apply in_app_or in Hk'. destruct Hk' as [Hk' | [[= _ <-] | []]]; [| lia].
      specialize (Hin _ _ Hk'). lia.
Qed.

Lemma install_lookup_other (recs : list (string * TextItem)) :
  forall (h : heap) (props : list (string * ref)) k,
    ~ In k (map fst recs) ->
    own_lookup k (snd (install recs h props)) = own_lookup k props.
Proof.
  intros h props k Hk.
  destruct (install recs h props) as [h' props'] eqn:Ei.
  destruct (install_spec _ _ _ _ _ Ei) as (_ & _ & Hother & _).
  now apply Hother.
Qed.

(** X16.  What a store shows after [loadFromJson] of a document with a
    [texts] object whose keys are distinct. [getAllTexts] shows the records
    of the document, each under its key, and nothing else: the count is
    their number, and a plain key that the document has not is not found,
    whatever was stored before. The version of the artifact and
    [lastUpdated] are those of the document; where the document has none, or
    the empty text, they are ["1.0.0"] and the time of the call. *)
Theorem loadFromJson_shows_the_document (jsonString : string)
    (v lu : option string) (recs : list (string * TextItem)) (p : process W) :
  JSON_parse jsonString = Resolved (ParsedObject v lu (Some recs)) ->
  NoDup (map fst recs) ->
  (forall k o,
     In (k, o) (all_seen (snd (loadFromJson jsonString p))) <->
     exists item, o = Some item /\ In (k, item) recs) /\
  getMetadata (snd (loadFromJson jsonString p))
    = (or_else v "1.0.0", or_else lu (fst (now_iso (world p))),
       List.length recs) /\
  (forall k, plain k -> ~ In k (map fst recs) ->
     getText k (snd (loadFromJson jsonString p)) = VNull).
Proof.
  intros Hparse Hnd. unfold loadFromJson, load_try. rewrite Hparse.
  assert (Hseen := install_seen recs (memory p) [] Hnd
                     (fun k _ => eq_refl) (fun k r (H : In (k, r) []) => match H with end)).
  assert (Hother := fun k => install_lookup_other recs (memory p) [] k).
  destruct (install recs (memory p) []) as [h' props] eqn:Ei.
  cbn [fst snd map app] in Hseen, Hother.
  assert (Hlu : forall (x : string * W),
            x = match lu with
                | Some s => if truthy_string s then (s, world p)
                            else now_iso (world p)
                | None => now_iso (world p)
                end ->
            fst x = or_else lu (fst (now_iso (world p)))).
  { intros x ->. unfold or_else. destruct lu as [s |]; [| reflexivity].
    now destruct (truthy_string s). }
  match goal with
  | |- context [let '(_, _) := ?x in _] =>
      specialize (Hlu x eq_refl); destruct x as [t w']
  end.
  cbn [fst] in Hlu. cbn [snd].
  split; [| split].
  - intros k o. unfold all_seen, getAllTexts. cbn [memory artifact texts own].
    rewrite Hseen, in_map_iff. split.
    + intros ([k' item] & [= <- <-] & Hin). now exists item.
    + intros (item & -> & Hin). now exists (k, item).
  - unfold getMetadata. cbn [artifact schema lastUpdated texts own].
    rewrite Hlu. f_equal.
    apply (f_equal (@List.length _)) in Hseen. now rewrite !length_map in Hseen.
  - intros k Hplain Hk. rewrite getText_of_plain_key; [| reflexivity | exact Hplain].
    cbn [artifact texts own]. now rewrite (Hother k Hk).
Qed.

(** ** Writing a store and reading it again *)

(** The record that is seen under a key of a store whose [texts] object
    has its original prototype. *)
Lemma seen_of_lookup (k : string) (p : process W) :
  proto (texts (artifact p)) = None ->
  snd (get_seen k p)
    = match own_lookup k (own (texts (artifact p))) with
      | Some r => deref (memory p) r
      | None => None
      end.
Proof.
  intros Hp. unfold get_seen, getText, texts_get, seen. rewrite Hp.
  destruct (own_lookup k (own (texts (artifact p)))) as [r |]; [reflexivity |].
  unfold Object_prototype_get.
  destruct (is_in k Object_prototype_methods); [reflexivity |].
  destruct (k =? "__proto__")%string; reflexivity.
Qed.

Lemma In_own_lookup k r (props : list (string * ref)) :
  In (k, r) props -> own_lookup k props <> None.
Proof.
  induction props as [| [k' r'] rest IH]; cbn; [easy |].
  intros [[= -> ->] | Hin].
  - now rewrite String.eqb_refl.
  - destruct (String.eqb k k'); [discriminate | now apply IH].
Qed.

(** X17.  What [toJsonString] writes of a store, [loadFromJson] reads back,
    in the same service or in another one, provided the parser finds in that
    text what was written: the two texts of the artifact, and under distinct
    keys the records that [getAllTexts] shows. The store then shows under
    every key the record that the first one shows, and has the same
    metadata. This is for a store whose [texts] object has its original
    prototype; and the two texts of the artifact must not be empty, for
    [loadFromJson] replaces an empty one. *)
Theorem serialisation_round_trip (p q : process W)
    (recs : list (string * TextItem)) :
  valid p ->
  distinct_keys p ->
  proto (texts (artifact p)) = None ->
  schema (artifact p) <> "" ->
  lastUpdated (artifact p) <> "" ->
  JSON_parse (toJsonString p)
    = Resolved (ParsedObject (Some (schema (artifact p)))
                  (Some (lastUpdated (artifact p))) (Some recs)) ->
  NoDup (map fst recs) ->
  (forall k item, In (k, item) recs <-> In (k, Some item) (all_seen p)) ->
  (forall k, snd (get_seen k (snd (loadFromJson (toJsonString p) q)))
             = snd (get_seen k p)) /\
  getMetadata (snd (loadFromJson (toJsonString p) q)) = getMetadata p.
Proof.
  intros Hvalid Hnd Hproto Hschema Hlast Hparse Hnd' Hrecs.
  assert (Hown : forall k r, In (k, r) (own (texts (artifact p))) ->
            exists item, deref (memory p) r = Some item /\ In (k, item) recs).
  { intros k r Hin.
    destruct (deref (memory p) r) as [item |] eqn:Ed.
    - exists item. split; [reflexivity |]. apply Hrecs.
      unfold all_seen, getAllTexts. cbn [own]. apply in_map_iff.
      exists (k, r). cbn [fst snd]. now rewrite Ed.
    - exfalso. unfold deref in Ed. apply nth_error_None in Ed.
      specialize (proj1 Hvalid _ _ Hin). lia. }
  assert (Hback : forall k item, In (k, item) recs ->
            exists r, In (k, r) (own (texts (artifact p))) /\
                      deref (memory p) r = Some item).
  { intros k item Hin. apply Hrecs in Hin.
    unfold all_seen, getAllTexts in Hin. cbn [own] in Hin.
    apply in_map_iff in Hin. destruct Hin as ([k' r] & [= <- Hd] & Hin).
    now exists r. }
  unfold loadFromJson, load_try. rewrite Hparse.
  destruct (install recs (memory q) []) as [h' props] eqn:Ei.
  destruct (install_spec _ _ _ _ _ Ei) as (_ & Hrec & Hother & _).
  specialize (Hrec Hnd').
  destruct (lastUpdated (artifact p)) as [| c0 lu0] eqn:El; [now elim Hlast |].
  cbn [truthy_string snd].
  split.
  - intros k. rewrite !seen_of_lookup by (exact Hproto || reflexivity).
    cbn [memory artifact texts own].
    destruct (own_lookup k (own (texts (artifact p)))) as [r |] eqn:Ek.
    + apply own_lookup_In in Ek. destruct (Hown _ _ Ek) as (item & Hd & Hin).
      destruct (Hrec _ _ Hin) as (r' & Hl' & Hd'). now rewrite Hl', Hd', Hd.
    + rewrite Hother; [reflexivity |].
      intros Hin. apply in_map_iff in Hin.
      destruct Hin as ([k' item] & Hk & Hin). cbn [fst] in Hk. subst k'.
      destruct (Hback _ _ Hin) as (r & Hr & _).
      now apply In_own_lookup in Hr.
  - unfold getMetadata. cbn [artifact schema lastUpdated texts own].
    rewrite El. unfold or_else.
    destruct (schema (artifact p)) as [| c1 v1] eqn:Es; [now elim Hschema |].
    cbn [truthy_string]. f_equal.
    assert (Hlen : List.length props = List.length recs).
    { pose proof (install_seen recs (memory q) [] Hnd' (fun k _ => eq_refl)
                    (fun k r (H : In (k, r) []) => match H with end)) as Hseen.
      rewrite Ei in Hseen. cbn [fst snd map app] in Hseen.
      apply (f_equal (@List.length _)) in Hseen.
      now rewrite !length_map in Hseen. }
    rewrite Hlen.
    rewrite <- (length_map fst recs), <- (length_map fst (own (texts (artifact p)))).
    apply Nat.le_antisymm; apply NoDup_incl_length; trivial.
    + intros k Hin. apply in_map_iff in Hin.
      destruct Hin as ([k' item] & Hk & Hin). cbn [fst] in Hk. subst k'.
      destruct (Hback _ _ Hin) as (r & Hr & _).
      apply in_map_iff. now exists (k, r).
    + intros k Hin. apply in_map_iff in Hin.
      destruct Hin as ([k' r] & Hk & Hin). cbn [fst] in Hk. subst k'.
      destruct (Hown _ _ Hin) as (item & _ & Hr).
      apply in_map_iff. now exists (k, item).
Qed.

End Records.

(** ** In the scripted world *)

Import Mock.

Lemma plain_key1 : plain "key1".
Proof. split; [reflexivity | discriminate]. Qed.

Lemma distinct_two_texts : distinct_keys two_texts.
Proof.
  unfold distinct_keys. cbn.
  repeat constructor; cbn; intuition discriminate.
Qed.

Lemma deleteText_removes_the_key_witness :
  proto (texts (artifact two_texts)) = None /\
  plain "key1" /\
  distinct_keys two_texts /\
  fst (deleteText "key1" two_texts) = true /\
  getText "key1" (snd (deleteText "key1" two_texts)) = VNull /\
  get_seen "key2" (snd (deleteText "key1" two_texts)) = get_seen "key2" two_texts /\
  snd (getMetadata (snd (deleteText "key1" two_texts))) = 1.
Proof.
  pose proof (deleteText_removes_the_key "key1" two_texts eq_refl plain_key1
                distinct_two_texts) as H.
  cbv zeta in H. destruct H as (Hd & Hg & Hframe & Hcount & _).
  assert (Hne : "key2" <> "key1") by discriminate.
  exact (conj eq_refl (conj plain_key1 (conj distinct_two_texts
           (conj Hd (conj Hg (conj (Hframe "key2" Hne) Hcount)))))).
Defined.

Lemma deleteText_reports_inherited_names_witness :
  proto (texts (artifact (service 0))) = None /\
  (is_in "toString" Object_prototype_methods = true \/ "toString" = "__proto__") /\
  stored "toString" (service 0) = false /\
  fst (deleteText "toString" (service 0)) = true /\
  snd (getMetadata (snd (deleteText "toString" (service 0)))) = 0.
Proof.
  assert (Hk : is_in "toString" Object_prototype_methods = true
               \/ "toString" = "__proto__") by (left; reflexivity).
  destruct (deleteText_reports_inherited_names "toString" (service 0)
              eq_refl Hk eq_refl) as (Hd & _ & Hcount & _).
  exact (conj eq_refl (conj Hk (conj eq_refl (conj Hd Hcount)))).
Defined.

Lemma updateText_touches_one_key_witness :
  valid two_texts /\
  "key1" <> "__proto__" /\
  get_seen "key2" (snd (updateText "key1" "changed" None two_texts))
    = get_seen "key2" two_texts /\
  snd (getMetadata (snd (updateText "key1" "changed" None two_texts))) = 2.
Proof.
  assert (Hk : "key1" <> "__proto__") by discriminate.
  assert (Hne : "key2" <> "key1") by discriminate.
  destruct (updateText_touches_one_key "key1" "changed" None two_texts
              valid_two_texts Hk) as (Hframe & Hcount).
  exact (conj valid_two_texts (conj Hk (conj (Hframe "key2" Hne) Hcount))).
Defined.

Lemma updateText_of_proto_is_not_stored_witness :
  valid two_texts /\
  proto (texts (artifact two_texts)) = None /\
  stored "__proto__" two_texts = false /\
  stored "content" two_texts = false /\
  "polluted" <> "" /\
  snd (getMetadata (snd (updateText "__proto__" "polluted" None two_texts))) = 2 /\
  getText "content" (snd (updateText "__proto__" "polluted" None two_texts))
    = VString "polluted".
Proof.
  assert (Hc : "polluted" <> "") by discriminate.
  pose proof (updateText_of_proto_is_not_stored "polluted" None two_texts
                valid_two_texts eq_refl eq_refl eq_refl Hc) as H.
  cbv zeta in H. destruct H as (_ & Hcount & _ & _ & Hget).
  exact (conj valid_two_texts (conj eq_refl (conj eq_refl (conj eq_refl
           (conj Hc (conj Hcount Hget)))))).
Defined.


Lemma loadFromJson_shows_the_document_witness :
  JSON_parse partial_document
    = Resolved (ParsedObject None None (Some [("test-key", partial_record)])) /\
  NoDup (map fst [("test-key", partial_record)]) /\
  In ("test-key", Some partial_record)
    (all_seen (snd (loadFromJson partial_document two_texts))) /\
  getMetadata (snd (loadFromJson partial_document two_texts))
    = ("1.0.0", "1970-01-01T00:00:00.005Z", 1) /\
  getText "key1" (snd (loadFromJson partial_document two_texts)) = VNull.
Proof.
  assert (Hnd : NoDup (map fst [("test-key", partial_record)])).
  { constructor; [intros [] | constructor]. }
  assert (Hp : JSON_parse partial_document
               = Resolved (ParsedObject None None
                             (Some [("test-key", partial_record)])))
    by reflexivity.
  destruct (loadFromJson_shows_the_document partial_document None None
              [("test-key", partial_record)] two_texts Hp Hnd)
    as (Hseen & Hmeta & Hgone).
  assert (Hnot : ~ In "key1" (map fst [("test-key", partial_record)])).
  { cbn. intuition discriminate. }
  assert (Hin : exists item, Some partial_record = Some item /\
                              In ("test-key", item) [("test-key", partial_record)]).
  { exists partial_record. split; [reflexivity | now left]. }
  exact (conj Hp (conj Hnd (conj (proj2 (Hseen _ _) Hin) (conj Hmeta
           (Hgone "key1" plain_key1 Hnot))))).
Defined.

Lemma serialisation_round_trip_witness :
  valid two_texts /\
  distinct_keys two_texts /\
  proto (texts (artifact two_texts)) = None /\
  schema (artifact two_texts) <> "" /\
  lastUpdated (artifact two_texts) <> "" /\
  @JSON_parse Cases.reading_back (@toJsonString _ Cases.reading_back two_texts)
    = Resolved (ParsedObject (Some (schema (artifact two_texts)))
                  (Some (lastUpdated (artifact two_texts)))
                  (Some Cases.two_records)) /\
  NoDup (map fst Cases.two_records) /\
  snd (get_seen "key2"
         (snd (@loadFromJson _ _ Cases.reading_back
                 (@toJsonString _ Cases.reading_back two_texts) (service 7))))
    = snd (get_seen "key2" two_texts) /\
  getMetadata (snd (@loadFromJson _ _ Cases.reading_back
                      (@toJsonString _ Cases.reading_back two_texts) (service 7)))
    = getMetadata two_texts.
Proof.
  assert (Hs : schema (artifact two_texts) <> "") by discriminate.
  assert (Hl : lastUpdated (artifact two_texts) <> "") by discriminate.
  assert (Hp : @JSON_parse Cases.reading_back
                 (@toJsonString _ Cases.reading_back two_texts)
               = Resolved (ParsedObject (Some (schema (artifact two_texts)))
                             (Some (lastUpdated (artifact two_texts)))
                             (Some Cases.two_records))) by reflexivity.
  assert (Hnd : NoDup (map fst Cases.two_records)).
  { cbn. repeat constructor; cbn; intuition discriminate. }
  assert (Hrecs : forall k item,
            In (k, item) Cases.two_records <-> In (k, Some item) (all_seen two_texts)).
  { intros k item. cbn. split.
    - intros [[= <- <-] | [[= <- <-] | []]]; [now left | right; now left].
    - intros [[= <- <-] | [[= <- <-] | []]]; [now left | right; now left]. }
  destruct (@serialisation_round_trip _ _ Cases.reading_back two_texts (service 7)
              Cases.two_records valid_two_texts distinct_two_texts eq_refl
              Hs Hl Hp Hnd Hrecs) as (Hseen & Hmeta).
  exact (conj valid_two_texts (conj distinct_two_texts (conj eq_refl (conj Hs
           (conj Hl (conj Hp (conj Hnd (conj (Hseen "key2") Hmeta)))))))).
Defined.

End Records.
(* ===================================================================== *)
(** * Part XIX.  The configuration and the credentials                  *)
(* ===================================================================== *)

Module Credentials.
Import JS Config.

Lemma truthy_spec (x : option string) :
  GitHub.truthy x = true <-> exists s, x = Some s /\ s <> "".
Proof.
  destruct x as [[| c s] |]; cbn; split; try discriminate.
  - intros (s & [= <-] & H). now elim H.
  - intros _. now exists (String c s).
  - reflexivity.
  - intros (s & [=] & _).
Qed.

Lemma enabled_service (env : Env) :
  isGitHubPRModeEnabled env = true ->
  exists config, new_GitHubService env = Resolved config.
Proof.
  unfold isGitHubPRModeEnabled, new_GitHubService.
  destruct (GITHUB_TOKEN env) as [[| c token] |]; cbn; try discriminate.
  destruct (GITHUB_REPO env) as [[| c' repo] |]; cbn; try discriminate.
  intros _. eexists. reflexivity.
Qed.

(** X18.  The check that the controller makes before it creates the service
    is the check the constructor makes: [isGitHubPRModeEnabled] holds
    exactly when [new GitHubService] does not throw, and that is exactly
    when the token and the repository are both set to a text that is not
    empty. The service then has these two and the five other settings of the
    environment. *)
Theorem mode_is_enabled_exactly_when_the_service_can_be_made (env : Env) :
  (isGitHubPRModeEnabled env = true <->
     exists config, new_GitHubService env = Resolved config) /\
  (isGitHubPRModeEnabled env = false <->
     new_GitHubService env
       = Rejected (ErrorObject "GitHub credentials not provided")) /\
  (isGitHubPRModeEnabled env = true <->
     exists token repo,
       GITHUB_TOKEN env = Some token /\ token <> "" /\
       GITHUB_REPO env = Some repo /\ repo <> "") /\
  (forall config,
     new_GitHubService env = Resolved config ->
     GITHUB_TOKEN env = Some (GitHub.token config) /\
     GITHUB_REPO env = Some (GitHub.repo config) /\
     GitHub.branch config = GITHUB_BRANCH env /\
     GitHub.targetPath config = GITHUB_TARGET_PATH env /\
     GitHub.commitMessageTemplate config = GITHUB_COMMIT_MESSAGE_TEMPLATE env /\
     GitHub.prTitleTemplate config = GITHUB_PR_TITLE_TEMPLATE env /\
     GitHub.prBodyTemplate config = GITHUB_PR_BODY_TEMPLATE env).
Proof.
  unfold isGitHubPRModeEnabled, new_GitHubService.
  destruct (GITHUB_TOKEN env) as [[| c token] |];
    destruct (GITHUB_REPO env) as [[| c' repo] |]; cbn.
  5:{ split; [| split; [| split]].
      - split; [intros _; eexists; reflexivity | reflexivity].
      - split; discriminate.
      - split; [intros _ | reflexivity].
        exists (String c token), (String c' repo). now repeat split.
      - intros cfg [= <-]. repeat split. }
  all: split; [| split; [| split]];
    [ split; [discriminate | intros (cfg & [=])]
    | split; reflexivity
    | split; [discriminate |];
      intros (t & r & H1 & H2 & H3 & H4);
      try discriminate H1; try discriminate H3;
      try (injection H1 as <-; now elim H2);
      try (injection H3 as <-; now elim H4)
    | intros cfg [=] ].
Qed.

(** X19.  [validateEnv] throws in one case only: [NODE_ENV] is set to a text
    that is none of the three names. When it returns, the mode is enabled
    exactly when both [GITHUB_TOKEN] and [GITHUB_REPO] are set in the
    environment and neither is empty. *)
Theorem validateEnv_refuses_only_an_unknown_NODE_ENV (e : environment) :
  (validateEnv e = None <->
     exists s, getenv "NODE_ENV" e = Some s /\
               s <> "development" /\ s <> "production" /\ s <> "test") /\
  (forall env,
     validateEnv e = Some env ->
     (isGitHubPRModeEnabled env = true <->
        exists token repo,
          getenv "GITHUB_TOKEN" e = Some token /\ token <> "" /\
          getenv "GITHUB_REPO" e = Some repo /\ repo <> "")).
Proof.
  unfold validateEnv, mode_of. split.
  - destruct (getenv "NODE_ENV" e) as [s |].
    + destruct (String.eqb_spec s "development") as [-> | H1].
      { split; [discriminate | intros (s & [= <-] & H & _); now elim H]. }
      destruct (String.eqb_spec s "production") as [-> | H2].
      { split; [discriminate | intros (s & [= <-] & _ & H & _); now elim H]. }
      destruct (String.eqb_spec s "test") as [-> | H3].
      { split; [discriminate | intros (s & [= <-] & _ & _ & H); now elim H]. }
      split; [intros _; now exists s | reflexivity].
    + split; [discriminate | intros (s & [=] & _)].
  - intros env Henv.
    assert (Ht : GITHUB_TOKEN env = getenv "GITHUB_TOKEN" e /\
                 GITHUB_REPO env = getenv "GITHUB_REPO" e).
    { destruct (getenv "NODE_ENV" e) as [s |].
      - destruct (s =? "development")%string; [now injection Henv as <- |].
        destruct (s =? "production")%string; [now injection Henv as <- |].
        destruct (s =? "test")%string; [now injection Henv as <- | discriminate].
      - now injection Henv as <-. }
    destruct Ht as [Ht Hr]. unfold isGitHubPRModeEnabled. rewrite Ht, Hr.
    split.
    + destruct (GitHub.truthy (getenv "GITHUB_TOKEN" e)) eqn:E1; [| discriminate].
      intros E2. apply truthy_spec in E1, E2.
      destruct E1 as (t & E1 & Hne1), E2 as (r & E2 & Hne2).
      now exists t, r.
    + intros (t & r & -> & Hne1 & -> & Hne2).
      destruct t; [now elim Hne1 |]. destruct r; [now elim Hne2 |]. reflexivity.
Qed.

End Credentials.
(* ===================================================================== *)
(** * Part XX.  The requests                                            *)
(* ===================================================================== *)

Module Requests.
Import JS Config Controller Shape.

Section Requests.
Context {W : Type} {clock_of_W : Clock W} {octokit_of_W : GitHub.Octokit W}
        {buffer : GitHub.Buffer} {json_of_W : Text.JSON}.
Variable env : Env.

(** ** The synchronisation that a request starts *)

Lemma github_sync_disabled key artifactJson (s : GitHub.state W) :
  isGitHubPRModeEnabled env = false ->
  github_sync env key artifactJson s = (Resolved None, s).
Proof. unfold github_sync. now intros ->. Qed.

Lemma github_sync_enabled key artifactJson (s : GitHub.state W) :
  isGitHubPRModeEnabled env = true ->
  exists config r,
    new_GitHubService env = Resolved config /\
    fst (GitHub.syncContent config key artifactJson 0 s) = Resolved r /\
    github_sync env key artifactJson s
      = (Resolved (Some r), snd (GitHub.syncContent config key artifactJson 0 s)).
Proof.
  intros Hmode. destruct (Credentials.enabled_service env Hmode) as (config & Hc).
  destruct (GitHub.syncContent config key artifactJson 0 s) as [res s'] eqn:Hrun.
  destruct (Attempts.syncContent_trace _ _ _ _ _ _ _ Hrun) as (r & tr & -> & _).
  exists config, r. rewrite Hrun. split; [exact Hc |]. split; [reflexivity |].
  unfold github_sync. rewrite Hmode, Hc.
  unfold GitHub.try_catch, GitHub.bind. now rewrite Hrun.
Qed.

(** Whatever happens, the synchronisation leaves a result. *)
Lemma github_sync_resolves key artifactJson (s : GitHub.state W) :
  exists g,
    fst (github_sync env key artifactJson s) = Resolved g /\
    (g = None <-> isGitHubPRModeEnabled env = false).
Proof.
  destruct (isGitHubPRModeEnabled env) eqn:Hmode.
  - destruct (github_sync_enabled key artifactJson s Hmode)
      as (config & r & _ & _ & ->).
    exists (Some r). split; [reflexivity |]. split; discriminate.
  - rewrite github_sync_disabled by exact Hmode.
    exists None. now split.
Qed.

(** The calls that the synchronisation adds. *)
Lemma github_sync_sent key artifactJson (s : GitHub.state W) :
  exists tr,
    GitHub.calls (snd (github_sync env key artifactJson s))
      = (GitHub.calls s ++ tr)%list /\
    Forall (fun r => GitHub.is_commit r = true ->
                     GitHub.commit_content r
                     = Some (GitHub.base64_encode artifactJson)) tr /\
    GitHub.count GitHub.is_commit tr <= 2 /\
    (isGitHubPRModeEnabled env = false -> tr = []) /\
    (forall config,
       new_GitHubService env = Resolved config ->
       Forall (fun r => Trace.in_repository config r /\
                        Trace.for_key config key r) tr).
Proof.
  destruct (isGitHubPRModeEnabled env) eqn:Hmode.
  - destruct (github_sync_enabled key artifactJson s Hmode)
      as (config & r & Hc & _ & ->). cbn [snd].
    destruct (GitHub.syncContent config key artifactJson 0 s) as [res s'] eqn:Hrun.
    destruct (Attempts.syncContent_trace _ _ _ _ _ _ _ Hrun)
      as (r' & tr & _ & E & Haddr & Hbody & Hcount).
    exists tr. cbn [snd]. repeat split; trivial; try discriminate.
    intros config' Hc'. rewrite Hc in Hc'. now injection Hc' as <-.
  - rewrite github_sync_disabled by exact Hmode. exists []. cbn [snd].
    rewrite app_nil_r. repeat split; try constructor. unfold GitHub.count. cbn. lia.
Qed.

(** ** [updateText] *)

Lemma updateTextSchema_of_body content approvedBy :
  content <> "" ->
  updateTextSchema (body_of content approvedBy) = Some (content, approvedBy).
Proof.
  intros Hc. unfold body_of, updateTextSchema.
  destruct content as [| c0 content]; [now elim Hc |].
  now destruct approvedBy.
Qed.

(** The handler with a body that the schema accepts, step by step. *)
Lemma updateText_run key content approvedBy (c : server W) :
  content <> "" ->
  let written := Text.updateText key content approvedBy (store c) in
  let sync := github_sync env key (Text.toJsonString (snd written))
                (remote_state (snd written) (requests c)) in
  exists githubResult,
    fst sync = Resolved githubResult /\
    updateText env key (body_of content approvedBy) c
      = ({| status := status_for githubResult;
            json := Updated (fst written) (Text.getMetadata (snd written))
                      githubResult |},
         resume (snd written) (snd sync)).
Proof.
  intros Hc. cbv zeta. unfold updateText.
  rewrite (updateTextSchema_of_body _ _ Hc).
  destruct (Text.updateText key content approvedBy (store c)) as [r p].
  cbn [fst snd].
  destruct (github_sync_resolves key (Text.toJsonString p)
              (remote_state p (requests c))) as (g & Hg & _).
  destruct (github_sync env key (Text.toJsonString p)
              (remote_state p (requests c))) as [a s].
  cbn [fst] in Hg. subst a. exists g. split; reflexivity.
Qed.

(** X20.  The handler of [PUT /api/texts/:key] answers 400 exactly when the
    body is not an object with a [content] that is a string and not empty,
    and with an [approvedBy] that is a string if there is one. It has then
    done nothing: the store is as it was, and no request was made to the
    remote. *)
Theorem updateText_refuses_an_invalid_body key (b : body) (c : server W) :
  let accepted :=
    exists content approvedBy, content <> "" /\ b = body_of content approvedBy in
  (status (fst (updateText env key b c)) = 400 <-> ~ accepted) /\
  (~ accepted ->
   updateText env key b c
     = ({| status := 400; json := Refused "Invalid request body" |}, c)).
Proof.
  cbv zeta.
  assert (Hschema : updateTextSchema b = None \/
            exists content approvedBy,
              content <> "" /\ b = body_of content approvedBy).
  { destruct b as [| [| [| c0 content] |] [| a |]]; cbn; try (now left).
    - right. now exists (String c0 content), None.
    - right. now exists (String c0 content), (Some a). }
  destruct Hschema as [Hnone | (content & approvedBy & Hc & ->)].
  - assert (Hno : ~ (exists content approvedBy,
                       content <> "" /\ b = body_of content approvedBy)).
    { intros (content & approvedBy & Hc & ->).
      rewrite updateTextSchema_of_body in Hnone by exact Hc. discriminate. }
    unfold updateText. rewrite Hnone. cbn [fst status]. split; [now split |].
    reflexivity.
  - destruct (updateText_run key content approvedBy c Hc) as (g & _ & ->).
    cbn [fst status].
    assert (Hs : status_for g <> 400).
    { unfold status_for. destruct g as [r |]; [| discriminate].
      destruct (negb (GitHub.success r)); discriminate. }
    split.
    + split; [intros H; now elim Hs |].
      intros Hno. elim Hno. now exists content, approvedBy.
    + intros Hno. elim Hno. now exists content, approvedBy.
Qed.

(** X21.  With a body that the schema accepts, the handler of [PUT
    /api/texts/:key] never fails because of the remote: whatever
    [syncContent] returns or throws, the store keeps the update, and the
    answer carries the new record and the metadata. The status is 207 when a
    synchronisation was made and did not succeed, and 200 in every other
    case; the answer has a [githubSync] exactly when the mode is enabled. *)
Theorem updateText_keeps_the_update_whatever_the_sync
    key content approvedBy (c : server W) :
  content <> "" ->
  let written := Text.updateText key content approvedBy (store c) in
  let answer := fst (updateText env key (body_of content approvedBy) c) in
  let c' := snd (updateText env key (body_of content approvedBy) c) in
  Text.memory (store c') = Text.memory (snd written) /\
  Text.artifact (store c') = Text.artifact (snd written) /\
  exists githubSync,
    json answer
      = Updated (fst written) (Text.getMetadata (snd written)) githubSync /\
    status answer
      = match githubSync with
        | Some r => if GitHub.success r then 200 else 207
        | None => 200
        end /\
    (githubSync = None <-> isGitHubPRModeEnabled env = false).
Proof.
  intros Hc. cbv zeta.
  destruct (updateText_run key content approvedBy c Hc) as (g & Hg & ->).
  cbn [fst snd resume store Text.memory Text.artifact json status].
  split; [reflexivity |]. split; [reflexivity |].
  exists g. split; [reflexivity |]. split.
  - unfold status_for. destruct g as [r |]; [| reflexivity].
    now destruct (GitHub.success r).
  - destruct (github_sync_resolves key
                (Text.toJsonString
                   (snd (Text.updateText key content approvedBy (store c))))
                (remote_state (snd (Text.updateText key content approvedBy (store c)))
                   (requests c))) as (g' & Hg' & Hmode).
    rewrite Hg in Hg'. injection Hg' as <-. exact Hmode.
Qed.

(** X22.  With the mode enabled and a body that the schema accepts, the
    answer of the handler of [PUT /api/texts/:key] reports what
    [syncContent] has returned: the service is made of the environment (the
    constructor does not throw), [syncContent] is called with the key, with
    the serialisation of the store after the update and with the retry count
    0, and its result is the [githubSync] of the answer, with the status 200
    when it succeeded and 207 when it did not. *)
Theorem update_reports_what_syncContent_returns
    key content approvedBy (c : server W) :
  isGitHubPRModeEnabled env = true ->
  content <> "" ->
  let written := Text.updateText key content approvedBy (store c) in
  exists config r,
    new_GitHubService env = Resolved config /\
    let run :=
      GitHub.syncContent config key (Text.toJsonString (snd written)) 0
        (remote_state (snd written) (requests c)) in
    fst run = Resolved r /\
    fst (updateText env key (body_of content approvedBy) c)
      = {| status := if GitHub.success r then 200 else 207;
           json := Updated (fst written) (Text.getMetadata (snd written))
                     (Some r) |} /\
    requests (snd (updateText env key (body_of content approvedBy) c))
      = GitHub.calls (snd run).
Proof.
  intros Hmode Hc. cbv zeta.
  destruct (updateText_run key content approvedBy c Hc) as (g & Hg & ->).
  destruct (github_sync_enabled key
              (Text.toJsonString
                 (snd (Text.updateText key content approvedBy (store c))))
              (remote_state (snd (Text.updateText key content approvedBy (store c)))
                 (requests c)) Hmode) as (config & r & Hcfg & Hr & Hsync).
  rewrite Hsync in Hg |- *. cbn [fst snd] in Hg |- *. injection Hg as <-.
  exists config, r. split; [exact Hcfg |]. split; [exact Hr |].
  split; [| reflexivity].
  unfold status_for. now destruct (GitHub.success r).
Qed.

(** X23.  What the handler of [PUT /api/texts/:key] sends to the remote.
    Every write carries the serialisation of the store as it is after the
    update; there are at most two writes; and every request is one that a
    synchronisation of this key makes in the repository of the environment. *)
Theorem update_sends_the_new_serialisation
    key content approvedBy (c : server W) :
  content <> "" ->
  let written := Text.updateText key content approvedBy (store c) in
  let sent :=
    added (requests c)
      (requests (snd (updateText env key (body_of content approvedBy) c))) in
  Forall (fun r => GitHub.is_commit r = true ->
                   GitHub.commit_content r
                   = Some (GitHub.base64_encode
                             (Text.toJsonString (snd written)))) sent /\
  GitHub.count GitHub.is_commit sent <= 2 /\
  (forall config,
     new_GitHubService env = Resolved config ->
     Forall (fun r => Trace.in_repository config r /\
                      Trace.for_key config key r) sent).
Proof.
  intros Hc. cbv zeta.
  destruct (updateText_run key content approvedBy c Hc) as (g & _ & ->).
  cbn [snd resume requests].
  destruct (github_sync_sent key
              (Text.toJsonString
                 (snd (Text.updateText key content approvedBy (store c))))
              (remote_state (snd (Text.updateText key content approvedBy (store c)))
                 (requests c))) as (tr & E & Hbody & Hcount & _ & Haddr).
  rewrite E. cbn [remote_state GitHub.calls]. unfold added.
  rewrite skipn_app, skipn_all, Nat.sub_diag. cbn [skipn app].
  now repeat split.
Qed.

(** ** Without credentials *)

(** X24.  When the mode is not enabled, that is when the token or the
    repository is not set or is empty, neither the handler of [PUT
    /api/texts/:key] nor that of [DELETE /api/texts/:key] makes any request
    to the remote, and neither answers with the status 207. *)
Theorem without_credentials_nothing_is_sent key (b : body) (c : server W) :
  isGitHubPRModeEnabled env = false ->
  requests (snd (updateText env key b c)) = requests c /\
  requests (snd (deleteText env key c)) = requests c /\
  status (fst (updateText env key b c)) <> 207 /\
  status (fst (deleteText env key c)) <> 207.
Proof.
  intros Hmode.
  assert (Hup : requests (snd (updateText env key b c)) = requests c /\
                status (fst (updateText env key b c)) <> 207).
  { unfold updateText. destruct (updateTextSchema b) as [[content approvedBy] |];
      [| now split].
    destruct (Text.updateText key content approvedBy (store c)) as [r p].
    rewrite github_sync_disabled by exact Hmode. now split. }
  assert (Hdel : requests (snd (deleteText env key c)) = requests c /\
                 status (fst (deleteText env key c)) <> 207).
  { unfold deleteText. destruct (Text.deleteText key (store c)) as [[|] p];
      cbn [negb]; [| now split].
    rewrite github_sync_disabled by exact Hmode. now split. }
  now repeat split.
Qed.

(** ** [deleteText] and [getText] *)

(** X25.  The handler of [DELETE /api/texts/:key] for a plain key that is
    stored, in a store whose [texts] object has its original prototype: the
    key is removed from the store whatever the remote does, the status is
    200 or 207 as for an update, every write that is sent carries the
    serialisation of the store without the key, and there are at most two
    writes. *)
Theorem deleteText_sends_the_store_without_the_key key (c : server W) :
  Text.proto (Text.texts (Text.artifact (store c))) = None ->
  plain key ->
  stored key (store c) = true ->
  let removed := snd (Text.deleteText key (store c)) in
  let answer := fst (deleteText env key c) in
  let c' := snd (deleteText env key c) in
  let sent := added (requests c) (requests c') in
  Text.getText key (store c') = Text.VNull /\
  Text.memory (store c') = Text.memory removed /\
  Text.artifact (store c') = Text.artifact removed /\
  (exists githubSync,
     json answer = Deleted (Text.getMetadata removed) githubSync /\
     status answer
       = match githubSync with
         | Some r => if GitHub.success r then 200 else 207
         | None => 200
         end) /\
  Forall (fun r => GitHub.is_commit r = true ->
                   GitHub.commit_content r
                   = Some (GitHub.base64_encode (Text.toJsonString removed)))
    sent /\
  GitHub.count GitHub.is_commit sent <= 2.
Proof.
  intros Hproto Hplain Hs. cbv zeta.
  destruct (Records.deleteText_of_plain_key key (store c) Hproto Hplain)
    as (Hd & _ & Hproto' & Hgone).
  unfold deleteText.
  destruct (Text.deleteText key (store c)) as [deleted p].
  cbn [fst snd] in Hd, Hproto', Hgone |- *. rewrite Hd, Hs. cbn [negb].
  destruct (github_sync_resolves key (Text.toJsonString p)
              (remote_state p (requests c))) as (g & Hg & _).
  destruct (github_sync_sent key (Text.toJsonString p)
              (remote_state p (requests c)))
    as (tr & E & Hbody & Hcount & _).
  destruct (github_sync env key (Text.toJsonString p)
              (remote_state p (requests c))) as [a s].
  cbn [fst snd] in Hg, E. subst a.
  cbn [fst snd resume store requests Text.memory Text.artifact json status].
  assert (Hnull : Text.getText key p = Text.VNull).
  { rewrite Records.getText_of_plain_key by assumption. now rewrite Hgone. }
  split; [exact Hnull |]. split; [reflexivity |]. split; [reflexivity |].
  split.
  - exists g. split; [reflexivity |]. unfold status_for.
    destruct g as [r |]; [| reflexivity]. now destruct (GitHub.success r).
  - rewrite E. cbn [remote_state GitHub.calls]. unfold added.
    rewrite skipn_app, skipn_all, Nat.sub_diag. cbn [skipn app]. now split.
Qed.


(** X27.  The handler of [GET /api/texts/:key], for a store whose [texts]
    object has its original prototype, answers 404 exactly when the key is
    plain and not stored, and 200 in every other case. So it answers 200 for
    a name that every object inherits from [Object.prototype], and for
    [__proto__], although nothing is stored under it; what it then sends as
    the text is no record. *)
Theorem getText_answers_404_for_missing_plain_keys_only key (c : server W) :
  Text.proto (Text.texts (Text.artifact (store c))) = None ->
  (status (fst (getText key c)) = 404 <->
     plain key /\ stored key (store c) = false) /\
  (status (fst (getText key c)) = 404 \/ status (fst (getText key c)) = 200) /\
  (stored key (store c) = false ->
   forall r, json (fst (getText key c)) <> OneText (Text.VItem r)).
Proof.
  intros Hproto.
  unfold getText, Text.getText, Text.texts_get, stored, plain,
    Text.Object_prototype_get.
  rewrite Hproto.
  destruct (Text.own_lookup key (Text.own (Text.texts (Text.artifact (store c)))))
    as [r0 |].
  - cbn [Text.truthy negb fst status json]. split; [| split].
    + split; [discriminate | intros [_ [=]]].
    + now right.
    + discriminate.
  - destruct (Text.is_in key Text.Object_prototype_methods).
    + cbn [Text.truthy negb fst status json]. split; [| split].
      * split; [discriminate | intros [[[=] _] _]].
      * now right.
      * intros _ r. discriminate.
    + destruct (String.eqb_spec key "__proto__") as [-> | Hne];
        cbn [Text.truthy negb fst status json]; (split; [| split]).
      * split; [discriminate | intros [[_ Hk] _]; now elim Hk].
      * now right.
      * intros _ r. discriminate.
      * split; [now intros _ | reflexivity].
      * now left.
      * intros _ r. discriminate.
Qed.

(** X28.  What is written is read, and what is deleted is not found. After
    [PUT /api/texts/:key] with a body that the schema accepts, for a plain
    key and a store whose [texts] object has its original prototype, [GET
    /api/texts/:key] answers 200 with the record that was written; [DELETE
    /api/texts/:key] then does not answer 404, and after it [GET
    /api/texts/:key] answers 404. This holds whatever the remote does. *)
Theorem get_after_put_and_after_delete key content approvedBy (c : server W) :
  content <> "" ->
  plain key ->
  Text.proto (Text.texts (Text.artifact (store c))) = None ->
  let c1 := snd (updateText env key (body_of content approvedBy) c) in
  let c2 := snd (deleteText env key c1) in
  (exists r t v,
     fst (getText key c1) = {| status := 200; json := OneText (Text.VItem r) |} /\
     Text.deref (Text.memory (store c1)) r
       = Some {| Text.key := key; Text.content := content;
                 Text.approvedAt := Some t; Text.approvedBy := approvedBy;
                 Text.version := Some v |}) /\
  status (fst (deleteText env key c1)) <> 404 /\
  fst (getText key c2) = {| status := 404; json := Refused "Text not found" |}.
Proof.
  intros Hc Hplain Hproto. cbv zeta.
  destruct (updateText_run key content approvedBy c Hc) as (g & _ & ->).
  cbn [snd].
  pose proof (Store.updateText_of_plain_key key content approvedBy (store c)
                Hproto (proj1 Hplain) (proj2 Hplain)) as H.
  cbv zeta in H. destruct H as (Hd & Hg & _).
  set (p1 := snd (Text.updateText key content approvedBy (store c))) in *.
  set (r := fst (Text.updateText key content approvedBy (store c))) in *.
  set (s1 := snd (github_sync env key (Text.toJsonString p1)
                    (remote_state p1 (requests c)))).
  assert (Hproto1 : Text.proto (Text.texts (Text.artifact p1)) = None).
  { unfold p1. rewrite Records.updateText_keeps_the_prototype;
      [exact Hproto | apply Hplain]. }
  assert (Hget1 : forall k, Text.getText k (store (resume p1 s1)) = Text.getText k p1)
    by reflexivity.
  split; [| split].
  - eexists r, _, _. split; [| exact Hd].
    unfold getText. rewrite Hget1, Hg. reflexivity.
  - assert (Hstored : stored key (store (resume p1 s1)) = true).
    { unfold stored. cbn [resume store Text.artifact].
      rewrite Records.getText_of_plain_key in Hg by assumption.
      now destruct (Text.own_lookup key (Text.own (Text.texts (Text.artifact p1)))). }
    destruct (Records.deleteText_of_plain_key key (store (resume p1 s1))
                Hproto1 Hplain) as (Hdel & _).
    unfold deleteText.
    destruct (Text.deleteText key (store (resume p1 s1))) as [deleted p2].
    cbn [fst] in Hdel. rewrite Hdel, Hstored. cbn [negb].
    destruct (github_sync_resolves key (Text.toJsonString p2)
                (remote_state p2 (requests (resume p1 s1)))) as (g2 & Hg2 & _).
    destruct (github_sync env key (Text.toJsonString p2)
                (remote_state p2 (requests (resume p1 s1)))) as [a2 s2].
    cbn [fst] in Hg2. subst a2. cbn [fst status]. unfold status_for.
    destruct g2 as [r2 |]; [| discriminate].
    destruct (negb (GitHub.success r2)); discriminate.
  - destruct (Records.deleteText_of_plain_key key (store (resume p1 s1))
                Hproto1 Hplain) as (_ & _ & Hproto2 & Hgone).
    assert (Hstore2 : Text.getText key (store (snd (deleteText env key (resume p1 s1))))
                      = Text.VNull).
    { unfold deleteText.
      destruct (Text.deleteText key (store (resume p1 s1))) as [deleted p2].
      cbn [snd] in Hproto2, Hgone.
      assert (Hnull : Text.getText key p2 = Text.VNull).
      { rewrite Records.getText_of_plain_key by assumption. now rewrite Hgone. }
      destruct (negb deleted); [exact Hnull |].
      destruct (github_sync env key (Text.toJsonString p2)
                  (remote_state p2 (requests (resume p1 s1)))) as [[g2 | e2] s2];
        exact Hnull. }
    unfold getText. rewrite Hstore2. reflexivity.
Qed.

End Requests.

(** ** In the scripted world *)

Import Mock Cases.
Import Controller.

Lemma plain_test_key : plain "test-key".
Proof. split; [reflexivity | discriminate]. Qed.

Lemma updateText_keeps_the_update_witness :
  let c := server_at 0 [Fails (ErrorObject "API Error"); Done] in
  let answer := fst (updateText with_credentials "test-key" test_body c) in
  let c' := snd (updateText with_credentials "test-key" test_body c) in
  "Test content" <> "" /\
  status answer = 207 /\
  Text.get_seen "test-key" (store c')
    = (Text.VItem 0,
       Some {| Text.key := "test-key"; Text.content := "Test content";
               Text.approvedAt := Some "1970-01-01T00:00:00.001Z";
               Text.approvedBy := Some "test-user";
               Text.version := Some (Text.Num 1) |}) /\
  Text.memory (store c')
    = Text.memory (snd (Text.updateText "test-key" "Test content"
                          (Some "test-user") (store c))).
Proof.
  intros c answer c'.
  assert (Hc : "Test content" <> "") by discriminate.
  pose proof (updateText_keeps_the_update_whatever_the_sync with_credentials
                "test-key" "Test content" (Some "test-user") c Hc) as H.
  cbv zeta in H. destruct H as (Hm & _).
  exact (conj Hc (conj eq_refl (conj eq_refl Hm))).
Defined.

Lemma update_reports_what_syncContent_returns_witness :
  let c := server_at 0 accepting in
  isGitHubPRModeEnabled with_credentials = true /\
  "Test content" <> "" /\
  new_GitHubService with_credentials = Resolved Mock.config /\
  fst (updateText with_credentials "test-key" test_body c)
    = {| status := 200;
         json := Updated 0 ("1.0.0", "1970-01-01T00:00:00.002Z", 1)
                   (Some (GitHub.Success
                            "https://github.com/test-owner/test-repo/pull/1")) |} /\
  exists config r,
    new_GitHubService with_credentials = Resolved config /\
    fst (GitHub.syncContent config "test-key"
           (Text.toJsonString
              (snd (Text.updateText "test-key" "Test content" (Some "test-user")
                      (store c)))) 0
           (remote_state
              (snd (Text.updateText "test-key" "Test content" (Some "test-user")
                      (store c))) (requests c))) = Resolved r /\
    fst (updateText with_credentials "test-key" test_body c)
      = {| status := if GitHub.success r then 200 else 207;
           json := Updated
                     (fst (Text.updateText "test-key" "Test content"
                             (Some "test-user") (store c)))
                     (Text.getMetadata
                        (snd (Text.updateText "test-key" "Test content"
                                (Some "test-user") (store c))))
                     (Some r) |} /\
    requests (snd (updateText with_credentials "test-key" test_body c))
      = GitHub.calls
          (snd (GitHub.syncContent config "test-key"
                  (Text.toJsonString
                     (snd (Text.updateText "test-key" "Test content"
                             (Some "test-user") (store c)))) 0
                  (remote_state
                     (snd (Text.updateText "test-key" "Test content"
                             (Some "test-user") (store c))) (requests c)))).
Proof.
  intros c.
  assert (Hc : "Test content" <> "") by discriminate.
  exact (conj eq_refl (conj Hc (conj eq_refl (conj eq_refl
           (update_reports_what_syncContent_returns with_credentials "test-key"
              "Test content" (Some "test-user") c eq_refl Hc))))).
Defined.

Lemma update_sends_the_new_serialisation_witness :
  let c := server_at 0 accepting in
  let sent :=
    added (requests c)
      (requests (snd (updateText with_credentials "test-key" test_body c))) in
  "Test content" <> "" /\
  filter GitHub.is_commit sent
    = [GitHub.CreateOrUpdateFileContents "test-owner" (Some "test-repo")
         "artifacts/texts.json"
         "Update text artifact for test-key - 1970-01-01T00:00:00.003Z"
         (encode "1.0.0 1970-01-01T00:00:00.002Z test-key") None
         "text-update-test-key-4"] /\
  Forall (fun r => GitHub.is_commit r = true ->
                   GitHub.commit_content r
                   = Some (encode "1.0.0 1970-01-01T00:00:00.002Z test-key"))
    sent /\
  GitHub.count GitHub.is_commit sent <= 2.
Proof.
  intros c sent.
  assert (Hc : "Test content" <> "") by discriminate.
  pose proof (update_sends_the_new_serialisation with_credentials "test-key"
                "Test content" (Some "test-user") c Hc) as H.
  cbv zeta in H. destruct H as (Hbody & Hcount & _).
  exact (conj Hc (conj eq_refl (conj Hbody Hcount))).
Defined.

Lemma without_credentials_nothing_is_sent_witness :
  let c := server_at 0 accepting in
  isGitHubPRModeEnabled without_credentials = false /\
  requests (snd (updateText without_credentials "test-key" test_body c)) = [] /\
  status (fst (updateText without_credentials "test-key" test_body c)) = 200 /\
  status (fst (updateText without_credentials "test-key" test_body c)) <> 207.
Proof.
  intros c.
  destruct (without_credentials_nothing_is_sent without_credentials "test-key"
              test_body c eq_refl) as (Hr & _ & Hs & _).
  exact (conj eq_refl (conj Hr (conj eq_refl Hs))).
Defined.


Lemma getText_answers_404_witness :
  let c := server_at 0 [] in
  Text.proto (Text.texts (Text.artifact (store c))) = None /\
  status (fst (getText "missing" c)) = 404 /\
  fst (getText "constructor" c)
    = {| status := 200; json := OneText (Text.VBuiltin "constructor") |} /\
  (status (fst (getText "constructor" c)) = 404 <->
     plain "constructor" /\ stored "constructor" (store c) = false).
Proof.
  intros c.
  destruct (getText_answers_404_for_missing_plain_keys_only "constructor" c
              eq_refl) as (H404 & _).
  exact (conj eq_refl (conj eq_refl (conj eq_refl H404))).
Defined.

Lemma get_after_put_and_after_delete_witness :
  let c := server_at 0 [] in
  let c1 := snd (updateText without_credentials "test-key" test_body c) in
  let c2 := snd (deleteText without_credentials "test-key" c1) in
  "Test content" <> "" /\
  plain "test-key" /\
  Text.proto (Text.texts (Text.artifact (store c))) = None /\
  fst (getText "test-key" c1)
    = {| status := 200; json := OneText (Text.VItem 0) |} /\
  status (fst (deleteText without_credentials "test-key" c1)) <> 404 /\
  fst (getText "test-key" c2)
    = {| status := 404; json := Refused "Text not found" |}.
Proof.
  intros c c1 c2.
  assert (Hc : "Test content" <> "") by discriminate.
  pose proof (get_after_put_and_after_delete without_credentials "test-key"
                "Test content" (Some "test-user") c Hc plain_test_key eq_refl) as H.
  cbv zeta in H. destruct H as (_ & Hdel & Hget).
  exact (conj Hc (conj plain_test_key (conj eq_refl (conj eq_refl
           (conj Hdel Hget))))).
Defined.

Lemma deleteText_sends_the_store_without_the_key_witness :
  let c := snd (updateText without_credentials "test-key" test_body
                  (server_at 0 accepting)) in
  let c' := snd (deleteText with_credentials "test-key" c) in
  Text.proto (Text.texts (Text.artifact (store c))) = None /\
  plain "test-key" /\
  stored "test-key" (store c) = true /\
  status (fst (deleteText with_credentials "test-key" c)) = 200 /\
  Text.getText "test-key" (store c') = Text.VNull /\
  filter GitHub.is_commit (added (requests c) (requests c'))
    = [GitHub.CreateOrUpdateFileContents "test-owner" (Some "test-repo")
         "artifacts/texts.json"
         "Update text artifact for test-key - 1970-01-01T00:00:00.004Z"
         (encode "1.0.0 1970-01-01T00:00:00.003Z ") None
         "text-update-test-key-5"] /\
  GitHub.count GitHub.is_commit (added (requests c) (requests c')) <= 2.
Proof.
  intros c c'.
  pose proof (deleteText_sends_the_store_without_the_key with_credentials
                "test-key" c eq_refl plain_test_key eq_refl) as H.
  cbv zeta in H. destruct H as (Hnull & _ & _ & _ & _ & Hcount).
  exact (conj eq_refl (conj plain_test_key (conj eq_refl (conj eq_refl
           (conj Hnull (conj eq_refl Hcount)))))).
Defined.

End Requests.
